(** * Weather ETL pipeline and dashboard

    A shallow embedding of [etl_weather.py] (schema management, seeding,
    back-dated snapshots, the ETL cycle, e-mail alerts) and of the filter and
    section logic of the Streamlit dashboard [app.py], with the properties
    the specification states about them.

    Conventions
    - Python code that can raise returns a [result]; code that also touches
      the database, the network, the mail relay or standard output runs in
      the monad [M], which threads a [world] and keeps the effects made
      before an exception.
    - Everything outside the repository that the pipeline talks to (the
      weather API, database faults, the mail relay, pandas' timestamp
      conversion) is gathered in an [Env] record and universally
      quantified over in the theorems. *)

From Stdlib Require Import ZArith QArith List String Lia.
From Stdlib Require Import Floats.SpecFloat.
From stdpp Require Import base strings gmap list.

Local Open Scope string_scope.
Local Open Scope list_scope.
Local Open Scope Z_scope.

(** ** Python values and exceptions *)

(** The exceptions the modelled code can see.  All of them derive from
    Python's [Exception]. *)
Inductive exn :=
| HTTPError (status : Z)          (* requests: raise_for_status *)
| ConnectionError                 (* requests: no response at all *)
| JSONDecodeError                 (* requests: body is not JSON *)
| KeyError (key : string)
| IndexError
| TypeError
| OverflowError
| OperationalError (msg : string) (* sqlite: no such table, locked, ... *)
| IntegrityError                  (* sqlite: constraint violated *)
| SMTPException
| OtherError (msg : string).

Inductive result (A : Type) :=
| Ok (a : A)
| Raise (e : exn).
Arguments Ok {A} a.
Arguments Raise {A} e.

Definition and_then {A B} (r : result A) (k : A -> result B) : result B :=
  match r with Ok a => k a | Raise e => Raise e end.

Notation "'let!' x ':=' r 'in' k" := (and_then r (fun x => k))
  (at level 10, x name, r at level 100, k at level 200,
   format "'[v' 'let!'  x  :=  r  'in' '/' k ']'").

Definition is_ok {A} (r : result A) : bool :=
  match r with Ok _ => true | Raise _ => false end.

Set Warnings "-register-all".

(** What [json.loads] produces: [None], [bool], [int], [float], [str],
    [list] and [dict] with string keys.  Floats are IEEE binary64. *)
Inductive json :=
| JNull
| JBool (b : bool)
| JInt (z : Z)
| JFloat (f : spec_float)
| JStr (s : string)
| JArr (l : list json)
| JObj (items : list (string * json)).

Fixpoint dict_get (items : list (string * json)) (k : string) : option json :=
  match items with
  | [] => None
  | (k', v) :: rest => if String.eqb k' k then Some v else dict_get rest k
  end.

(** [v[k]] for a string key [k]. *)
Definition getitem (v : json) (k : string) : result json :=
  match v with
  | JObj items =>
      match dict_get items k with
      | Some x => Ok x
      | None => Raise (KeyError k)
      end
  | _ => Raise TypeError
  end.

(** [v[0]]. *)
Definition getitem_0 (v : json) : result json :=
  match v with
  | JArr (x :: _) => Ok x
  | JArr [] => Raise IndexError
  | JStr (String c _) => Ok (JStr (String c EmptyString))
  | JStr EmptyString => Raise IndexError
  | JObj _ => Raise (KeyError "0")
  | _ => Raise TypeError
  end.

Definition float64_of_Z (k : Z) : spec_float := binary_normalize 53 1024 k 0 false.

(** [v - k] for a Python int [k]. *)
Definition py_sub (v : json) (k : Z) : result json :=
  match v with
  | JInt z => Ok (JInt (z - k))
  | JBool b => Ok (JInt ((if b then 1 else 0) - k))
  | JFloat f =>
      match float64_of_Z k with
      | S754_infinity _ => Raise OverflowError
      | fk => Ok (JFloat (SFsub 53 1024 f fk))
      end
  | _ => Raise TypeError
  end.

(** [range(n)] *)
Definition py_range (n : Z) : list Z := map Z.of_nat (seq 0 (Z.to_nat n)).

Fixpoint mapM_result {A B} (f : A -> result B) (l : list A) : result (list B) :=
  match l with
  | [] => Ok []
  | x :: rest =>
      match f x with
      | Raise e => Raise e
      | Ok y =>
          match mapM_result f rest with
          | Raise e => Raise e
          | Ok ys => Ok (y :: ys)
          end
      end
  end.

(** ** Tables

    [dim_location] and [fact_weather] as declared with SQLAlchemy.  The only
    uniqueness constraint of either table is its integer primary key, which
    SQLite fills with one more than the largest key in use. *)

Record dim_row := {
  dl_location_id : Z;
  dl_city_name : string;
  dl_country : string;
  dl_lat : Q;
  dl_lon : Q
}.

(** The ten columns shared by the dict [fetch_one_record] returns (where
    [obs_ts] is the UNIX time the API reported, [T = json]) and by the data
    frame written to [fact_weather] (where it is a UTC instant in epoch
    seconds, or NaT, [T = option Z]). *)
Record weather_rec (T : Type) := {
  location_id : Z;
  obs_ts : T;
  temp_c : json;
  feels_like_c : json;
  humidity_pct : json;
  pressure_hpa : json;
  wind_speed_ms : json;
  clouds_pct : json;
  weather_main : json;
  weather_desc : json
}.
Arguments location_id {T} _.
Arguments obs_ts {T} _.
Arguments temp_c {T} _.
Arguments feels_like_c {T} _.
Arguments humidity_pct {T} _.
Arguments pressure_hpa {T} _.
Arguments wind_speed_ms {T} _.
Arguments clouds_pct {T} _.
Arguments weather_main {T} _.
Arguments weather_desc {T} _.

(** [d2 = d.copy(); d2["obs_ts"] = v] *)
Definition with_obs_ts {T U} (d : weather_rec T) (v : U) : weather_rec U :=
  {| location_id := location_id d; obs_ts := v;
     temp_c := temp_c d; feels_like_c := feels_like_c d;
     humidity_pct := humidity_pct d; pressure_hpa := pressure_hpa d;
     wind_speed_ms := wind_speed_ms d; clouds_pct := clouds_pct d;
     weather_main := weather_main d; weather_desc := weather_desc d |}.

(** The measured fields of a record: everything but the key and the time. *)
Definition measured {T} (d : weather_rec T) : list json :=
  [temp_c d; feels_like_c d; humidity_pct d; pressure_hpa d;
   wind_speed_ms d; clouds_pct d; weather_main d; weather_desc d].

(** A stored fact row: its [id] and the ten written columns. *)
Definition fact_row : Type := Z * weather_rec (option Z).

Record fact_table := {
  (* created by [meta.create_all]: [obs_ts] is NOT NULL; a table that
     [to_sql] had to create itself has no constraint *)
  fw_declared : bool;
  fw_rows : list fact_row
}.

Record database := {
  dim_location : option (list dim_row);
  fact_weather : option fact_table
}.

(** A database file that does not exist yet opens as an empty database. *)
Definition empty_db : database := {| dim_location := None; fact_weather := None |}.

Definition next_id (ids : list Z) : Z := 1 + fold_right Z.max 0 ids.

(** The row dict handed to [fetch_one_record]. *)
Record loc_dict := { row_location_id : Z; row_lat : Q; row_lon : Q }.

(** ** The environment *)

Inductive table := DimLocation | FactWeather.

Inductive db_op :=
| OpDrop (t : table)
| OpCreateAll
| OpInsertLocation
| OpSelectLocations (path : string)
| OpAppendFacts (path : string).

Inductive http_reply :=
| NoReply (e : exn)                        (* [requests.get] raises *)
| Reply (status : Z) (body : option json). (* [None]: the body is not JSON *)

Record Env := {
  (* the file behind DB_URL = sqlite:///<DB_PATH> *)
  DB_PATH : string;
  (* the answer of the weather API for a latitude and a longitude *)
  http_get : Q -> Q -> http_reply;
  (* a database statement may fail for reasons of its own *)
  db_fault : db_op -> option exn;
  (* the mail relay may refuse a message, by subject *)
  smtp_fault : string -> option exn;
  (* pd.to_datetime(x, unit="s", utc=True) on one cell *)
  pd_to_datetime : json -> result (option Z)
}.

(** ** The world and the monad *)

Inductive log_line :=
| LogAlertSent
| LogAlertFailed (e : exn)
| LogTablesRecreated
| LogSeeded (df_locs : list dim_row)
| LogNoCitiesBackdate
| LogBackdated (n : nat) (hours : Z)
| LogNoCitiesEtl
| LogFetchError (location : Z) (e : exn)
| LogNoData
| LogLoaded (n : nat).

Inductive event :=
| EvPrint (l : log_line)
| EvHttpGet (lat lon : Q)
| EvSleep
| EvMail (subject intro : string) (cause : exn)
| EvToSql (path : string) (rows : list (weather_rec (option Z))).

Record world := {
  files : gmap string database;
  trace : list event
}.

Definition M (A : Type) : Type := world -> result A * world.

Definition ret {A} (a : A) : M A := fun w => (Ok a, w).
Definition raise {A} (e : exn) : M A := fun w => (Raise e, w).
Definition bind {A B} (m : M A) (k : A -> M B) : M B :=
  fun w => match m w with
           | (Ok a, w') => k a w'
           | (Raise e, w') => (Raise e, w')
           end.
Definition lift {A} (r : result A) : M A := fun w => (r, w).

(** [try: m  except Exception as e: h e] *)
Definition try_except {A} (m : M A) (h : exn -> M A) : M A :=
  fun w => match m w with
           | (Ok a, w') => (Ok a, w')
           | (Raise e, w') => h e w'
           end.

Notation "'do' x <- m ; k" := (bind m (fun x => k))
  (at level 10, x name, m at level 100, k at level 200,
   format "'[v' 'do'  x  <-  m ; '/' k ']'").

Definition emit (ev : event) : M unit :=
  fun w => (Ok tt, {| files := files w; trace := trace w ++ [ev] |}).
Definition print (l : log_line) : M unit := emit (EvPrint l).
Definition sleep : M unit := emit EvSleep.

(** *** The database files *)

Definition get_db (p : string) (w : world) : database :=
  default empty_db (files w !! p).

(** A statement that only reads. *)
Definition db_query {A} (env : Env) (op : db_op) (p : string)
    (q : database -> result A) : M A :=
  fun w => match db_fault env op with
           | Some e => (Raise e, w)
           | None => (q (get_db p w), w)
           end.

(** A statement that writes; a statement that raises changes nothing. *)
Definition db_exec (env : Env) (op : db_op) (p : string)
    (f : database -> result database) : M unit :=
  fun w => match db_fault env op with
           | Some e => (Raise e, w)
           | None =>
               match f (get_db p w) with
               | Ok d => (Ok tt, {| files := <[p := d]> (files w); trace := trace w |})
               | Raise e => (Raise e, w)
               end
           end.

(** [with engine.begin() as conn: body]: commit when [body] returns, roll
    the file back when it raises. *)
Definition engine_begin {A} (env : Env) (body : M A) : M A :=
  fun w => match body w with
           | (Ok a, w') => (Ok a, w')
           | (Raise e, w') =>
               (Raise e,
                {| files := match files w !! DB_PATH env with
                            | Some d => <[DB_PATH env := d]> (files w')
                            | None => delete (DB_PATH env) (files w')
                            end;
                   trace := trace w' |})
           end.

Definition no_such_table (t : string) : exn := OperationalError ("no such table: " +:+ t).

(** [DROP TABLE IF EXISTS t] through the engine *)
Definition drop_table_if_exists (env : Env) (t : table) : M unit :=
  db_exec env (OpDrop t) (DB_PATH env) (fun d =>
    Ok match t with
       | DimLocation => {| dim_location := None; fact_weather := fact_weather d |}
       | FactWeather => {| dim_location := dim_location d; fact_weather := None |}
       end).

(** [meta.create_all(engine)]: create the tables that do not exist yet. *)
Definition create_all (env : Env) : M unit :=
  db_exec env OpCreateAll (DB_PATH env) (fun d =>
    Ok {| dim_location := Some (default [] (dim_location d));
          fact_weather := Some (default {| fw_declared := true; fw_rows := [] |}
                                        (fact_weather d)) |}).

(** [INSERT OR IGNORE INTO dim_location (lat, lon, city_name, country)]: the
    new row takes the next free key, and is dropped without an error when it
    violates a uniqueness constraint of the table.  [dim_location] declares
    one, its primary key. *)
Definition dim_conflict (rows : list dim_row) (r : dim_row) : bool :=
  existsb (fun r' => dl_location_id r' =? dl_location_id r) rows.

Definition insert_or_ignore (rows : list dim_row) (lat lon : Q) (city country : string)
    : list dim_row :=
  let r := {| dl_location_id := next_id (map dl_location_id rows);
              dl_city_name := city; dl_country := country;
              dl_lat := lat; dl_lon := lon |} in
  if dim_conflict rows r then rows else rows ++ [r].

Definition insert_location (env : Env) (lat lon : Q) (city country : string) : M unit :=
  db_exec env OpInsertLocation (DB_PATH env) (fun d =>
    match dim_location d with
    | None => Raise (no_such_table "dim_location")
    | Some rows =>
        Ok {| dim_location := Some (insert_or_ignore rows lat lon city country);
              fact_weather := fact_weather d |}
    end).

(** [pd.read_sql("SELECT * FROM dim_location", engine)] *)
Definition read_dim_location (env : Env) : M (list dim_row) :=
  db_query env (OpSelectLocations (DB_PATH env)) (DB_PATH env) (fun d =>
    match dim_location d with
    | None => Raise (no_such_table "dim_location")
    | Some rows => Ok rows
    end).

(** The three columns the pipeline selects to fetch for a location. *)
Definition to_loc_dict (r : dim_row) : loc_dict :=
  {| row_location_id := dl_location_id r; row_lat := dl_lat r; row_lon := dl_lon r |}.

(** [pd.read_sql("SELECT location_id, lat, lon FROM dim_location", conn)]
    on the database file [p]. *)
Definition read_locations (env : Env) (p : string) : M (list loc_dict) :=
  db_query env (OpSelectLocations p) p (fun d =>
    match dim_location d with
    | None => Raise (no_such_table "dim_location")
    | Some rows => Ok (map to_loc_dict rows)
    end).

(** [df.to_sql("fact_weather", conn, if_exists="append", index=False)] on
    the file [p]: all rows or none.  Rows get consecutive fresh ids. *)
Fixpoint number_rows (first : Z) (rows : list (weather_rec (option Z))) : list fact_row :=
  match rows with
  | [] => []
  | r :: rest => (first, r) :: number_rows (first + 1) rest
  end.

Definition has_nat (rows : list (weather_rec (option Z))) : bool :=
  existsb (fun r => match obs_ts r with None => true | Some _ => false end) rows.

Definition append_facts (d : database) (rows : list (weather_rec (option Z)))
    : result database :=
  match fact_weather d with
  | None =>
      Ok {| dim_location := dim_location d;
            fact_weather := Some {| fw_declared := false;
                                    fw_rows := number_rows 1 rows |} |}
  | Some t =>
      if fw_declared t && has_nat rows then Raise IntegrityError
      else Ok {| dim_location := dim_location d;
                 fact_weather :=
                   Some {| fw_declared := fw_declared t;
                           fw_rows := fw_rows t
                                      ++ number_rows (next_id (map fst (fw_rows t))) rows |} |}
  end.

Definition to_sql (env : Env) (p : string) (rows : list (weather_rec (option Z))) : M unit :=
  do _ <- emit (EvToSql p rows);
  db_exec env (OpAppendFacts p) p (fun d => append_facts d rows).

(** ** The pipeline, [etl_weather.py] *)

Section Pipeline.
Context (env : Env).

(** *** 2. Email alert helper *)

(** The SMTP session: connect, STARTTLS, login, send, quit. *)
Definition smtp_session (subject : string) (body : string * exn) : M unit :=
  fun w => match smtp_fault env subject with
           | Some e => (Raise e, w)
           | None => emit (EvMail subject (fst body) (snd body)) w
           end.

(** [body] is the introducing sentence and the exception it formats. *)
Definition send_failure_alert (subject : string) (body : string * exn) : M unit :=
  try_except
    (do _ <- smtp_session subject body;
     print LogAlertSent)
    (fun e => print (LogAlertFailed e)).

(** [except Exception as e: send_failure_alert(subject, f"{intro}\n\n{e}"); raise] *)
Definition alert_and_reraise {A} (subject intro : string) (e : exn) : M A :=
  do _ <- send_failure_alert subject (intro, e);
  raise e.

(** *** 5. Create (or recreate) the tables *)

Definition recreate_tables : M unit :=
  try_except
    (do _ <- engine_begin env
               (do _ <- drop_table_if_exists env FactWeather;
                drop_table_if_exists env DimLocation);
     do _ <- create_all env;
     print LogTablesRecreated)
    (alert_and_reraise "ETL Failure Alert: recreate_tables"
                       "An error occurred while recreating tables:").

(** *** 6. Seed dim_location with sample cities *)

Definition cities : list (Q * Q * string * string) :=
  [ (12.9716%Q, 77.5946%Q, "Bengaluru", "IN");
    (51.5072%Q, (-0.1276)%Q, "London", "GB");
    (40.7128%Q, (-74.0060)%Q, "New York", "US") ].

Fixpoint insert_cities (cs : list (Q * Q * string * string)) : M unit :=
  match cs with
  | [] => ret tt
  | (lat, lon, city, country) :: rest =>
      do _ <- insert_location env lat lon city country;
      insert_cities rest
  end.

Definition seed_locations : M unit :=
  try_except
    (do _ <- engine_begin env (insert_cities cities);
     do df_locs <- read_dim_location env;
     print (LogSeeded df_locs))
    (alert_and_reraise "ETL Failure Alert: seed_locations"
                       "An error occurred while seeding dim_location:").

(** *** 7. Fetch one current weather record per city *)

(** [r.raise_for_status()]: 4xx and 5xx raise. *)
Definition raise_for_status (status : Z) : result unit :=
  if (400 <=? status) && (status <? 600) then Raise (HTTPError status) else Ok tt.

(** [r.json()] *)
Definition r_json (body : option json) : result json :=
  match body with
  | Some data => Ok data
  | None => Raise JSONDecodeError
  end.

(** The dict display of [fetch_one_record], evaluated top to bottom. *)
Definition flatten (location_row : loc_dict) (data : json) : result (weather_rec json) :=
  let! dt := getitem data "dt" in
  let! temp := and_then (getitem data "main") (fun m => getitem m "temp") in
  let! feels_like := and_then (getitem data "main") (fun m => getitem m "feels_like") in
  let! humidity := and_then (getitem data "main") (fun m => getitem m "humidity") in
  let! pressure := and_then (getitem data "main") (fun m => getitem m "pressure") in
  let! speed := and_then (getitem data "wind") (fun w => getitem w "speed") in
  let! all := and_then (getitem data "clouds") (fun c => getitem c "all") in
  let! main := and_then (and_then (getitem data "weather") getitem_0)
                        (fun x => getitem x "main") in
  let! description := and_then (and_then (getitem data "weather") getitem_0)
                               (fun x => getitem x "description") in
  Ok {| location_id := row_location_id location_row;
        obs_ts := dt;
        temp_c := temp;
        feels_like_c := feels_like;
        humidity_pct := humidity;
        pressure_hpa := pressure;
        wind_speed_ms := speed;
        clouds_pct := all;
        weather_main := main;
        weather_desc := description |}.

(** [requests.get(OWM_URL, params=..., timeout=10)] *)
Definition requests_get (lat lon : Q) : M (Z * option json) :=
  do _ <- emit (EvHttpGet lat lon);
  match http_get env lat lon with
  | NoReply e => raise e
  | Reply status body => ret (status, body)
  end.

Definition fetch_one_record (location_row : loc_dict) : M (weather_rec json) :=
  do r <- requests_get (row_lat location_row) (row_lon location_row);
  do _ <- lift (raise_for_status (fst r));
  do data <- lift (r_json (snd r));
  lift (flatten location_row data).

(** *** 8. Back-dated snapshots *)

(** One pass of [for h in range(hours)]: a copy of [base] moved back [h] hours. *)
Definition snapshot (base : weather_rec json) (h : Z) : result (weather_rec json) :=
  let! ts := py_sub (obs_ts base) (h * 3600) in
  Ok (with_obs_ts base ts).

Definition snapshots (base : weather_rec json) (hours : Z) : result (list (weather_rec json)) :=
  mapM_result (snapshot base) (py_range hours).

(** [for row in df_locs.itertuples(index=False)], with [all_rows] as accumulator. *)
Fixpoint backdate_loop (hours : Z) (df_locs : list loc_dict)
    (all_rows : list (weather_rec json)) : M (list (weather_rec json)) :=
  match df_locs with
  | [] => ret all_rows
  | row :: rest =>
      do base <- fetch_one_record row;
      do snaps <- lift (snapshots base hours);
      do _ <- sleep;
      backdate_loop hours rest (all_rows ++ snaps)
  end.

(** [df = pd.DataFrame(rows); df["obs_ts"] = pd.to_datetime(df["obs_ts"],
    unit="s", utc=True)] and the selection of the ten columns.  A frame
    built from no rows has no column [obs_ts]. *)
Definition to_frame (rows : list (weather_rec json))
    : result (list (weather_rec (option Z))) :=
  match rows with
  | [] => Raise (KeyError "obs_ts")
  | _ => mapM_result (fun r => let! t := pd_to_datetime env (obs_ts r) in
                               Ok (with_obs_ts r t)) rows
  end.

Definition insert_backdated_snapshots (hours : Z) : M unit :=
  try_except
    (do df_locs <- read_locations env "weather.db";
     match df_locs with
     | [] => print LogNoCitiesBackdate
     | _ =>
         do all_rows <- backdate_loop hours df_locs [];
         do df_to_write <- lift (to_frame all_rows);
         do _ <- to_sql env "weather.db" df_to_write;
         print (LogBackdated (length df_to_write) hours)
     end)
    (alert_and_reraise "ETL Failure Alert: insert_backdated_snapshots"
                       "An error occurred in back-date helper:").

(** *** 9. The standard ETL cycle *)

Fixpoint etl_loop (df_locs : list loc_dict) (rows : list (weather_rec json))
    : M (list (weather_rec json)) :=
  match df_locs with
  | [] => ret rows
  | row :: rest =>
      do rows' <- try_except
                    (do flat <- fetch_one_record row;
                     let appended := rows ++ [flat] in
                     do _ <- sleep;
                     ret appended)
                    (fun fetch_err =>
                       do _ <- print (LogFetchError (row_location_id row) fetch_err);
                       ret rows);
      etl_loop rest rows'
  end.

Definition etl_once : M unit :=
  try_except
    (do df_locs <- read_locations env (DB_PATH env);
     match df_locs with
     | [] => print LogNoCitiesEtl
     | _ =>
         do rows <- etl_loop df_locs [];
         match rows with
         | [] => print LogNoData
         | _ =>
             do df_to_insert <- lift (to_frame rows);
             do _ <- engine_begin env (to_sql env (DB_PATH env) df_to_insert);
             print (LogLoaded (length df_to_insert))
         end
     end)
    (alert_and_reraise "ETL Failure Alert: etl_once"
                       "An exception occurred during ETL:").

End Pipeline.

(** ** The dashboard, [app.py] *)

Module Dashboard.

(** One row of [df_weather]: the join of [fact_weather] and [dim_location],
    indexed by [obs_ts].  The index is a UTC instant in epoch seconds, or
    NaT where [pd.to_datetime(..., errors="coerce")] could not read the
    stored value. *)
Record row := {
  obs_ts : option Z;
  temp_c : json;
  feels_like_c : json;
  humidity_pct : json;
  pressure_hpa : json;
  wind_speed_ms : json;
  clouds_pct : json;
  city_name : string;
  weather_main : json;
  weather_desc : json
}.

(** *** 2. Sidebar controls *)

(** [Series.unique().tolist()]: first occurrences, in order. *)
Fixpoint unique (l : list string) : list string :=
  match l with
  | [] => []
  | x :: rest => x :: List.filter (fun y => negb (String.eqb x y)) (unique rest)
  end.

Definition cities (df_weather : list row) : list string :=
  unique (map city_name df_weather).

Record sections := {
  section_overview : bool;
  section_stats : bool;
  section_corr : bool;
  section_viz : bool
}.

(** *** 3. Filter data based on selections *)

Definition isin (selected_cities : list string) (c : string) : bool :=
  existsb (String.eqb c) selected_cities.

Definition filter_cities (selected_cities : list string) (df_weather : list row)
    : list row :=
  match selected_cities with
  | [] => df_weather
  | _ => List.filter (fun r => isin selected_cities (city_name r)) df_weather
  end.

(** [pd.to_datetime(d).tz_localize("UTC")] for a [date] [d], counted in days
    since 1970-01-01: the instant at which that day starts. *)
Definition to_utc_timestamp (d : Z) : Z := d * 86400.

(** Comparisons of the index with a timestamp; NaT compares false. *)
Definition index_ge (t : option Z) (ts : Z) : bool :=
  match t with Some x => ts <=? x | None => false end.
Definition index_le (t : option Z) (ts : Z) : bool :=
  match t with Some x => x <=? ts | None => false end.

Definition df_filtered (selected_cities : list string) (start_date end_date : Z)
    (df_weather : list row) : list row :=
  let start_ts := to_utc_timestamp start_date in
  let end_ts := to_utc_timestamp end_date in
  List.filter (fun r => index_ge (obs_ts r) start_ts && index_le (obs_ts r) end_ts)
              (filter_cities selected_cities df_weather).

(** *** 4 to 7. What the page shows *)

(** A mean shown with one decimal: the literal [0] of the source, or the
    mean of a column. *)
Inductive average := Zero | MeanOf (column : string).

Inductive metric_value :=
| Count (n : nat)
| OneDecimal (a : average).

(** The Streamlit elements the script emits.  Titles are given without
    their leading pictograph; tables and figures are named after what they
    show, their content is not computed. *)
Inductive element :=
| Title (s : string)
| Markdown (cities : list string) (start_date end_date : Z) (total : nat)
| Metric (label : string) (value : metric_value)
| Header (s : string)
| Subheader (s : string)
| Info (msg : string)
| Expander (label : string) (table : string)
| Pyplot (figure : string)
| Tab (name : string) (content : list element).

Definition no_data : element := Info "No data available for the selected filters.".

Definition empty (df : list row) : bool :=
  match df with [] => true | _ => false end.

Definition numeric_cols : list string :=
  ["temp_c"; "feels_like_c"; "humidity_pct"; "pressure_hpa"; "wind_speed_ms"; "clouds_pct"].

Inductive section := Overview | Statistics | Correlation | Visualizations.

Definition enabled (s : sections) (x : section) : bool :=
  match x with
  | Overview => section_overview s
  | Statistics => section_stats s
  | Correlation => section_corr s
  | Visualizations => section_viz s
  end.

Definition render_overview (df : list row) : list element :=
  [ Metric "Total Records" (Count (length df));
    Metric "Avg Temperature (°C)"
           (OneDecimal (if negb (empty df) then MeanOf "temp_c" else Zero));
    Metric "Avg Humidity (%)"
           (OneDecimal (if negb (empty df) then MeanOf "humidity_pct" else Zero)) ].

Definition render_stats (df : list row) : list element :=
  Header "Descriptive Statistics by City"
  :: (if empty df then [no_data]
      else [Expander "Show Statistics Table" "stats_by_city"]).

Definition render_corr (df : list row) : list element :=
  Header "Correlation Matrix"
  :: (if empty df then [no_data] else [Pyplot "corr_matrix"]).

Definition tab (name title : string) (df : list row) (charts : list element) : element :=
  Tab name (Subheader title :: (if empty df then [no_data] else charts)).

Definition render_viz (df : list row) : list element :=
  [ Header "Visualizations";
    tab "Histogram" "Histograms of Numeric Features" df (map Pyplot numeric_cols);
    tab "Boxplot" "Boxplots by City" df
        [Pyplot "Temperature by City"; Pyplot "Humidity by City"];
    tab "Time Series" "Hourly Temperature Trend" df
        [Pyplot "Hourly Temperature by City (UTC Hour)"];
    tab "Scatterplot" "Temperature vs. Humidity by City" df
        [Pyplot "Temp vs. Humidity"];
    tab "Pie Chart" "Weather Main Category Distribution" df
        [Pyplot "Weather Categories"] ].

Definition render_section (x : section) (df : list row) : list element :=
  match x with
  | Overview => render_overview df
  | Statistics => render_stats df
  | Correlation => render_corr df
  | Visualizations => render_viz df
  end.

(** The whole script, top to bottom. *)
Definition page (s : sections) (selected_cities : list string)
    (start_date end_date : Z) (df_weather : list row) : list element :=
  let df := df_filtered selected_cities start_date end_date df_weather in
  [ Title "Weather Data Dashboard";
    Markdown selected_cities start_date end_date (length df) ]
  ++ concat (map (fun x => if enabled s x then render_section x df else [])
                 [Overview; Statistics; Correlation; Visualizations]).

(** Is the element the "no data" notice, or a tab that contains it? *)
Fixpoint is_no_data (e : element) : bool :=
  match e with
  | Info msg => String.eqb msg "No data available for the selected filters."
  | Tab _ content => existsb is_no_data content
  | _ => false
  end.

Definition shows_no_data (els : list element) : bool := existsb is_no_data els.

(** The "Total Records" figures a list of elements displays. *)
Definition total_records (els : list element) : list nat :=
  flat_map (fun e => match e with
                     | Markdown _ _ _ total => [total]
                     | Metric "Total Records" (Count n) => [n]
                     | _ => []
                     end) els.

End Dashboard.

(** ** Observations used in the statements *)

(** The rows of [fact_weather] in the file [p]. *)
Definition fact_rows (p : string) (w : world) : list fact_row :=
  match fact_weather (get_db p w) with
  | Some t => fw_rows t
  | None => []
  end.

(** The rows of [dim_location] in the file [p]. *)
Definition dim_rows (p : string) (w : world) : list dim_row :=
  match dim_location (get_db p w) with
  | Some rows => rows
  | None => []
  end.

(** The batches handed to [to_sql], oldest first. *)
Definition to_sql_calls (t : list event) : list (list (weather_rec (option Z))) :=
  flat_map (fun ev => match ev with EvToSql _ rows => [rows] | _ => [] end) t.

Definition mails (t : list event) : list event :=
  List.filter (fun ev => match ev with EvMail _ _ _ => true | _ => false end) t.

Definition http_calls (t : list event) : list event :=
  List.filter (fun ev => match ev with EvHttpGet _ _ => true | _ => false end) t.

(** What [fetch_one_record] returns or raises for a location.  The world it
    starts from plays no part, see [fetch_one_record_run]. *)
Definition outcome (env : Env) (location_row : loc_dict) : result (weather_rec json) :=
  fst (fetch_one_record env location_row {| files := ∅; trace := [] |}).

(** The records of the locations whose fetch succeeded, in table order. *)
Definition fetched (env : Env) (df_locs : list loc_dict) : list (weather_rec json) :=
  flat_map (fun row => match outcome env row with Ok flat => [flat] | Raise _ => [] end)
           df_locs.

(** A field of the response body, as a path of keys and first elements. *)
Inductive step := Key (k : string) | First.

Fixpoint lookup_path (p : list step) (v : json) : option json :=
  match p with
  | [] => Some v
  | Key k :: p' =>
      match v with
      | JObj items =>
          match dict_get items k with
          | Some x => lookup_path p' x
          | None => None
          end
      | _ => None
      end
  | First :: p' =>
      match v with
      | JArr (x :: _) => lookup_path p' x
      | _ => None
      end
  end.

(** dt, main.temp, main.feels_like, main.humidity, main.pressure, wind.speed,
    clouds.all, weather[0].main, weather[0].description *)
Definition expected_fields : list (list step) :=
  [ [Key "dt"];
    [Key "main"; Key "temp"];
    [Key "main"; Key "feels_like"];
    [Key "main"; Key "humidity"];
    [Key "main"; Key "pressure"];
    [Key "wind"; Key "speed"];
    [Key "clouds"; Key "all"];
    [Key "weather"; First; Key "main"];
    [Key "weather"; First; Key "description"] ].

(** The fields of a flattened record, in the order of [expected_fields]. *)
Definition flat_fields (r : weather_rec json) : list json :=
  [obs_ts r; temp_c r; feels_like_c r; humidity_pct r; pressure_hpa r;
   wind_speed_ms r; clouds_pct r; weather_main r; weather_desc r].

(** The exceptions a malformed body raises: the specification's ParseError. *)
Definition is_parse_error (e : exn) : bool :=
  match e with
  | KeyError _ | IndexError | TypeError => true
  | _ => false
  end.

(** The statuses [raise_for_status] rejects: client and server errors. *)
Definition error_status (status : Z) : Prop := 400 <= status < 600.

Definition no_db_fault (env : Env) : Prop := forall op, db_fault env op = None.

(** The world after more events were recorded. *)
Definition add_events (w : world) (evs : list event) : world :=
  {| files := files w; trace := trace w ++ evs |}.

(** What an alert leaves in the trace. *)
Definition alert_events (env : Env) (subject intro : string) (cause : exn) : list event :=
  match smtp_fault env subject with
  | Some e => [EvPrint (LogAlertFailed e)]
  | None => [EvMail subject intro cause; EvPrint LogAlertSent]
  end.

(** What the loop of [etl_once] leaves in the trace. *)
Definition etl_loop_events (env : Env) (df_locs : list loc_dict) : list event :=
  flat_map (fun row =>
              EvHttpGet (row_lat row) (row_lon row)
              :: match outcome env row with
                 | Ok _ => [EvSleep]
                 | Raise e => [EvPrint (LogFetchError (row_location_id row) e)]
                 end) df_locs.

(** The first statement of [recreate_tables] that fails, if one does. *)
Definition recreate_fault (env : Env) : option exn :=
  match db_fault env (OpDrop FactWeather) with
  | Some e => Some e
  | None =>
      match db_fault env (OpDrop DimLocation) with
      | Some e => Some e
      | None => db_fault env OpCreateAll
      end
  end.

(** The snapshots [insert_backdated_snapshots] derives for one location. *)
Definition backdated (env : Env) (hours : Z) (row : loc_dict)
    : result (list (weather_rec json)) :=
  and_then (outcome env row) (fun base => snapshots base hours).

(** The UNIX times of a list of records. *)
Definition epochs (l : list (weather_rec json)) : list Z :=
  flat_map (fun r => match obs_ts r with JInt z => [z] | _ => [] end) l.

(** The world after the file [p] was replaced by [d]. *)
Definition set_db (p : string) (d : database) (w : world) : world :=
  {| files := <[p := d]> (files w); trace := trace w |}.

(** Both tables, as [meta.create_all] makes them. *)
Definition fresh_db : database :=
  {| dim_location := Some [];
     fact_weather := Some {| fw_declared := true; fw_rows := [] |} |}.

(** [dim_location] after the inserts of [seed_locations]. *)
Definition seeded (rows : list dim_row) : list dim_row :=
  fold_left (fun acc c => match c with
                          | (lat, lon, city, country) =>
                              insert_or_ignore acc lat lon city country
                          end) cities rows.

(** All snapshots of one back-date run, location after location. *)
Definition backdated_rows (env : Env) (hours : Z) (df_locs : list loc_dict)
    : list (weather_rec json) :=
  flat_map (fun row => match backdated env hours row with
                       | Ok snaps => snaps
                       | Raise _ => []
                       end) df_locs.

(** The three seeded cities as [dim_location] lists them in a fresh schema. *)
Definition bengaluru : loc_dict :=
  {| row_location_id := 1; row_lat := 12.9716%Q; row_lon := 77.5946%Q |}.
Definition london : loc_dict :=
  {| row_location_id := 2; row_lat := 51.5072%Q; row_lon := (-0.1276)%Q |}.
Definition new_york : loc_dict :=
  {| row_location_id := 3; row_lat := 40.7128%Q; row_lon := (-74.0060)%Q |}.

(** [main], up to the back-dated snapshots. *)
Definition initial_load (env : Env) : M unit :=
  do _ <- recreate_tables env;
  do _ <- seed_locations env;
  insert_backdated_snapshots env 25.

(** ** Sample inputs *)

Definition sample_body (dt : Z) : json :=
  JObj [ ("dt", JInt dt);
         ("main", JObj [ ("temp", JInt 21); ("feels_like", JInt 20);
                         ("humidity", JInt 60); ("pressure", JInt 1012) ]);
         ("wind", JObj [ ("speed", JInt 3) ]);
         ("clouds", JObj [ ("all", JInt 40) ]);
         ("weather", JArr [ JObj [ ("main", JStr "Clouds");
                                   ("description", JStr "scattered clouds") ] ]) ].

(** The same body after the provider dropped the [wind] object. *)
Definition body_without_wind : json :=
  JObj [ ("dt", JInt 1700000000);
         ("main", JObj [ ("temp", JInt 21); ("feels_like", JInt 20);
                         ("humidity", JInt 60); ("pressure", JInt 1012) ]);
         ("clouds", JObj [ ("all", JInt 40) ]);
         ("weather", JArr [ JObj [ ("main", JStr "Clouds");
                                   ("description", JStr "scattered clouds") ] ]) ].

Definition sample_record (location : Z) (dt : Z) : weather_rec json :=
  {| location_id := location; obs_ts := JInt dt;
     temp_c := JInt 21; feels_like_c := JInt 20; humidity_pct := JInt 60;
     pressure_hpa := JInt 1012; wind_speed_ms := JInt 3; clouds_pct := JInt 40;
     weather_main := JStr "Clouds"; weather_desc := JStr "scattered clouds" |}.

(** A conversion that maps whole seconds to themselves and [None] to NaT. *)
Definition seconds_to_datetime (v : json) : result (option Z) :=
  match v with
  | JInt z => Ok (Some z)
  | JNull => Ok None
  | _ => Raise TypeError
  end.

(** Everything works. *)
Definition env_ok : Env :=
  {| DB_PATH := "weather.db";
     http_get := fun _ _ => Reply 200 (Some (sample_body 1700000000));
     db_fault := fun _ => None;
     smtp_fault := fun _ => None;
     pd_to_datetime := seconds_to_datetime |}.

(** The API answers 500 for London. *)
Definition env_london_down : Env :=
  {| DB_PATH := "weather.db";
     http_get := fun lat _ => if Qeq_bool lat 51.5072%Q then Reply 500 None
                              else Reply 200 (Some (sample_body 1700000000));
     db_fault := fun _ => None;
     smtp_fault := fun _ => None;
     pd_to_datetime := seconds_to_datetime |}.

(** The API answers 404, or a body without [wind], by latitude. *)
Definition env_bad_answers : Env :=
  {| DB_PATH := "weather.db";
     http_get := fun lat _ => if Qeq_bool lat 51.5072%Q then Reply 404 None
                              else if Qeq_bool lat 40.7128%Q
                                   then Reply 200 (Some body_without_wind)
                                   else Reply 200 (Some (sample_body 1700000000));
     db_fault := fun _ => None;
     smtp_fault := fun _ => None;
     pd_to_datetime := seconds_to_datetime |}.

(** The database is locked and the mail relay refuses every message. *)
Definition env_locked_no_mail : Env :=
  {| DB_PATH := "weather.db";
     http_get := fun _ _ => Reply 200 (Some (sample_body 1700000000));
     db_fault := fun op => match op with
                           | OpDrop FactWeather => Some (OperationalError "database is locked")
                           | _ => None
                           end;
     smtp_fault := fun _ => Some SMTPException;
     pd_to_datetime := seconds_to_datetime |}.

Definition w_empty : world := {| files := ∅; trace := [] |}.

(** [weather.db] with both tables and no row. *)
Definition w_fresh : world :=
  {| files := {[ "weather.db" := fresh_db ]}; trace := [] |}.

Definition three_cities : list dim_row :=
  [ {| dl_location_id := 1; dl_city_name := "Bengaluru"; dl_country := "IN";
       dl_lat := 12.9716%Q; dl_lon := 77.5946%Q |};
    {| dl_location_id := 2; dl_city_name := "London"; dl_country := "GB";
       dl_lat := 51.5072%Q; dl_lon := (-0.1276)%Q |};
    {| dl_location_id := 3; dl_city_name := "New York"; dl_country := "US";
       dl_lat := 40.7128%Q; dl_lon := (-74.0060)%Q |} ].

(** [weather.db] after one seeding. *)
Definition w_seeded : world :=
  {| files := {[ "weather.db" :=
                   {| dim_location := Some three_cities;
                      fact_weather := Some {| fw_declared := true; fw_rows := [] |} |} ]};
     trace := [] |}.

(** A dashboard row: London at 01:00 UTC on 1970-01-01. *)
Definition london_row : Dashboard.row :=
  {| Dashboard.obs_ts := Some 3600;
     Dashboard.temp_c := JInt 21; Dashboard.feels_like_c := JInt 20;
     Dashboard.humidity_pct := JInt 60; Dashboard.pressure_hpa := JInt 1012;
     Dashboard.wind_speed_ms := JInt 3; Dashboard.clouds_pct := JInt 40;
     Dashboard.city_name := "London";
     Dashboard.weather_main := JStr "Clouds";
     Dashboard.weather_desc := JStr "scattered clouds" |}.

(** ** The rest of [etl_weather.py] *)

(** *** 1. Load environment variables *)

(** What stops the script at import time. *)
Inductive startup_error :=
| RuntimeError (msg : string)
| ValueError.

Record config := {
  API_KEY : string;
  DB_URL : string;
  SMTP_SERVER : string;
  SMTP_PORT : Z;
  EMAIL_SENDER : string;
  EMAIL_PASSWORD : string;
  EMAIL_RECIPIENT : string
}.

(** [os.getenv(name)] followed by a truth test: unset and empty are both
    false. *)
Definition getenv (environ : gmap string string) (name : string) : option string :=
  environ !! name.

Definition truthy (v : option string) : bool :=
  match v with
  | Some s => negb (String.eqb s EmptyString)
  | None => false
  end.

(** The block of module-level statements, on the environment as
    [load_dotenv()] left it.  [py_int] is Python's [int] on a string, [None]
    where it raises [ValueError]. *)
Definition load_config (py_int : string -> option Z) (environ : gmap string string)
    : startup_error + config :=
  let api_key := getenv environ "OWM_API_KEY" in
  let db_url := getenv environ "DB_URL" in
  let smtp_server := getenv environ "SMTP_SERVER" in
  match match getenv environ "SMTP_PORT" with
        | Some s => py_int s
        | None => Some 587
        end with
  | None => inl ValueError
  | Some smtp_port =>
      let email_sender := getenv environ "EMAIL_SENDER" in
      let email_password := getenv environ "EMAIL_PASSWORD" in
      let email_recipient := getenv environ "EMAIL_RECIPIENT" in
      if negb (truthy api_key)
      then inl (RuntimeError "OWM_API_KEY not found in environment.")
      else if negb (truthy db_url)
      then inl (RuntimeError "DB_URL not found in environment.")
      else if negb (truthy smtp_server && truthy email_sender
                    && truthy email_password && truthy email_recipient)
      then inl (RuntimeError "SMTP configuration not fully set in environment.")
      else inr {| API_KEY := default EmptyString api_key;
                  DB_URL := default EmptyString db_url;
                  SMTP_SERVER := default EmptyString smtp_server;
                  SMTP_PORT := smtp_port;
                  EMAIL_SENDER := default EmptyString email_sender;
                  EMAIL_PASSWORD := default EmptyString email_password;
                  EMAIL_RECIPIENT := default EmptyString email_recipient |}
  end.

Definition required_settings : list string :=
  ["OWM_API_KEY"; "DB_URL"; "SMTP_SERVER"; "EMAIL_SENDER"; "EMAIL_PASSWORD";
   "EMAIL_RECIPIENT"].

(** *** 11. Main entry point *)

(** The four steps of the [__main__] block and its handler.  The closing
    [print] of the block, which cannot fail and is followed by nothing, is
    not recorded in the trace. *)
Definition main (env : Env) : M unit :=
  try_except
    (do _ <- recreate_tables env;
     do _ <- seed_locations env;
     do _ <- insert_backdated_snapshots env 25;
     etl_once env)
    (alert_and_reraise env "ETL Failure Alert: main"
                       "An exception occurred in the main section:").

(** ** Reasoning about runs *)

(** Every run of [m] only adds events that satisfy [q] to the trace. *)
Definition emits {A} (q : event -> bool) (m : M A) : Prop :=
  forall w, exists evs, trace (snd (m w)) = trace w ++ evs /\ forallb q evs = true.

(** The lines [send_failure_alert] prints, one per call. *)
Definition is_alert_line (ev : event) : bool :=
  match ev with
  | EvPrint LogAlertSent | EvPrint (LogAlertFailed _) => true
  | _ => false
  end.

Definition quiet (ev : event) : bool := negb (is_alert_line ev).

Definition alert_attempts (t : list event) : nat :=
  length (List.filter is_alert_line t).

(** A run of [m] calls [send_failure_alert] [n] times when it raises and
    never when it returns. *)
Definition alerts_on_failure {A} (n : nat) (m : M A) : Prop :=
  forall w, exists evs,
    trace (snd (m w)) = trace w ++ evs
    /\ alert_attempts evs = if is_ok (fst (m w)) then 0%nat else n.

Definition is_http_get (ev : event) : bool :=
  match ev with EvHttpGet _ _ => true | _ => false end.

Definition is_to_sql (ev : event) : bool :=
  match ev with EvToSql _ _ => true | _ => false end.

(** A run of [m] leaves the file [p] as it was. *)
Definition leaves_file {A} (p : string) (m : M A) : Prop :=
  forall w, files (snd (m w)) !! p = files w !! p.

(** *** What the pipeline keeps true of a database *)

Definition dim_ids (d : database) : list Z :=
  match dim_location d with
  | Some rows => map dl_location_id rows
  | None => []
  end.

Definition fact_ids (d : database) : list Z :=
  match fact_weather d with
  | Some t => map fst (fw_rows t)
  | None => []
  end.

Definition fact_locations (d : database) : list Z :=
  match fact_weather d with
  | Some t => map (fun r => location_id (snd r)) (fw_rows t)
  | None => []
  end.

(** Keys are unique in both tables and every observation belongs to a
    listed location. *)
Definition consistent (d : database) : Prop :=
  NoDup (dim_ids d)
  /\ NoDup (fact_ids d)
  /\ forall i, In i (fact_locations d) -> In i (dim_ids d).

Definition all_consistent (w : world) : Prop :=
  forall p d, files w !! p = Some d -> consistent d.

(** [m] keeps every database file consistent, however it ends. *)
Definition keeps_consistent {A} (m : M A) : Prop :=
  forall w, all_consistent w -> all_consistent (snd (m w)).

(** What a successful pass of the back-date loop over [df_locs] leaves in
    the trace. *)
Definition backdate_events (df_locs : list loc_dict) : list event :=
  flat_map (fun row => [EvHttpGet (row_lat row) (row_lon row); EvSleep]) df_locs.

(** The requests for a list of locations, in order. *)
Definition requests_for (df_locs : list loc_dict) : list event :=
  map (fun row => EvHttpGet (row_lat row) (row_lon row)) df_locs.

(** A report time Python cannot subtract an int from. *)
Definition not_a_number (v : json) : bool :=
  match v with
  | JNull | JStr _ | JArr _ | JObj _ => true
  | _ => false
  end.

(** The locations a trace reports a fetch error for, with the error. *)
Definition fetch_errors (t : list event) : list (Z * exn) :=
  flat_map (fun ev => match ev with
                      | EvPrint (LogFetchError i e) => [(i, e)]
                      | _ => []
                      end) t.

(** The locations whose fetch fails, with the error. *)
Definition failures (env : Env) (df_locs : list loc_dict) : list (Z * exn) :=
  flat_map (fun row => match outcome env row with
                       | Ok _ => []
                       | Raise e => [(row_location_id row, e)]
                       end) df_locs.

(** Neither a request nor a fetch-error line. *)
Definition after_the_loop (ev : event) : bool :=
  match ev with
  | EvHttpGet _ _ | EvPrint (LogFetchError _ _) => false
  | _ => true
  end.

(** ** The rest of [app.py] *)

Module DashboardData.

(** *** 1. Load environment variables and connect to SQLite *)

(** [s.replace(old, new)] for a non-empty [old]: the occurrences of [old]
    are found from the left and do not overlap.  [skip] counts the characters
    of an occurrence that are still to be passed over. *)
Fixpoint replace_from (skip : nat) (old new s : string) : string :=
  match s with
  | EmptyString => EmptyString
  | String c s' =>
      match skip with
      | S k => replace_from k old new s'
      | O =>
          if String.prefix old s
          then new +:+ replace_from (String.length old - 1) old new s'
          else String c (replace_from 0 old new s')
      end
  end.

Definition replace (old new s : string) : string := replace_from 0 old new s.

(** Does [old] occur in [s]? *)
Fixpoint occurs (old s : string) : bool :=
  match s with
  | EmptyString => String.prefix old s
  | String _ s' => String.prefix old s || occurs old s'
  end.

(** The file the dashboard opens, from the environment as [load_dotenv()]
    left it.  [String.prefix p s] is [s.startswith(p)]. *)
Definition db_path (environ : gmap string string) : string :=
  let DB_URL := default "sqlite:///weather.db" (environ !! "DB_URL") in
  if String.prefix "sqlite:///" DB_URL
  then replace "sqlite:///" EmptyString DB_URL
  else DB_URL.

(** What the source leaves to SQLite and pandas when the dashboard reads
    the database. *)
Record reader := {
  (* the order in which the rows of the join come back: the query has no
     ORDER BY *)
  sql_order : list (fact_row * dim_row) -> list (fact_row * dim_row);
  (* [pd.to_datetime(df["obs_ts"], utc=True, errors="coerce")] at one row of
     the column: the time read back from what was stored for that row, NaT
     where pandas does not understand it; the whole column is given too,
     since the format is inferred from it *)
  to_datetime_coerce : list fact_row -> fact_row -> option Z
}.

(** One row of the frame: the observation under the time read back for it,
    with the city of its location. *)
Definition joined (t : option Z) (fw : weather_rec (option Z)) (dl : dim_row)
    : Dashboard.row :=
  {| Dashboard.obs_ts := t;
     Dashboard.temp_c := temp_c fw;
     Dashboard.feels_like_c := feels_like_c fw;
     Dashboard.humidity_pct := humidity_pct fw;
     Dashboard.pressure_hpa := pressure_hpa fw;
     Dashboard.wind_speed_ms := wind_speed_ms fw;
     Dashboard.clouds_pct := clouds_pct fw;
     Dashboard.city_name := dl_city_name dl;
     Dashboard.weather_main := weather_main fw;
     Dashboard.weather_desc := weather_desc fw |}.

(** [fact_weather AS fw JOIN dim_location AS dl ON fw.location_id =
    dl.location_id]: every pair of an observation and a location with the
    same [location_id], listed here by observation. *)
Definition join (fw : list fact_row) (dl : list dim_row) : list (fact_row * dim_row) :=
  flat_map (fun f => map (pair f)
                         (List.filter (fun l => dl_location_id l =? location_id (snd f)) dl))
           fw.

(** The body of [load_data] on the database in the file [db_path].  [None]
    stands for the [DatabaseError] of [pd.read_sql] when a table is
    missing. *)
Definition load_data_uncached (rd : reader) (d : database) : option (list Dashboard.row) :=
  match fact_weather d, dim_location d with
  | Some fw, Some dl =>
      let rows := sql_order rd (join (fw_rows fw) dl) in
      let column := map fst rows in
      Some (map (fun m => joined (to_datetime_coerce rd column (fst m)) (snd (fst m)) (snd m))
                rows)
  | _, _ => None
  end.

(** [load_data()] under [@st.cache_data]: the function has no argument, so
    the cache holds at most one frame.  A call finds it there, or runs the
    body and stores what it returns; an exception stores nothing.  The cache
    lives as long as the server process unless it is cleared by hand. *)
Definition load_data (rd : reader) (cache : option (list Dashboard.row)) (d : database)
    : option (list Dashboard.row) * option (list Dashboard.row) :=
  match cache with
  | Some df => (Some df, cache)
  | None =>
      match load_data_uncached rd d with
      | Some df => (Some df, Some df)
      | None => (None, None)
      end
  end.

(** A row of the frame without its time. *)
Definition untimed (r : Dashboard.row) : Dashboard.row :=
  {| Dashboard.obs_ts := None;
     Dashboard.temp_c := Dashboard.temp_c r;
     Dashboard.feels_like_c := Dashboard.feels_like_c r;
     Dashboard.humidity_pct := Dashboard.humidity_pct r;
     Dashboard.pressure_hpa := Dashboard.pressure_hpa r;
     Dashboard.wind_speed_ms := Dashboard.wind_speed_ms r;
     Dashboard.clouds_pct := Dashboard.clouds_pct r;
     Dashboard.city_name := Dashboard.city_name r;
     Dashboard.weather_main := Dashboard.weather_main r;
     Dashboard.weather_desc := Dashboard.weather_desc r |}.

(** *** 2. Sidebar controls *)

(** The instants of the index; NaT is skipped by [min()] and [max()]. *)
Definition instants (df : list Dashboard.row) : list Z :=
  flat_map (fun r => match Dashboard.obs_ts r with Some t => [t] | None => [] end) df.

(** [df_weather.index.min()] and [.max()], [None] for NaT. *)
Definition index_min (df : list Dashboard.row) : option Z :=
  match instants df with
  | [] => None
  | t :: ts => Some (fold_right Z.min t ts)
  end.

Definition index_max (df : list Dashboard.row) : option Z :=
  match instants df with
  | [] => None
  | t :: ts => Some (fold_right Z.max t ts)
  end.

(** [Timestamp.date()]: the UTC day of an instant, in days since
    1970-01-01. *)
Definition date (t : Z) : Z := t / 86400.

Definition min_date (df : list Dashboard.row) : option Z := option_map date (index_min df).
Definition max_date (df : list Dashboard.row) : option Z := option_map date (index_max df).

(** The values the three filter widgets start with: every city, and the
    range from [min_date] to [max_date].  [None] where the index holds no
    instant and there is no date to offer. *)
Definition sidebar_defaults (df_weather : list Dashboard.row)
    : option (list string * Z * Z) :=
  match min_date df_weather, max_date df_weather with
  | Some lo, Some hi => Some (Dashboard.cities df_weather, lo, hi)
  | _, _ => None
  end.

End DashboardData.

(** ** The specification's words *)

(** Does the time fall on a day from [start_date] to [end_date], both
    included?  NaT falls on no day. *)
Definition on_days (start_date end_date : Z) (t : option Z) : bool :=
  match t with
  | Some x => (start_date <=? DashboardData.date x) && (DashboardData.date x <=? end_date)
  | None => false
  end.

(** The filtered set as the specification words it: the rows whose city is
    in the selected set and whose timestamp falls within [[start, end]],
    both endpoints included. *)
Definition spec_filtered (selected : list string) (start_date end_date : Z)
    (df : list Dashboard.row) : list Dashboard.row :=
  List.filter (fun r => Dashboard.isin selected (Dashboard.city_name r)
                        && on_days start_date end_date (Dashboard.obs_ts r)) df.

(** Is the time on the day [end_date], later than 00:00 UTC? *)
Definition late_on (end_date : Z) (t : option Z) : bool :=
  match t with
  | Some x => (DashboardData.date x =? end_date) && negb (x =? end_date * 86400)
  | None => false
  end.

(** [base - h * 3600] for [h = 0 .. N-1]. *)
Definition hourly_back (base : Z) (N : nat) : list Z :=
  map (fun h => base - Z.of_nat h * 3600) (seq 0 N).

(** ** More sample inputs *)

(** A body that reports no time. *)
Definition body_without_time : json :=
  JObj [ ("dt", JNull);
         ("main", JObj [ ("temp", JInt 21); ("feels_like", JInt 20);
                         ("humidity", JInt 60); ("pressure", JInt 1012) ]);
         ("wind", JObj [ ("speed", JInt 3) ]);
         ("clouds", JObj [ ("all", JInt 40) ]);
         ("weather", JArr [ JObj [ ("main", JStr "Clouds");
                                   ("description", JStr "scattered clouds") ] ]) ].

(** A body with more in it than the nine fields. *)
Definition body_with_more : json :=
  JObj [ ("coord", JObj [ ("lon", JInt 77); ("lat", JInt 12) ]);
         ("dt", JInt 1700000000);
         ("main", JObj [ ("temp", JInt 21); ("feels_like", JInt 20);
                         ("temp_min", JInt 19);
                         ("humidity", JInt 60); ("pressure", JInt 1012) ]);
         ("wind", JObj [ ("speed", JInt 3); ("deg", JInt 250) ]);
         ("clouds", JObj [ ("all", JInt 40) ]);
         ("weather", JArr [ JObj [ ("id", JInt 802); ("main", JStr "Clouds");
                                   ("description", JStr "scattered clouds") ];
                            JObj [ ("id", JInt 500); ("main", JStr "Rain");
                                   ("description", JStr "light rain") ] ]);
         ("name", JStr "Bengaluru") ].

(** London's answer carries no time. *)
Definition env_london_without_time : Env :=
  {| DB_PATH := "weather.db";
     http_get := fun lat _ => if Qeq_bool lat 51.5072%Q
                              then Reply 200 (Some body_without_time)
                              else Reply 200 (Some (sample_body 1700000000));
     db_fault := fun _ => None;
     smtp_fault := fun _ => None;
     pd_to_datetime := seconds_to_datetime |}.

(** Longer bodies, same nine fields. *)
Definition env_with_more : Env :=
  {| DB_PATH := "weather.db";
     http_get := fun _ _ => Reply 203 (Some body_with_more);
     db_fault := fun _ => None;
     smtp_fault := fun _ => None;
     pd_to_datetime := seconds_to_datetime |}.

(** No connection for London, an answer that is not JSON for New York. *)
Definition env_no_answers : Env :=
  {| DB_PATH := "weather.db";
     http_get := fun lat _ => if Qeq_bool lat 51.5072%Q then NoReply ConnectionError
                              else if Qeq_bool lat 40.7128%Q then Reply 200 None
                              else Reply 200 (Some (sample_body 1700000000));
     db_fault := fun _ => None;
     smtp_fault := fun _ => None;
     pd_to_datetime := seconds_to_datetime |}.

(** [DB_URL] names another file than the one the back-date step opens. *)
Definition env_elsewhere : Env :=
  {| DB_PATH := "data/etl.db";
     http_get := fun _ _ => Reply 200 (Some (sample_body 1700000000));
     db_fault := fun _ => None;
     smtp_fault := fun _ => None;
     pd_to_datetime := seconds_to_datetime |}.

(** The listing query fails. *)
Definition env_no_listing : Env :=
  {| DB_PATH := "weather.db";
     http_get := fun _ _ => Reply 200 (Some (sample_body 1700000000));
     db_fault := fun op => match op with
                           | OpSelectLocations _ =>
                               Some (OperationalError "database is locked")
                           | _ => None
                           end;
     smtp_fault := fun _ => None;
     pd_to_datetime := seconds_to_datetime |}.

(** A complete environment file, and one without the mail password. *)
Definition environ_complete : gmap string string :=
  list_to_map [ ("OWM_API_KEY", "0123456789abcdef");
                ("DB_URL", "sqlite:///weather.db");
                ("SMTP_SERVER", "smtp.example.org");
                ("EMAIL_SENDER", "etl@example.org");
                ("EMAIL_PASSWORD", "secret");
                ("EMAIL_RECIPIENT", "ops@example.org") ].

Definition environ_without_password : gmap string string :=
  list_to_map [ ("OWM_API_KEY", "0123456789abcdef");
                ("DB_URL", "sqlite:///weather.db");
                ("SMTP_SERVER", "smtp.example.org");
                ("SMTP_PORT", "465");
                ("EMAIL_SENDER", "etl@example.org");
                ("EMAIL_PASSWORD", EmptyString);
                ("EMAIL_RECIPIENT", "ops@example.org") ].

(** [int] on the strings the sample files hold. *)
Definition int_of_sample (s : string) : option Z :=
  if String.eqb s "465" then Some 465 else None.

(** A database with one observation for London, at 01:00 UTC on
    1970-01-01. *)
Definition db_one_observation : database :=
  {| dim_location := Some three_cities;
     fact_weather :=
       Some {| fw_declared := true;
               fw_rows := [ (1, {| location_id := 2; obs_ts := Some 3600;
                                   temp_c := JInt 21; feels_like_c := JInt 20;
                                   humidity_pct := JInt 60; pressure_hpa := JInt 1012;
                                   wind_speed_ms := JInt 3; clouds_pct := JInt 40;
                                   weather_main := JStr "Clouds";
                                   weather_desc := JStr "scattered clouds" |}) ] |} |}.

(** Bengaluru at midnight of the next day. *)
Definition bengaluru_row : Dashboard.row :=
  {| Dashboard.obs_ts := Some 86400;
     Dashboard.temp_c := JInt 27; Dashboard.feels_like_c := JInt 29;
     Dashboard.humidity_pct := JInt 70; Dashboard.pressure_hpa := JInt 1009;
     Dashboard.wind_speed_ms := JInt 2; Dashboard.clouds_pct := JInt 75;
     Dashboard.city_name := "Bengaluru";
     Dashboard.weather_main := JStr "Clouds";
     Dashboard.weather_desc := JStr "broken clouds" |}.

(** New York half a day later. *)
Definition new_york_row : Dashboard.row :=
  {| Dashboard.obs_ts := Some 129600;
     Dashboard.temp_c := JInt 12; Dashboard.feels_like_c := JInt 10;
     Dashboard.humidity_pct := JInt 50; Dashboard.pressure_hpa := JInt 1020;
     Dashboard.wind_speed_ms := JInt 5; Dashboard.clouds_pct := JInt 0;
     Dashboard.city_name := "New York";
     Dashboard.weather_main := JStr "Clear";
     Dashboard.weather_desc := JStr "clear sky" |}.

(** The rows of [three_cities], one by one. *)
Definition dim_bengaluru : dim_row :=
  {| dl_location_id := 1; dl_city_name := "Bengaluru"; dl_country := "IN";
     dl_lat := 12.9716%Q; dl_lon := 77.5946%Q |}.
Definition dim_london : dim_row :=
  {| dl_location_id := 2; dl_city_name := "London"; dl_country := "GB";
     dl_lat := 51.5072%Q; dl_lon := (-0.1276)%Q |}.
Definition dim_new_york : dim_row :=
  {| dl_location_id := 3; dl_city_name := "New York"; dl_country := "US";
     dl_lat := 40.7128%Q; dl_lon := (-74.0060)%Q |}.

(** A record without a report time. *)
Definition record_without_time (location : Z) : weather_rec json :=
  {| location_id := location; obs_ts := JNull;
     temp_c := JInt 21; feels_like_c := JInt 20; humidity_pct := JInt 60;
     pressure_hpa := JInt 1012; wind_speed_ms := JInt 3; clouds_pct := JInt 40;
     weather_main := JStr "Clouds"; weather_desc := JStr "scattered clouds" |}.

(** An answer with a status that is neither a success nor an error for
    [raise_for_status]: 300 Multiple Choices, which [requests] does not
    follow without a [Location] header. *)
Definition env_multiple_choices : Env :=
  {| DB_PATH := "weather.db";
     http_get := fun _ _ => Reply 300 (Some (sample_body 1700000000));
     db_fault := fun _ => None;
     smtp_fault := fun _ => None;
     pd_to_datetime := seconds_to_datetime |}.

(** A reader that returns the join by observation, newest first, and reads
    every stored time back as it was written. *)
Definition reader_newest_first : DashboardData.reader :=
  {| DashboardData.sql_order := @rev (fact_row * dim_row);
     DashboardData.to_datetime_coerce := fun _ f => obs_ts (snd f) |}.
(** ** Properties *)

(** *** Reading the response body *)

Lemma getitem_lookup (v : json) (k : string) :
  match lookup_path [Key k] v with
  | Some x => getitem v k = Ok x
  | None => exists e, getitem v k = Raise e /\ is_parse_error e = true
  end.
Proof.
  destruct v; simpl; try (eexists; split; reflexivity).
  destruct (dict_get items k); [reflexivity | eexists; split; reflexivity].
Qed.

Lemma get2_lookup (v : json) (k1 k2 : string) :
  match lookup_path [Key k1; Key k2] v with
  | Some x => and_then (getitem v k1) (fun m => getitem m k2) = Ok x
  | None => exists e, and_then (getitem v k1) (fun m => getitem m k2) = Raise e
                      /\ is_parse_error e = true
  end.
Proof.
  destruct v; simpl; try (eexists; split; reflexivity).
  destruct (dict_get items k1) as [m|]; simpl; [| eexists; split; reflexivity].
  apply (getitem_lookup m k2).
Qed.

Lemma get_first_lookup (v : json) (k1 k2 : string) :
  match lookup_path [Key k1; First; Key k2] v with
  | Some x => and_then (and_then (getitem v k1) getitem_0) (fun m => getitem m k2) = Ok x
  | None => exists e, and_then (and_then (getitem v k1) getitem_0) (fun m => getitem m k2)
                      = Raise e /\ is_parse_error e = true
  end.
Proof.
  destruct v; simpl; try (eexists; split; reflexivity).
  destruct (dict_get items k1) as [m|]; simpl; [| eexists; split; reflexivity].
  destruct m as [| | | | s | l | its]; simpl; try (eexists; split; reflexivity).
  - destruct s; simpl; eexists; split; reflexivity.
  - destruct l as [|x l]; simpl; [eexists; split; reflexivity |].
    apply (getitem_lookup x k2).
Qed.

Lemma cons_eq_inv {A} (a b : A) (l l' : list A) : a :: l = b :: l' -> a = b /\ l = l'.
Proof. intros H. injection H as -> ->. split; reflexivity. Qed.

(** [flatten] succeeds exactly when the nine fields are there, and then
    returns them. *)
Lemma flatten_present (row : loc_dict) (data : json) (vs : list json) :
  map (fun p => lookup_path p data) expected_fields = map Some vs ->
  exists r, flatten row data = Ok r /\ location_id r = row_location_id row
            /\ flat_fields r = vs.
Proof.
  intros H.
  destruct vs as [|v1 [|v2 [|v3 [|v4 [|v5 [|v6 [|v7 [|v8 [|v9 [|]]]]]]]]]]; try discriminate H.
  unfold expected_fields in H. cbn [map] in H.
  repeat match type of H with
         | _ :: _ = _ :: _ =>
             let H' := fresh "P" in
             apply cons_eq_inv in H; destruct H as [H' H]
         end.
  unfold flatten.
  pose proof (getitem_lookup data "dt") as G1.
  pose proof (get2_lookup data "main" "temp") as G2.
  pose proof (get2_lookup data "main" "feels_like") as G3.
  pose proof (get2_lookup data "main" "humidity") as G4.
  pose proof (get2_lookup data "main" "pressure") as G5.
  pose proof (get2_lookup data "wind" "speed") as G6.
  pose proof (get2_lookup data "clouds" "all") as G7.
  pose proof (get_first_lookup data "weather" "main") as G8.
  pose proof (get_first_lookup data "weather" "description") as G9.
  rewrite P in G1. rewrite P0 in G2. rewrite P1 in G3. rewrite P2 in G4.
  rewrite P3 in G5. rewrite P4 in G6. rewrite P5 in G7. rewrite P6 in G8.
  rewrite P7 in G9.
  rewrite G1, G2, G3, G4, G5, G6, G7, G8, G9.
  cbn [and_then]. eexists; split; [reflexivity | split; reflexivity].
Qed.

Lemma and_then_raise {A B} (r : result A) (k : A -> result B) :
  (exists e, r = Raise e /\ is_parse_error e = true) ->
  exists e, and_then r k = Raise e /\ is_parse_error e = true.
Proof. intros (e & -> & He). exists e. split; [reflexivity | exact He]. Qed.

Lemma flatten_absent (row : loc_dict) (data : json) :
  Exists (fun p => lookup_path p data = None) expected_fields ->
  exists e, flatten row data = Raise e /\ is_parse_error e = true.
Proof.
  intros H. unfold flatten.
  pose proof (getitem_lookup data "dt") as G1.
  pose proof (get2_lookup data "main" "temp") as G2.
  pose proof (get2_lookup data "main" "feels_like") as G3.
  pose proof (get2_lookup data "main" "humidity") as G4.
  pose proof (get2_lookup data "main" "pressure") as G5.
  pose proof (get2_lookup data "wind" "speed") as G6.
  pose proof (get2_lookup data "clouds" "all") as G7.
  pose proof (get_first_lookup data "weather" "main") as G8.
  pose proof (get_first_lookup data "weather" "description") as G9.
  unfold expected_fields in H.
  repeat match goal with
  | G : match ?o with Some _ => _ | None => _ end |- _ =>
      destruct o eqn:?; [rewrite G; cbn [and_then] | apply and_then_raise; exact G]
  end.
  exfalso.
  repeat match goal with
  | H : Exists _ (_ :: _) |- _ => apply Exists_cons in H; destruct H as [H|H]; [congruence|]
  end.
  inversion H.
Qed.

Lemma flatten_location_id (row : loc_dict) (data : json) (r : weather_rec json) :
  flatten row data = Ok r -> location_id r = row_location_id row.
Proof.
  unfold flatten. intros H.
  repeat match type of H with
         | and_then ?x _ = _ => destruct x; cbn [and_then] in H; [| discriminate H]
         end.
  injection H as <-. reflexivity.
Qed.

(** *** Running the primitives *)

Lemma add_events_nil (w : world) : add_events w [] = w.
Proof. destruct w; unfold add_events; simpl. rewrite app_nil_r. reflexivity. Qed.

Lemma add_events_app (w : world) (a b : list event) :
  add_events (add_events w a) b = add_events w (a ++ b).
Proof. unfold add_events; simpl. rewrite <- app_assoc. reflexivity. Qed.

Lemma emit_run (ev : event) (w : world) : emit ev w = (Ok tt, add_events w [ev]).
Proof. reflexivity. Qed.

Lemma get_db_add_events (p : string) (w : world) (evs : list event) :
  get_db p (add_events w evs) = get_db p w.
Proof. reflexivity. Qed.

Lemma get_db_insert (p : string) (d : database) (fs : gmap string database)
    (t : list event) :
  get_db p {| files := <[p := d]> fs; trace := t |} = d.
Proof. unfold get_db. simpl. rewrite lookup_insert_eq. reflexivity. Qed.

Lemma get_db_set_db (p : string) (d : database) (w : world) : get_db p (set_db p d w) = d.
Proof. unfold get_db, set_db. simpl. rewrite lookup_insert_eq. reflexivity. Qed.

Lemma set_db_set_db (p : string) (d d' : database) (w : world) :
  set_db p d (set_db p d' w) = set_db p d w.
Proof. unfold set_db. simpl. rewrite insert_insert_eq. reflexivity. Qed.

Lemma set_db_add_events (p : string) (d : database) (w : world) (evs : list event) :
  set_db p d (add_events w evs) = add_events (set_db p d w) evs.
Proof. reflexivity. Qed.

Lemma db_exec_run (env : Env) (op : db_op) (p : string)
    (f : database -> result database) (w : world) :
  db_fault env op = None ->
  db_exec env op p f w = match f (get_db p w) with
                         | Ok d => (Ok tt, set_db p d w)
                         | Raise e => (Raise e, w)
                         end.
Proof. intros H. unfold db_exec. rewrite H. reflexivity. Qed.

Lemma to_sql_calls_app (a b : list event) :
  to_sql_calls (a ++ b) = to_sql_calls a ++ to_sql_calls b.
Proof. unfold to_sql_calls. apply flat_map_app. Qed.

Lemma fetch_one_record_run (env : Env) (row : loc_dict) (w : world) :
  fetch_one_record env row w
  = (outcome env row, add_events w [EvHttpGet (row_lat row) (row_lon row)]).
Proof.
  unfold outcome, fetch_one_record, requests_get, bind, emit, lift, raise, ret, add_events.
  simpl.
  destruct (http_get env (row_lat row) (row_lon row)) as [e | status body]; simpl;
    [reflexivity |].
  destruct (raise_for_status status); simpl; [| reflexivity].
  destruct (r_json body); reflexivity.
Qed.

Lemma outcome_location_id (env : Env) (row : loc_dict) (r : weather_rec json) :
  outcome env row = Ok r -> location_id r = row_location_id row.
Proof.
  unfold outcome, fetch_one_record, requests_get, bind, emit, lift, raise, ret. simpl.
  destruct (http_get env (row_lat row) (row_lon row)) as [e | status body]; simpl;
    [discriminate |].
  destruct (raise_for_status status); simpl; [| discriminate].
  destruct (r_json body) as [data|]; simpl; [| discriminate].
  apply flatten_location_id.
Qed.

Lemma send_failure_alert_run (env : Env) (subject : string) (body : string * exn) (w : world) :
  send_failure_alert env subject body w
  = (Ok tt, add_events w (alert_events env subject (fst body) (snd body))).
Proof.
  unfold send_failure_alert, try_except, bind, smtp_session, alert_events, print, emit,
    add_events.
  destruct (smtp_fault env subject); simpl; [reflexivity |].
  rewrite <- app_assoc. reflexivity.
Qed.

Lemma alert_and_reraise_run {A} (env : Env) (subject intro : string) (e : exn) (w : world) :
  @alert_and_reraise env A subject intro e w
  = (Raise e, add_events w (alert_events env subject intro e)).
Proof.
  unfold alert_and_reraise, bind. rewrite send_failure_alert_run. reflexivity.
Qed.

Lemma alert_events_no_to_sql (env : Env) (subject intro : string) (e : exn) :
  to_sql_calls (alert_events env subject intro e) = [].
Proof. unfold alert_events. destruct (smtp_fault env subject); reflexivity. Qed.

(** *** Frames and appends *)

(** When every timestamp converts to an instant, [to_frame] keeps the rows
    and none of them is NaT. *)
Lemma to_frame_instants (env : Env) (rows : list (weather_rec json)) :
  rows <> [] ->
  Forall (fun r => exists t, pd_to_datetime env (obs_ts r) = Ok (Some t)) rows ->
  exists df, to_frame env rows = Ok df
             /\ has_nat df = false
             /\ length df = length rows
             /\ Forall2 (fun r d => location_id d = location_id r
                                    /\ pd_to_datetime env (obs_ts r) = Ok (obs_ts d)
                                    /\ measured d = measured r) rows df.
Proof.
  intros Hne H. unfold to_frame.
  destruct rows as [|r0 rows0]; [congruence |].
  clear Hne. revert H. generalize (r0 :: rows0) as rows. clear r0 rows0.
  induction rows as [|r rows IH]; intros H.
  - exists []. repeat split; constructor.
  - inversion H as [| ? ? (t & Ht) Hrest]; subst.
    destruct (IH Hrest) as (df & Hdf & Hnat & Hlen & Hall).
    exists (with_obs_ts r (Some t) :: df).
    cbn [mapM_result and_then]. rewrite Ht. cbn [and_then]. rewrite Hdf.
    repeat split.
    + cbn [has_nat existsb obs_ts with_obs_ts]. simpl. exact Hnat.
    + simpl. f_equal. exact Hlen.
    + constructor; [| exact Hall]. repeat split. simpl. exact Ht.
Qed.

Lemma number_rows_length (first : Z) (rows : list (weather_rec (option Z))) :
  length (number_rows first rows) = length rows.
Proof. revert first. induction rows as [|r rows IH]; intros first; simpl; [|rewrite IH]; reflexivity. Qed.

Lemma number_rows_snd (first : Z) (rows : list (weather_rec (option Z))) :
  map snd (number_rows first rows) = rows.
Proof. revert first. induction rows as [|r rows IH]; intros first; simpl; [|rewrite IH]; reflexivity. Qed.

(** An accepted append adds the batch after the rows already stored. *)
Lemma append_facts_rows (d : database) (df : list (weather_rec (option Z))) :
  has_nat df = false ->
  exists d', append_facts d df = Ok d'
             /\ dim_location d' = dim_location d
             /\ exists t', fact_weather d' = Some t'
                /\ fw_rows t' = match fact_weather d with Some t => fw_rows t | None => [] end
                                ++ number_rows
                                     (next_id (map fst match fact_weather d with
                                                       | Some t => fw_rows t
                                                       | None => []
                                                       end)) df.
Proof.
  intros Hnat. unfold append_facts.
  destruct (fact_weather d) as [t|].
  - rewrite Hnat, andb_false_r. eexists; split; [reflexivity |].
    split; [reflexivity |]. eexists; split; reflexivity.
  - eexists; split; [reflexivity |].
    split; [reflexivity |]. eexists; split; reflexivity.
Qed.

(** *** The weather fetcher *)

(** C6 (amended).  [fetch_one_record] raises [HTTPError] with the status for
    every status from 400 to 599, the statuses [raise_for_status] rejects.
    Any other status is let through and the body is read: a body that is
    not JSON raises the decoding error; a JSON body that lacks one of the
    nine expected fields raises a [KeyError], [IndexError] or [TypeError];
    and when all nine are there the call returns the record made of exactly
    them and the location id. *)
Theorem fetch_one_record_errors_and_record (env : Env) (location_row : loc_dict) (w : world) :
  (forall status body,
      http_get env (row_lat location_row) (row_lon location_row) = Reply status body ->
      error_status status ->
      fst (fetch_one_record env location_row w) = Raise (HTTPError status))
  /\ (forall status,
         http_get env (row_lat location_row) (row_lon location_row) = Reply status None ->
         ~ error_status status ->
         fst (fetch_one_record env location_row w) = Raise JSONDecodeError)
  /\ (forall status data,
         http_get env (row_lat location_row) (row_lon location_row)
         = Reply status (Some data) ->
         ~ error_status status ->
         Exists (fun p => lookup_path p data = None) expected_fields ->
         exists e, fst (fetch_one_record env location_row w) = Raise e
                   /\ is_parse_error e = true)
  /\ (forall status data fields,
         http_get env (row_lat location_row) (row_lon location_row)
         = Reply status (Some data) ->
         ~ error_status status ->
         map (fun p => lookup_path p data) expected_fields = map Some fields ->
         exists r, fst (fetch_one_record env location_row w) = Ok r
                   /\ location_id r = row_location_id location_row
                   /\ flat_fields r = fields).
Proof.
  rewrite fetch_one_record_run. cbn [fst].
  assert (Hrun : forall status body,
             http_get env (row_lat location_row) (row_lon location_row) = Reply status body ->
             outcome env location_row
             = and_then (raise_for_status status)
                        (fun _ => and_then (r_json body) (flatten location_row))).
  { intros status body H.
    unfold outcome, fetch_one_record, requests_get, bind, emit, lift, ret. simpl.
    rewrite H. cbn [fst snd].
    destruct (raise_for_status status); cbn [fst and_then]; [| reflexivity].
    destruct (r_json body); reflexivity. }
  assert (Hok : forall status, ~ error_status status -> raise_for_status status = Ok tt).
  { intros status H. unfold raise_for_status, error_status in *.
    destruct (400 <=? status) eqn:E1; [| reflexivity].
    destruct (status <? 600) eqn:E2; [| reflexivity].
    apply Z.leb_le in E1. apply Z.ltb_lt in E2. lia. }
  split; [| split; [| split]].
  - intros status body H [Hlo Hhi]. rewrite (Hrun _ _ H). unfold raise_for_status.
    rewrite (proj2 (Z.leb_le _ _) Hlo), (proj2 (Z.ltb_lt _ _) Hhi). reflexivity.
  - intros status H Hs. rewrite (Hrun _ _ H), (Hok _ Hs). reflexivity.
  - intros status data H Hs Habs. rewrite (Hrun _ _ H), (Hok _ Hs). cbn [and_then r_json].
    apply flatten_absent. exact Habs.
  - intros status data fields H Hs Hall. rewrite (Hrun _ _ H), (Hok _ Hs).
    cbn [and_then r_json]. apply flatten_present. exact Hall.
Qed.

(** *** Alerts *)

(** C7.  [send_failure_alert] never raises: a refused mail is printed and
    swallowed.  Hence a stage guarded by [alert_and_reraise] that fails with
    [e] raises that same [e], whether or not the mail went out; for
    [recreate_tables] the error raised is the database's, never the relay's. *)
Theorem alert_delivery_failure_is_swallowed (env : Env) :
  (forall subject body w,
      exists w', send_failure_alert env subject body w = (Ok tt, w')
                 /\ files w' = files w)
  /\ (forall subject body w e_mail,
         smtp_fault env subject = Some e_mail ->
         send_failure_alert env subject body w
         = (Ok tt, add_events w [EvPrint (LogAlertFailed e_mail)]))
  /\ (forall A (stage : M A) subject intro w e w1,
         stage w = (Raise e, w1) ->
         exists w2, try_except stage (alert_and_reraise env subject intro) w = (Raise e, w2)
                    /\ files w2 = files w1)
  /\ (forall w, fst (recreate_tables env w) = match recreate_fault env with
                                              | Some e => Raise e
                                              | None => Ok tt
                                              end).
Proof.
  split; [| split; [| split]].
  - intros subject body w. rewrite send_failure_alert_run. eexists. split; reflexivity.
  - intros subject body w e_mail H. rewrite send_failure_alert_run.
    unfold alert_events. rewrite H. reflexivity.
  - intros A stage subject intro w e w1 H. unfold try_except. rewrite H.
    rewrite alert_and_reraise_run. eexists. split; reflexivity.
  - intros w. unfold recreate_tables, recreate_fault, try_except.
    unfold bind at 1. unfold engine_begin. unfold bind at 1.
    unfold drop_table_if_exists at 1. unfold db_exec at 1.
    destruct (db_fault env (OpDrop FactWeather)) as [e|].
    { rewrite alert_and_reraise_run. reflexivity. }
    unfold drop_table_if_exists, db_exec.
    destruct (db_fault env (OpDrop DimLocation)) as [e|].
    { rewrite alert_and_reraise_run. reflexivity. }
    unfold bind at 1. unfold create_all, db_exec.
    destruct (db_fault env OpCreateAll) as [e|].
    { rewrite alert_and_reraise_run. reflexivity. }
    reflexivity.
Qed.

(** *** Schema and seeding *)

Lemma recreate_tables_run (env : Env) (w : world) :
  no_db_fault env ->
  recreate_tables env w
  = (Ok tt, add_events (set_db (DB_PATH env) fresh_db w) [EvPrint LogTablesRecreated]).
Proof.
  intros Hnf. unfold recreate_tables, try_except.
  unfold bind at 1. unfold engine_begin. unfold bind at 1.
  unfold drop_table_if_exists.
  rewrite db_exec_run by apply Hnf. rewrite db_exec_run by apply Hnf.
  unfold bind at 1. unfold create_all. rewrite db_exec_run by apply Hnf.
  rewrite !get_db_set_db, !set_db_set_db. cbn [dim_location fact_weather default].
  unfold print. rewrite emit_run. reflexivity.
Qed.

Lemma fold_max_upper (ids : list Z) (x : Z) : In x ids -> x <= fold_right Z.max 0 ids.
Proof.
  induction ids as [|y ids IH]; intros Hin; [inversion Hin |].
  simpl. destruct Hin as [-> | Hin]; [lia |]. specialize (IH Hin). lia.
Qed.

Lemma fold_max_nonneg (ids : list Z) : 0 <= fold_right Z.max 0 ids.
Proof. induction ids as [|y ids IH]; simpl; lia. Qed.

Lemma next_id_snoc (ids : list Z) : next_id (ids ++ [next_id ids]) = next_id ids + 1.
Proof.
  unfold next_id. rewrite fold_right_app. simpl.
  pose proof (fold_max_nonneg ids) as Hpos.
  assert (H : forall acc, fold_right Z.max 0 ids <= acc ->
                          fold_right Z.max acc ids = acc).
  { clear Hpos. induction ids as [|y ids IH]; intros acc Hacc; [reflexivity |].
    simpl in *. rewrite IH by lia. lia. }
  rewrite H by lia. lia.
Qed.

(** The primary key never collides: [INSERT OR IGNORE] always inserts. *)
Lemma insert_or_ignore_appends (rows : list dim_row) (lat lon : Q) (city country : string) :
  insert_or_ignore rows lat lon city country
  = rows ++ [{| dl_location_id := next_id (map dl_location_id rows);
                dl_city_name := city; dl_country := country;
                dl_lat := lat; dl_lon := lon |}].
Proof.
  unfold insert_or_ignore.
  replace (dim_conflict rows _) with false; [reflexivity |].
  symmetry. unfold dim_conflict. cbn [dl_location_id].
  apply not_true_is_false. intros H. apply existsb_exists in H as (r & Hin & Heq).
  apply Z.eqb_eq in Heq.
  pose proof (fold_max_upper (map dl_location_id rows) (dl_location_id r)
                (in_map dl_location_id rows r Hin)) as Hle.
  unfold next_id in Heq. lia.
Qed.

Lemma seeded_rows (rows : list dim_row) :
  let n := next_id (map dl_location_id rows) in
  seeded rows
  = rows ++ [ {| dl_location_id := n; dl_city_name := "Bengaluru"; dl_country := "IN";
                 dl_lat := 12.9716%Q; dl_lon := 77.5946%Q |};
              {| dl_location_id := n + 1; dl_city_name := "London"; dl_country := "GB";
                 dl_lat := 51.5072%Q; dl_lon := (-0.1276)%Q |};
              {| dl_location_id := n + 2; dl_city_name := "New York"; dl_country := "US";
                 dl_lat := 40.7128%Q; dl_lon := (-74.0060)%Q |} ].
Proof.
  cbv zeta. unfold seeded, cities. cbn [fold_left].
  rewrite !insert_or_ignore_appends.
  rewrite !map_app. cbn [map dl_location_id].
  set (ids := map dl_location_id rows).
  pose proof (next_id_snoc ids) as H1.
  pose proof (next_id_snoc (ids ++ [next_id ids])) as H2.
  rewrite H2, H1.
  replace (next_id ids + 1 + 1) with (next_id ids + 2) by lia.
  rewrite <- !app_assoc. reflexivity.
Qed.

Lemma insert_location_run (env : Env) (lat lon : Q) (city country : string)
    (rows : list dim_row) (w : world) :
  db_fault env OpInsertLocation = None ->
  dim_location (get_db (DB_PATH env) w) = Some rows ->
  insert_location env lat lon city country w
  = (Ok tt, set_db (DB_PATH env)
                   {| dim_location := Some (insert_or_ignore rows lat lon city country);
                      fact_weather := fact_weather (get_db (DB_PATH env) w) |} w).
Proof.
  intros Hf Hdim. unfold insert_location. rewrite db_exec_run by exact Hf.
  rewrite Hdim. reflexivity.
Qed.

Lemma seed_locations_run (env : Env) (rows : list dim_row) (w : world) :
  db_fault env OpInsertLocation = None ->
  db_fault env (OpSelectLocations (DB_PATH env)) = None ->
  dim_location (get_db (DB_PATH env) w) = Some rows ->
  seed_locations env w
  = (Ok tt, add_events
              (set_db (DB_PATH env)
                      {| dim_location := Some (seeded rows);
                         fact_weather := fact_weather (get_db (DB_PATH env) w) |} w)
              [EvPrint (LogSeeded (seeded rows))]).
Proof.
  intros Hins Hsel Hdim. unfold seed_locations, try_except.
  unfold bind at 1. unfold engine_begin, cities. cbn [insert_cities].
  unfold bind at 1. erewrite insert_location_run by (try exact Hins; exact Hdim).
  unfold bind at 1.
  erewrite insert_location_run
    by (try exact Hins; rewrite get_db_set_db; reflexivity).
  unfold bind at 1.
  erewrite insert_location_run
    by (try exact Hins; rewrite get_db_set_db; reflexivity).
  unfold ret. rewrite !get_db_set_db, !set_db_set_db. cbn [fact_weather].
  unfold bind at 1. unfold read_dim_location, db_query. rewrite Hsel.
  rewrite get_db_set_db. cbn [dim_location].
  unfold print. rewrite emit_run. reflexivity.
Qed.

(** C1 (what the code does instead).  On an existing [dim_location], every
    run of [seed_locations] appends the three cities again: the table has no
    uniqueness constraint on (lat, lon, city, country), so [INSERT OR IGNORE]
    finds nothing to ignore and the row count grows by three each time. *)
Theorem seed_locations_inserts_again (env : Env) (rows : list dim_row) (w : world) :
  db_fault env OpInsertLocation = None ->
  db_fault env (OpSelectLocations (DB_PATH env)) = None ->
  dim_location (get_db (DB_PATH env) w) = Some rows ->
  exists w',
    seed_locations env w = (Ok tt, w')
    /\ length (dim_rows (DB_PATH env) w') = (length rows + 3)%nat
    /\ map (fun r => (dl_lat r, dl_lon r, dl_city_name r, dl_country r))
           (dim_rows (DB_PATH env) w')
       = map (fun r => (dl_lat r, dl_lon r, dl_city_name r, dl_country r)) rows ++ cities.
Proof.
  intros Hins Hsel Hdim. rewrite (seed_locations_run env rows w Hins Hsel Hdim).
  eexists. split; [reflexivity |].
  unfold dim_rows. rewrite get_db_add_events, get_db_set_db. cbn [dim_location].
  pose proof (seeded_rows rows) as Hs. cbv zeta in Hs. rewrite Hs.
  split.
  - rewrite length_app. reflexivity.
  - rewrite map_app. reflexivity.
Qed.

(** *** The snapshots of one location *)

Lemma mapM_result_map {A B} (f : A -> result B) (g : A -> B) (l : list A) :
  (forall x, f x = Ok (g x)) -> mapM_result f l = Ok (map g l).
Proof.
  intros H. induction l as [|x l IH]; [reflexivity |].
  simpl. rewrite H, IH. reflexivity.
Qed.

Lemma snapshots_of_int (base : weather_rec json) (b hours : Z) :
  obs_ts base = JInt b ->
  snapshots base hours
  = Ok (map (fun h => with_obs_ts base (JInt (b - h * 3600))) (py_range hours)).
Proof.
  intros Hb. unfold snapshots. apply mapM_result_map.
  intros h. unfold snapshot. rewrite Hb. reflexivity.
Qed.

Lemma py_range_length (n : Z) : length (py_range n) = Z.to_nat n.
Proof. unfold py_range. rewrite length_map, length_seq. reflexivity. Qed.

Lemma py_range_lookup (n : Z) (i : nat) :
  (i < Z.to_nat n)%nat -> py_range n !! i = Some (Z.of_nat i).
Proof.
  intros Hi. unfold py_range. rewrite list_lookup_fmap.
  rewrite lookup_seq_lt by exact Hi. reflexivity.
Qed.

(** The inner loop alone: from a base record reported at the integer
    instant [b], [N] snapshots whose times are [b - h * 3600] for
    [h = 0 .. N-1]; key and measured fields are those of the base. *)
Lemma snapshots_step_back_hourly (base : weather_rec json) (b : Z) (N : nat) :
  obs_ts base = JInt b ->
  exists snaps,
    snapshots base (Z.of_nat N) = Ok snaps
    /\ length snaps = N
    /\ epochs snaps = map (fun h => b - Z.of_nat h * 3600) (seq 0 N)
    /\ (forall h, (h < N)%nat ->
          exists r, snaps !! h = Some r
                    /\ obs_ts r = JInt (b - Z.of_nat h * 3600)
                    /\ location_id r = location_id base
                    /\ measured r = measured base)
    /\ (forall h t t', epochs snaps !! h = Some t -> epochs snaps !! S h = Some t' ->
          t' = t - 3600 /\ t' < t)
    /\ (forall i j ti tj, (i < j)%nat -> epochs snaps !! i = Some ti ->
          epochs snaps !! j = Some tj -> tj < ti).
Proof.
  intros Hb.
  assert (Hep : epochs (map (fun h => with_obs_ts base (JInt (b - h * 3600)))
                            (py_range (Z.of_nat N)))
                = map (fun h => b - Z.of_nat h * 3600) (seq 0 N)).
  { unfold py_range. rewrite Nat2Z.id. generalize 0%nat.
    induction N as [|N IH]; intros s; [reflexivity |].
    simpl. f_equal. apply IH. }
  assert (Hlook : forall i t, map (fun h => b - Z.of_nat h * 3600) (seq 0 N) !! i = Some t ->
                              (i < N)%nat /\ t = b - Z.of_nat i * 3600).
  { intros i t Hi. rewrite list_lookup_fmap in Hi.
    destruct (seq 0 N !! i) as [k|] eqn:Ek; [| discriminate].
    apply lookup_seq in Ek as [-> Hlt]. simpl in Hi. injection Hi as <-.
    split; [exact Hlt | reflexivity]. }
  eexists. split; [apply snapshots_of_int; exact Hb |].
  split; [rewrite length_map, py_range_length; apply Nat2Z.id |].
  split; [exact Hep |].
  split.
  - intros h Hh. eexists. split.
    + rewrite list_lookup_fmap, py_range_lookup by (rewrite Nat2Z.id; exact Hh).
      reflexivity.
    + repeat split.
  - rewrite Hep. split.
    + intros h t t' H1 H2. apply Hlook in H1 as [_ ->]. apply Hlook in H2 as [_ ->]. lia.
    + intros i j ti tj Hij H1 H2. apply Hlook in H1 as [_ ->]. apply Hlook in H2 as [_ ->].
      lia.
Qed.

Lemma backdated_of_int (env : Env) (hours : Z) (row : loc_dict)
    (base : weather_rec json) (b : Z) :
  outcome env row = Ok base -> obs_ts base = JInt b ->
  backdated env hours row
  = Ok (map (fun h => with_obs_ts base (JInt (b - h * 3600))) (py_range hours)).
Proof.
  intros Hout Hb. unfold backdated. rewrite Hout. cbn [and_then].
  apply snapshots_of_int. exact Hb.
Qed.

(** The frame rows made from the snapshots of one base record. *)
Lemma frame_of_snapshots (base : weather_rec json) (b hours : Z)
    (df : list (weather_rec (option Z))) :
  Forall2 (fun r d => location_id d = location_id r /\ measured d = measured r)
          (map (fun h => with_obs_ts base (JInt (b - h * 3600))) (py_range hours)) df ->
  length df = Z.to_nat hours
  /\ Forall (fun d => location_id d = location_id base /\ measured d = measured base) df.
Proof.
  intros H. split.
  - rewrite <- (Forall2_length _ _ _ H), length_map. apply py_range_length.
  - remember (map _ (py_range hours)) as snaps eqn:E.
    assert (Hs : Forall (fun r => location_id r = location_id base
                                  /\ measured r = measured base) snaps).
    { rewrite E. apply Forall_forall. intros r Hin. apply list_elem_of_In in Hin.
      apply in_map_iff in Hin as (h & <- & _). split; reflexivity. }
    clear E. induction H as [| r d rs ds (H1 & H2) _ IH]; [constructor |].
    inversion Hs as [| ? ? (G1 & G2) Hs']; subst.
    constructor; [split; congruence | apply IH; exact Hs'].
Qed.

(** *** A back-date run *)

Lemma backdate_loop_fetch_failure (env : Env) (hours : Z) (df_locs : list loc_dict) :
  Exists (fun row => is_ok (outcome env row) = false) df_locs ->
  forall all_rows w,
    exists e evs, backdate_loop env hours df_locs all_rows w = (Raise e, add_events w evs)
                  /\ to_sql_calls evs = [].
Proof.
  induction df_locs as [|row rest IH]; intros Hex all_rows w.
  - inversion Hex.
  - cbn [backdate_loop]. unfold bind at 1. rewrite fetch_one_record_run.
    destruct (outcome env row) as [base | e] eqn:Eout.
    + apply Exists_cons in Hex as [Hrow | Hrest].
      { rewrite Eout in Hrow. discriminate. }
      unfold bind at 1. unfold lift.
      destruct (snapshots base hours) as [snaps | e].
      * unfold bind at 1. unfold sleep. rewrite emit_run.
        destruct (IH Hrest (all_rows ++ snaps)
                    (add_events (add_events w [EvHttpGet (row_lat row) (row_lon row)])
                                [EvSleep])) as (e & evs & Hrun & Hq).
        rewrite Hrun, !add_events_app. eexists _, _. split; [reflexivity |].
        rewrite !to_sql_calls_app, Hq. reflexivity.
      * eexists _, _. split; reflexivity.
    + eexists _, _. split; reflexivity.
Qed.

(** C9.  If the fetch of any listed location fails, [insert_backdated_snapshots]
    raises and no file changes: [to_sql] is never called, since the bulk
    append comes after the loop over all locations. *)
Theorem backdate_fetch_failure_inserts_nothing (env : Env) (hours : Z) (w : world)
    (locations : list dim_row) :
  dim_location (get_db "weather.db" w) = Some locations ->
  Exists (fun r => is_ok (outcome env (to_loc_dict r)) = false) locations ->
  exists e w',
    insert_backdated_snapshots env hours w = (Raise e, w')
    /\ files w' = files w
    /\ to_sql_calls (trace w') = to_sql_calls (trace w)
    /\ forall p, fact_rows p w' = fact_rows p w.
Proof.
  intros Hdim Hex.
  assert (Hex' : Exists (fun row => is_ok (outcome env row) = false)
                        (map to_loc_dict locations)).
  { clear Hdim. induction Hex as [r rs Hr | r rs _ IH]; simpl.
    - left. exact Hr.
    - right. exact IH. }
  assert (Hshape : forall e evs,
             to_sql_calls evs = [] ->
             let w' := add_events (add_events w evs)
                         (alert_events env "ETL Failure Alert: insert_backdated_snapshots"
                            "An error occurred in back-date helper:" e) in
             files w' = files w
             /\ to_sql_calls (trace w') = to_sql_calls (trace w)
             /\ forall p, fact_rows p w' = fact_rows p w).
  { intros e evs Hq. cbv zeta. split; [reflexivity | split; [| reflexivity]].
    cbn [trace add_events]. rewrite !to_sql_calls_app, Hq, alert_events_no_to_sql.
    rewrite !app_nil_r. reflexivity. }
  unfold insert_backdated_snapshots, try_except. unfold bind at 1.
  unfold read_locations, db_query.
  destruct (db_fault env (OpSelectLocations "weather.db")) as [e |].
  - rewrite alert_and_reraise_run. eexists _, _. split; [reflexivity |].
    split; [reflexivity | split; [| reflexivity]].
    cbn [trace add_events]. rewrite to_sql_calls_app, alert_events_no_to_sql.
    apply app_nil_r.
  - rewrite Hdim.
    destruct (map to_loc_dict locations) as [|l0 ls] eqn:Elocs; [inversion Hex' |].
    destruct (backdate_loop_fetch_failure env hours (l0 :: ls) Hex' [] w)
      as (e & evs & Hrun & Hq).
    unfold bind at 1. rewrite Hrun, alert_and_reraise_run.
    eexists _, _. split; [reflexivity |]. apply Hshape. exact Hq.
Qed.

Lemma backdate_loop_run (env : Env) (hours : Z) (df_locs : list loc_dict) :
  Forall (fun row => is_ok (backdated env hours row) = true) df_locs ->
  forall all_rows w,
    backdate_loop env hours df_locs all_rows w
    = (Ok (all_rows ++ backdated_rows env hours df_locs),
       add_events w (flat_map (fun row => [EvHttpGet (row_lat row) (row_lon row); EvSleep])
                              df_locs)).
Proof.
  induction df_locs as [|row rest IH]; intros Hall all_rows w.
  - simpl. unfold ret. rewrite app_nil_r, add_events_nil. reflexivity.
  - inversion Hall as [| ? ? Hrow Hrest]; subst.
    cbn [backdate_loop backdated_rows flat_map]. unfold bind at 1.
    rewrite fetch_one_record_run. unfold backdated in *.
    destruct (outcome env row) as [base|]; [| discriminate Hrow].
    cbn [and_then] in *. unfold bind at 1. unfold lift.
    destruct (snapshots base hours) as [snaps|]; [| discriminate Hrow].
    unfold bind at 1. unfold sleep. rewrite emit_run, (IH Hrest), !add_events_app.
    rewrite <- app_assoc. reflexivity.
Qed.

Lemma insert_backdated_snapshots_run (env : Env) (hours : Z) (w : world)
    (locations : list dim_row) :
  db_fault env (OpSelectLocations "weather.db") = None ->
  db_fault env (OpAppendFacts "weather.db") = None ->
  dim_location (get_db "weather.db" w) = Some locations ->
  let df_locs := map to_loc_dict locations in
  let all_rows := backdated_rows env hours df_locs in
  Forall (fun row => is_ok (backdated env hours row) = true) df_locs ->
  all_rows <> [] ->
  Forall (fun r => exists t, pd_to_datetime env (obs_ts r) = Ok (Some t)) all_rows ->
  exists w' df,
    insert_backdated_snapshots env hours w = (Ok tt, w')
    /\ Forall2 (fun r d => location_id d = location_id r /\ measured d = measured r)
               all_rows df
    /\ map snd (fact_rows "weather.db" w') = map snd (fact_rows "weather.db" w) ++ df
    /\ trace w' = trace w
                  ++ flat_map (fun row => [EvHttpGet (row_lat row) (row_lon row); EvSleep])
                              df_locs
                  ++ [EvToSql "weather.db" df; EvPrint (LogBackdated (length df) hours)].
Proof.
  intros Hsel Happ Hdim. cbv zeta.
  remember (map to_loc_dict locations) as df_locs eqn:Edf.
  intros Hall Hne Hconv.
  assert (Hlocs : df_locs <> []).
  { intros ->. apply Hne. reflexivity. }
  destruct (to_frame_instants env _ Hne Hconv) as (df & Hdf & Hnat & Hlen & Hrel).
  destruct (append_facts_rows (get_db "weather.db" w) df Hnat)
    as (d' & Hd' & _ & t' & Ht' & Hrows').
  eexists. exists df. split; [| split; [| split]].
  - unfold insert_backdated_snapshots, try_except. unfold bind at 1.
    unfold read_locations, db_query. rewrite Hsel, Hdim, <- Edf.
    destruct df_locs as [|l0 ls]; [congruence |].
    unfold bind at 1. rewrite (backdate_loop_run env hours (l0 :: ls) Hall).
    cbn [app]. unfold bind at 1. unfold lift. rewrite Hdf.
    unfold bind at 1. unfold to_sql. unfold bind at 1. rewrite emit_run.
    rewrite db_exec_run by exact Happ. rewrite !get_db_add_events, Hd'.
    unfold print. rewrite emit_run. reflexivity.
  - eapply Forall2_impl; [exact Hrel |]. intros r d (H1 & _ & H3). split; assumption.
  - unfold fact_rows at 1. rewrite get_db_add_events, get_db_set_db, Ht', Hrows'.
    unfold fact_rows. rewrite map_app, number_rows_snd. reflexivity.
  - cbn [trace add_events set_db]. rewrite <- !app_assoc. reflexivity.
Qed.

(** The frame of a list of rows, given row by row. *)
Lemma mapM_result_Forall2 {A B} (f : A -> result B) (l : list A) (l' : list B) :
  Forall2 (fun x y => f x = Ok y) l l' -> mapM_result f l = Ok l'.
Proof.
  induction 1 as [| x y l l' Hxy _ IH]; [reflexivity |].
  cbn [mapM_result]. rewrite Hxy, IH. reflexivity.
Qed.

(** The rows of one location after the conversion of their times. *)
Lemma converted_snapshots (env : Env) (base : weather_rec json) (b : Z) (hs : list Z) :
  (forall h, In h hs ->
             pd_to_datetime env (JInt (b - h * 3600)) = Ok (Some (b - h * 3600))) ->
  Forall2 (fun r d => (let! t := pd_to_datetime env (obs_ts r) in Ok (with_obs_ts r t))
                      = Ok d)
          (map (fun h => with_obs_ts base (JInt (b - h * 3600))) hs)
          (map (fun h => with_obs_ts base (Some (b - h * 3600))) hs).
Proof.
  induction hs as [|h hs IH]; intros Hconv; [constructor |].
  cbn [map]. constructor.
  - cbn [obs_ts with_obs_ts]. rewrite (Hconv h (or_introl eq_refl)). reflexivity.
  - apply IH. intros h' Hh'. apply Hconv. right. exact Hh'.
Qed.

Lemma hourly_back_range (base : weather_rec json) (b hours : Z) :
  map (fun h => with_obs_ts base (Some (b - h * 3600))) (py_range hours)
  = map (fun t => with_obs_ts base (Some t)) (hourly_back b (Z.to_nat hours)).
Proof. unfold py_range, hourly_back. rewrite !map_map. reflexivity. Qed.

Lemma py_range_In (n h : Z) : In h (py_range n) -> 0 <= h < n.
Proof.
  unfold py_range. intros Hin. apply in_map_iff in Hin as (k & <- & Hk).
  apply in_seq in Hk. lia.
Qed.

(** The frame of a whole pass, location by location. *)
Lemma backdated_frame (env : Env) (hours : Z) (locations : list dim_row) :
  Forall (fun l => exists base b,
                     outcome env (to_loc_dict l) = Ok base
                     /\ obs_ts base = JInt b
                     /\ forall h, 0 <= h < hours ->
                                  pd_to_datetime env (JInt (b - h * 3600))
                                  = Ok (Some (b - h * 3600))) locations ->
  exists chunks,
    Forall (fun row => is_ok (backdated env hours row) = true) (map to_loc_dict locations)
    /\ Forall2 (fun r d => (let! t := pd_to_datetime env (obs_ts r) in Ok (with_obs_ts r t))
                           = Ok d)
               (backdated_rows env hours (map to_loc_dict locations)) (concat chunks)
    /\ Forall2 (fun l chunk =>
                  exists base b,
                    outcome env (to_loc_dict l) = Ok base
                    /\ obs_ts base = JInt b
                    /\ chunk = map (fun t => with_obs_ts base (Some t))
                                   (hourly_back b (Z.to_nat hours)))
               locations chunks.
Proof.
  induction 1 as [| l ls (base & b & Hout & Hb & Hconv) _ (chunks & Hok & Hrows & Hall)].
  - exists []. repeat split; constructor.
  - pose proof (backdated_of_int env hours _ _ _ Hout Hb) as Hl.
    exists (map (fun t => with_obs_ts base (Some t)) (hourly_back b (Z.to_nat hours)) :: chunks).
    split; [| split].
    + cbn [map]. constructor; [rewrite Hl; reflexivity | exact Hok].
    + cbn [map backdated_rows flat_map concat]. rewrite Hl.
      apply Forall2_app; [| exact Hrows].
      rewrite <- hourly_back_range. apply converted_snapshots.
      intros h Hh. apply Hconv, py_range_In, Hh.
    + constructor; [| exact Hall]. exists base, b. repeat split; assumption.
Qed.

Lemma has_nat_app (a b : list (weather_rec (option Z))) :
  has_nat (a ++ b) = has_nat a || has_nat b.
Proof. unfold has_nat. apply existsb_app. Qed.

Lemma hourly_back_length (b : Z) (N : nat) : length (hourly_back b N) = N.
Proof. unfold hourly_back. rewrite length_map. apply length_seq. Qed.

Lemma hourly_back_lookup (b : Z) (N i : nat) (t : Z) :
  hourly_back b N !! i = Some t -> (i < N)%nat /\ t = b - Z.of_nat i * 3600.
Proof.
  unfold hourly_back. intros Hi. rewrite list_lookup_fmap in Hi.
  destruct (seq 0 N !! i) as [k|] eqn:Ek; [| discriminate].
  apply lookup_seq in Ek as [-> Hlt]. simpl in Hi. injection Hi as <-.
  split; [exact Hlt | reflexivity].
Qed.

Lemma to_sql_calls_backdate_loop (locs : list loc_dict) :
  to_sql_calls (flat_map (fun row => [EvHttpGet (row_lat row) (row_lon row); EvSleep]) locs)
  = [].
Proof. induction locs as [|r rs IH]; [reflexivity | exact IH]. Qed.

(** C4.  In every back-date run over [hours > 0] hours that finds its
    locations and in which every location's fetch reports an integer time
    [b] (UNIX seconds, which pandas reads as that instant), the rows
    generated and handed to [to_sql] are, location by location, [hours]
    copies of the fetched record under the times [b - h * 3600] for
    [h = 0 .. hours-1]; they are the rows stored when the database does not
    refuse the append.  Each such sequence starts at [b], and each next time
    is exactly 3600 seconds earlier, so it decreases strictly. *)
Theorem backdate_run_steps_back_hourly (env : Env) (hours : Z) (w : world)
    (locations : list dim_row) :
  db_fault env (OpSelectLocations "weather.db") = None ->
  dim_location (get_db "weather.db" w) = Some locations ->
  locations <> [] ->
  0 < hours ->
  Forall (fun l => exists base b,
                     fst (fetch_one_record env (to_loc_dict l) w) = Ok base
                     /\ obs_ts base = JInt b
                     /\ forall h, 0 <= h < hours ->
                                  pd_to_datetime env (JInt (b - h * 3600))
                                  = Ok (Some (b - h * 3600))) locations ->
  exists chunks,
    Forall2 (fun l chunk =>
               exists base b,
                 fst (fetch_one_record env (to_loc_dict l) w) = Ok base
                 /\ obs_ts base = JInt b
                 /\ chunk = map (fun t => with_obs_ts base (Some t))
                                (hourly_back b (Z.to_nat hours)))
            locations chunks
    /\ to_sql_calls (trace (snd (insert_backdated_snapshots env hours w)))
       = to_sql_calls (trace w) ++ [concat chunks]
    /\ (db_fault env (OpAppendFacts "weather.db") = None ->
        fst (insert_backdated_snapshots env hours w) = Ok tt
        /\ map snd (fact_rows "weather.db" (snd (insert_backdated_snapshots env hours w)))
           = map snd (fact_rows "weather.db" w) ++ concat chunks)
    /\ (forall b,
          length (hourly_back b (Z.to_nat hours)) = Z.to_nat hours
          /\ hourly_back b (Z.to_nat hours) !! 0%nat = Some b
          /\ forall i t t',
               hourly_back b (Z.to_nat hours) !! i = Some t ->
               hourly_back b (Z.to_nat hours) !! S i = Some t' ->
               t' = t - 3600 /\ t' < t).
Proof.
  intros Hsel Hdim Hne Hpos Hfetch.
  assert (Hout : Forall (fun l => exists base b,
                           outcome env (to_loc_dict l) = Ok base
                           /\ obs_ts base = JInt b
                           /\ forall h, 0 <= h < hours ->
                                        pd_to_datetime env (JInt (b - h * 3600))
                                        = Ok (Some (b - h * 3600))) locations).
  { eapply Forall_impl; [exact Hfetch |]. intros l (base & b & H & Hb & Hc).
    rewrite fetch_one_record_run in H. exists base, b. repeat split; assumption. }
  destruct (backdated_frame env hours locations Hout) as (chunks & Hok & Hrows & Hall).
  assert (Hsome : backdated_rows env hours (map to_loc_dict locations) <> []).
  { destruct locations as [|l ls]; [congruence |].
    inversion Hout as [| ? ? (base & b & Ho & Hb & _) _]; subst.
    cbn [map backdated_rows flat_map]. rewrite (backdated_of_int env hours _ _ _ Ho Hb).
    unfold py_range. destruct (Z.to_nat hours) eqn:E; [lia |]. discriminate. }
  assert (Hframe : to_frame env (backdated_rows env hours (map to_loc_dict locations))
                   = Ok (concat chunks)).
  { unfold to_frame.
    destruct (backdated_rows env hours (map to_loc_dict locations)) eqn:E; [congruence |].
    apply mapM_result_Forall2. exact Hrows. }
  assert (Hnat : has_nat (concat chunks) = false).
  { clear -Hall. induction Hall as [| l chunk ls chunks (base & b & _ & _ & ->) _ IH];
      [reflexivity |].
    cbn [concat]. rewrite has_nat_app, IH, orb_false_r.
    unfold has_nat. induction (hourly_back b (Z.to_nat hours)) as [|t ts IHt];
      [reflexivity | exact IHt]. }
  assert (Hlocs : map to_loc_dict locations <> []).
  { destruct locations; [congruence | discriminate]. }
  (* the run up to the append *)
  assert (Hrun : insert_backdated_snapshots env hours w
                 = try_except
                     (do _ <- to_sql env "weather.db" (concat chunks);
                      print (LogBackdated (length (concat chunks)) hours))
                     (alert_and_reraise env "ETL Failure Alert: insert_backdated_snapshots"
                        "An error occurred in back-date helper:")
                     (add_events w
                        (flat_map (fun row => [EvHttpGet (row_lat row) (row_lon row); EvSleep])
                                  (map to_loc_dict locations)))).
  { unfold insert_backdated_snapshots, try_except. unfold bind at 1.
    unfold read_locations, db_query. rewrite Hsel, Hdim.
    destruct (map to_loc_dict locations) as [|l0 ls] eqn:Elocs; [congruence |].
    unfold bind at 1. rewrite (backdate_loop_run env hours (l0 :: ls) Hok).
    cbn [app]. unfold bind at 1. unfold lift. rewrite Hframe. reflexivity. }
  exists chunks. split; [| split; [| split]].
  - eapply Forall2_impl; [exact Hall |]. intros l chunk (base & b & H & Hb & Hc).
    exists base, b. rewrite fetch_one_record_run. repeat split; assumption.
  - rewrite Hrun. unfold try_except, to_sql. unfold bind at 1. unfold bind at 1.
    rewrite emit_run.
    destruct (db_fault env (OpAppendFacts "weather.db")) as [e|] eqn:Happ.
    + unfold db_exec. rewrite Happ, alert_and_reraise_run. cbn [snd trace add_events].
      rewrite <- !app_assoc, !to_sql_calls_app, to_sql_calls_backdate_loop,
        alert_events_no_to_sql.
      reflexivity.
    + destruct (append_facts_rows (get_db "weather.db" w) (concat chunks) Hnat)
        as (d' & Hd' & _).
      rewrite db_exec_run by exact Happ.
      rewrite !get_db_add_events, Hd'. unfold print. rewrite emit_run.
      cbn [snd trace add_events set_db].
      rewrite <- !app_assoc, !to_sql_calls_app, to_sql_calls_backdate_loop.
      reflexivity.
  - intros Happ.
    destruct (append_facts_rows (get_db "weather.db" w) (concat chunks) Hnat)
      as (d' & Hd' & _ & t' & Ht' & Hrows').
    assert (Hfin : insert_backdated_snapshots env hours w
                   = (Ok tt,
                      add_events
                        (set_db "weather.db" d'
                           (add_events
                              (add_events w
                                 (flat_map (fun row => [EvHttpGet (row_lat row) (row_lon row);
                                                        EvSleep])
                                           (map to_loc_dict locations)))
                              [EvToSql "weather.db" (concat chunks)]))
                        [EvPrint (LogBackdated (length (concat chunks)) hours)])).
    { rewrite Hrun. unfold try_except, to_sql. unfold bind at 1. unfold bind at 1.
      rewrite emit_run. rewrite db_exec_run by exact Happ.
      rewrite !get_db_add_events, Hd'. unfold print. rewrite emit_run. reflexivity. }
    rewrite Hfin. cbn [fst snd].
    split; [reflexivity |].
    unfold fact_rows at 1. rewrite get_db_add_events, get_db_set_db, Ht', Hrows'.
    unfold fact_rows. rewrite map_app, number_rows_snd. reflexivity.
  - intros b. split; [apply hourly_back_length |]. split.
    + unfold hourly_back. destruct (Z.to_nat hours) eqn:E; [lia |].
      cbn. f_equal. lia.
    + intros i u u' H1 H2. apply hourly_back_lookup in H1 as [_ ->].
      apply hourly_back_lookup in H2 as [_ ->]. lia.
Qed.

Lemma filter_location_all (i : Z) (l : list (weather_rec (option Z))) :
  Forall (fun d => location_id d = i) l ->
  List.filter (fun d => location_id d =? i) l = l.
Proof.
  induction 1 as [| d l Hd _ IH]; [reflexivity |].
  simpl. rewrite (proj2 (Z.eqb_eq _ _) Hd), IH. reflexivity.
Qed.

Lemma filter_location_none (i j : Z) (l : list (weather_rec (option Z))) :
  i <> j ->
  Forall (fun d => location_id d = j) l ->
  List.filter (fun d => location_id d =? i) l = [].
Proof.
  intros Hij. induction 1 as [| d l Hd _ IH]; [reflexivity |].
  simpl. rewrite IH. destruct (Z.eqb_spec (location_id d) i); [congruence | reflexivity].
Qed.

(** The initial load when DB_URL names [weather.db] itself, the file the
    back-date step opens: with no database fault, a successful fetch with an
    integer report time for each of the three cities, and convertible
    timestamps, recreating the schema, seeding and back-dating 25 hours
    leaves exactly 75 rows in [fact_weather], 25 for each location, each
    with the measured fields of that location's single fetched record; the
    run asks the API once per city and appends once. *)
Lemma initial_load_has_25_rows_per_city (env : Env) (w : world)
    (b1 b2 b3 : weather_rec json) (t1 t2 t3 : Z) :
  no_db_fault env ->
  DB_PATH env = "weather.db" ->
  outcome env bengaluru = Ok b1 -> obs_ts b1 = JInt t1 ->
  outcome env london = Ok b2 -> obs_ts b2 = JInt t2 ->
  outcome env new_york = Ok b3 -> obs_ts b3 = JInt t3 ->
  (forall t h, In t [t1; t2; t3] -> In h (py_range 25) ->
               exists u, pd_to_datetime env (JInt (t - h * 3600)) = Ok (Some u)) ->
  exists w' s1 s2 s3,
    initial_load env w = (Ok tt, w')
    /\ map snd (fact_rows "weather.db" w') = s1 ++ s2 ++ s3
    /\ length (fact_rows "weather.db" w') = 75%nat
    /\ (length s1 = 25%nat
        /\ Forall (fun d => location_id d = 1 /\ measured d = measured b1) s1)
    /\ (length s2 = 25%nat
        /\ Forall (fun d => location_id d = 2 /\ measured d = measured b2) s2)
    /\ (length s3 = 25%nat
        /\ Forall (fun d => location_id d = 3 /\ measured d = measured b3) s3)
    /\ (forall i, In i [1; 2; 3] ->
          length (List.filter (fun d => location_id d =? i)
                              (map snd (fact_rows "weather.db" w'))) = 25%nat)
    /\ http_calls (trace w')
       = http_calls (trace w)
         ++ [ EvHttpGet (row_lat bengaluru) (row_lon bengaluru);
              EvHttpGet (row_lat london) (row_lon london);
              EvHttpGet (row_lat new_york) (row_lon new_york) ]
    /\ to_sql_calls (trace w') = to_sql_calls (trace w) ++ [s1 ++ s2 ++ s3].
Proof.
  intros Hnf Hpath Ho1 Hb1 Ho2 Hb2 Ho3 Hb3 Hconv.
  pose proof (outcome_location_id _ _ _ Ho1) as Hl1.
  pose proof (outcome_location_id _ _ _ Ho2) as Hl2.
  pose proof (outcome_location_id _ _ _ Ho3) as Hl3.
  cbn [row_location_id bengaluru london new_york] in Hl1, Hl2, Hl3.
  pose proof (backdated_of_int env 25 _ _ _ Ho1 Hb1) as B1.
  pose proof (backdated_of_int env 25 _ _ _ Ho2 Hb2) as B2.
  pose proof (backdated_of_int env 25 _ _ _ Ho3 Hb3) as B3.
  (* the schema and the seeds *)
  set (w2 := add_events
               (set_db "weather.db"
                  {| dim_location := Some (seeded []);
                     fact_weather := Some {| fw_declared := true; fw_rows := [] |} |}
                  (add_events (set_db "weather.db" fresh_db w) [EvPrint LogTablesRecreated]))
               [EvPrint (LogSeeded (seeded []))]).
  assert (Hload : initial_load env w = insert_backdated_snapshots env 25 w2).
  { unfold initial_load. unfold bind at 1. rewrite (recreate_tables_run env w Hnf).
    unfold bind at 1.
    rewrite (seed_locations_run env []) by
      (try apply Hnf; rewrite Hpath, get_db_add_events, get_db_set_db; reflexivity).
    rewrite Hpath, get_db_add_events, get_db_set_db. reflexivity. }
  assert (Hdim : dim_location (get_db "weather.db" w2) = Some (seeded [])).
  { unfold w2. rewrite get_db_add_events, get_db_set_db. reflexivity. }
  assert (Hfacts : fact_rows "weather.db" w2 = []).
  { unfold fact_rows, w2. rewrite get_db_add_events, get_db_set_db. reflexivity. }
  assert (Hlocs : map to_loc_dict (seeded []) = [bengaluru; london; new_york])
    by reflexivity.
  assert (Hrows : backdated_rows env 25 [bengaluru; london; new_york]
                  = map (fun h => with_obs_ts b1 (JInt (t1 - h * 3600))) (py_range 25)
                    ++ map (fun h => with_obs_ts b2 (JInt (t2 - h * 3600))) (py_range 25)
                    ++ map (fun h => with_obs_ts b3 (JInt (t3 - h * 3600))) (py_range 25)).
  { unfold backdated_rows. cbn [flat_map]. rewrite B1, B2, B3, app_nil_r. reflexivity. }
  destruct (insert_backdated_snapshots_run env 25 w2 (seeded []))
    as (w' & df & Hrun & Hrel & Hstored & Htrace).
  - apply Hnf.
  - apply Hnf.
  - exact Hdim.
  - rewrite Hlocs. repeat constructor; [rewrite B1 | rewrite B2 | rewrite B3]; reflexivity.
  - rewrite Hlocs, Hrows. discriminate.
  - rewrite Hlocs, Hrows. rewrite !Forall_app. repeat split;
      apply Forall_forall; intros r Hin; apply list_elem_of_In in Hin;
      apply in_map_iff in Hin as (h & <- & Hh);
      cbn [obs_ts with_obs_ts]; apply Hconv; simpl; auto.
  - rewrite Hlocs, Hrows in Hrel.
    apply Forall2_app_inv_l in Hrel as (s1 & s23 & H1 & H23 & ->).
    apply Forall2_app_inv_l in H23 as (s2 & s3 & H2 & H3 & ->).
    apply frame_of_snapshots in H1 as (L1 & F1).
    apply frame_of_snapshots in H2 as (L2 & F2).
    apply frame_of_snapshots in H3 as (L3 & F3).
    rewrite Hl1 in F1. rewrite Hl2 in F2. rewrite Hl3 in F3.
    rewrite Hfacts in Hstored. cbn [map app] in Hstored.
    assert (K1 : Forall (fun d : weather_rec (option Z) => location_id d = 1) s1)
      by (eapply Forall_impl; [exact F1 | intros d [H _]; exact H]).
    assert (K2 : Forall (fun d : weather_rec (option Z) => location_id d = 2) s2)
      by (eapply Forall_impl; [exact F2 | intros d [H _]; exact H]).
    assert (K3 : Forall (fun d : weather_rec (option Z) => location_id d = 3) s3)
      by (eapply Forall_impl; [exact F3 | intros d [H _]; exact H]).
    exists w', s1, s2, s3. rewrite Hload.
    split; [exact Hrun |]. split; [exact Hstored |].
    split.
    { transitivity (length (map snd (fact_rows "weather.db" w')));
        [symmetry; apply length_map |].
      rewrite Hstored, !length_app, L1, L2, L3. reflexivity. }
    split; [split; [exact L1 | exact F1] |].
    split; [split; [exact L2 | exact F2] |].
    split; [split; [exact L3 | exact F3] |].
    rewrite Hlocs in Htrace. cbn [flat_map app] in Htrace.
    split; [| split].
    2:{ rewrite Htrace. unfold http_calls, w2. cbn [trace add_events set_db].
        rewrite !List.filter_app. cbn [List.filter]. rewrite !app_nil_r. reflexivity. }
    2:{ rewrite Htrace. unfold w2. cbn [trace add_events set_db].
        rewrite !to_sql_calls_app. cbn [to_sql_calls flat_map app].
        rewrite !app_nil_r. reflexivity. }
    intros i Hi. rewrite Hstored, !List.filter_app, !length_app.
    destruct Hi as [<- | [<- | [<- | []]]].
    + rewrite (filter_location_all 1 s1 K1), (filter_location_none 1 2 s2),
        (filter_location_none 1 3 s3) by (try lia; assumption).
      rewrite L1. reflexivity.
    + rewrite (filter_location_none 2 1 s1), (filter_location_all 2 s2 K2),
        (filter_location_none 2 3 s3) by (try lia; assumption).
      rewrite L2. reflexivity.
    + rewrite (filter_location_none 3 1 s1), (filter_location_none 3 2 s2),
        (filter_location_all 3 s3 K3) by (try lia; assumption).
      rewrite L3. reflexivity.
Qed.

(** *** The ETL cycle *)

Lemma etl_loop_run (env : Env) (df_locs : list loc_dict) :
  forall (rows : list (weather_rec json)) (w : world),
    etl_loop env df_locs rows w
    = (Ok (rows ++ fetched env df_locs), add_events w (etl_loop_events env df_locs)).
Proof.
  induction df_locs as [|row rest IH]; intros rows w.
  - simpl. unfold ret. rewrite app_nil_r, add_events_nil. reflexivity.
  - cbn [etl_loop]. unfold bind at 1. unfold try_except.
    unfold bind at 1. rewrite fetch_one_record_run.
    cbn [fetched etl_loop_events flat_map].
    destruct (outcome env row) as [flat | e].
    + unfold bind, sleep, ret. rewrite emit_run, IH, !add_events_app.
      rewrite <- app_assoc. reflexivity.
    + unfold bind, print, ret. rewrite emit_run, IH, !add_events_app.
      reflexivity.
Qed.

Lemma etl_loop_events_no_to_sql (env : Env) (df_locs : list loc_dict) :
  to_sql_calls (etl_loop_events env df_locs) = [].
Proof.
  induction df_locs as [|row rest IH]; [reflexivity |].
  cbn [etl_loop_events flat_map]. rewrite to_sql_calls_app.
  fold (etl_loop_events env rest). rewrite IH.
  destruct (outcome env row); reflexivity.
Qed.

Lemma fetched_length (env : Env) (df_locs : list loc_dict) :
  length (fetched env df_locs)
  = length (List.filter (fun row => is_ok (outcome env row)) df_locs).
Proof.
  induction df_locs as [|row rest IH]; [reflexivity |].
  cbn [fetched flat_map List.filter]. rewrite length_app.
  fold (fetched env rest). rewrite IH.
  destruct (outcome env row); reflexivity.
Qed.

(** C10.  When [dim_location] exists and holds no row, [etl_once] returns
    normally and leaves the world as it was but for one printed line: no
    request to the API, no call of [to_sql], no mail. *)
Theorem etl_once_without_locations (env : Env) (w : world) :
  db_fault env (OpSelectLocations (DB_PATH env)) = None ->
  dim_location (get_db (DB_PATH env) w) = Some [] ->
  etl_once env w = (Ok tt, add_events w [EvPrint LogNoCitiesEtl])
  /\ http_calls [EvPrint LogNoCitiesEtl] = []
  /\ to_sql_calls [EvPrint LogNoCitiesEtl] = []
  /\ mails [EvPrint LogNoCitiesEtl] = [].
Proof.
  intros Hfault Hdim. split; [| repeat split].
  unfold etl_once, try_except, bind, read_locations, db_query.
  rewrite Hfault, Hdim. reflexivity.
Qed.

(** C3 (amended).  Over a non-empty [dim_location], the loop of [etl_once] never
    raises: a failed fetch is logged and skipped, and the loop returns the
    records of the locations whose fetch succeeded.  If none succeeded,
    [etl_once] returns without calling [to_sql] and without touching a file.
    Otherwise, when the fetched timestamps convert and the append is not
    refused, it makes one [to_sql] call and [fact_weather] grows by exactly
    one row per successful fetch. *)
Theorem etl_once_loads_each_fetched_record (env : Env) (w : world) (locations : list dim_row) :
  db_fault env (OpSelectLocations (DB_PATH env)) = None ->
  dim_location (get_db (DB_PATH env) w) = Some locations ->
  locations <> [] ->
  let df_locs := map to_loc_dict locations in
  let rows := fetched env df_locs in
  etl_loop env df_locs [] w = (Ok rows, add_events w (etl_loop_events env df_locs))
  /\ length rows = length (List.filter (fun row => is_ok (outcome env row)) df_locs)
  /\ (rows = [] ->
      exists w', etl_once env w = (Ok tt, w')
                 /\ files w' = files w
                 /\ to_sql_calls (trace w') = to_sql_calls (trace w))
  /\ (rows <> [] ->
      Forall (fun r => exists t, pd_to_datetime env (obs_ts r) = Ok (Some t)) rows ->
      db_fault env (OpAppendFacts (DB_PATH env)) = None ->
      exists w' df,
        etl_once env w = (Ok tt, w')
        /\ to_sql_calls (trace w') = to_sql_calls (trace w) ++ [df]
        /\ Forall2 (fun r d => location_id d = location_id r /\ measured d = measured r)
                   rows df
        /\ map snd (fact_rows (DB_PATH env) w') = map snd (fact_rows (DB_PATH env) w) ++ df
        /\ length (fact_rows (DB_PATH env) w')
           = (length (fact_rows (DB_PATH env) w)
              + length (List.filter (fun row => is_ok (outcome env row)) df_locs))%nat).
Proof.
  intros Hfault Hdim Hne. cbv zeta.
  remember (map to_loc_dict locations) as df_locs eqn:Edf.
  remember (fetched env df_locs) as rows eqn:Erows.
  assert (Hloop : forall acc w0, etl_loop env df_locs acc w0
            = (Ok (acc ++ rows), add_events w0 (etl_loop_events env df_locs)))
    by (intros; rewrite Erows; apply etl_loop_run).
  assert (Hlocs : exists l0 ls, df_locs = l0 :: ls).
  { rewrite Edf. destruct locations as [|r rs]; [congruence |]. simpl. eauto. }
  destruct Hlocs as (l0 & ls & Hlocs).
  assert (Hcount : length rows
                   = length (List.filter (fun row => is_ok (outcome env row)) df_locs))
    by (rewrite Erows; apply fetched_length).
  assert (Hquiet : to_sql_calls (etl_loop_events env df_locs) = [])
    by apply etl_loop_events_no_to_sql.
  clear Erows.
  split; [apply (Hloop [] w) |].
  split; [exact Hcount |].
  split.
  - intros Hrows. eexists. split; [| split].
    + unfold etl_once, try_except. unfold bind at 1. unfold read_locations, db_query.
      rewrite Hfault, Hdim, <- Edf, Hlocs. unfold bind at 1.
      rewrite <- Hlocs, Hloop, Hrows. cbn [app]. unfold print. rewrite emit_run.
      reflexivity.
    + reflexivity.
    + cbn [trace add_events]. rewrite <- app_assoc, to_sql_calls_app, to_sql_calls_app.
      rewrite Hquiet. cbn. rewrite app_nil_r. reflexivity.
  - intros Hrows Hconv Happend.
    destruct (to_frame_instants env rows Hrows Hconv) as (df & Hdf & Hnat & Hlen & Hall).
    destruct (append_facts_rows (get_db (DB_PATH env) w) df Hnat)
      as (d' & Hd' & _ & t' & Ht' & Hrows').
    eexists. exists df. split; [| split; [| split; [| split]]].
    + unfold etl_once, try_except. unfold bind at 1. unfold read_locations, db_query.
      rewrite Hfault, Hdim, <- Edf, Hlocs. unfold bind at 1.
      rewrite <- Hlocs, Hloop. cbn [app].
      destruct rows as [|r0 rows0]; [congruence |].
      unfold bind at 1. unfold lift. rewrite Hdf.
      unfold bind at 1. unfold engine_begin, to_sql. unfold bind at 1.
      rewrite emit_run. unfold db_exec. rewrite Happend.
      rewrite !get_db_add_events, Hd'.
      unfold print. rewrite emit_run. reflexivity.
    + cbn [trace add_events]. rewrite <- !app_assoc, !to_sql_calls_app.
      rewrite Hquiet. reflexivity.
    + eapply Forall2_impl; [exact Hall |]. intros r d (H1 & _ & H3). split; assumption.
    + unfold fact_rows at 1. unfold add_events. cbn [files trace].
      rewrite get_db_insert, Ht', Hrows'. unfold fact_rows.
      rewrite map_app, number_rows_snd. reflexivity.
    + unfold fact_rows at 1. unfold add_events. cbn [files trace].
      rewrite get_db_insert, Ht', Hrows'. unfold fact_rows.
      rewrite length_app, number_rows_length, Hlen, Hcount. reflexivity.
Qed.

(** *** The dashboard *)

Lemma filter_filter_andb {A} (p q : A -> bool) (l : list A) :
  List.filter q (List.filter p l) = List.filter (fun x => p x && q x) l.
Proof.
  induction l as [|x l IH]; [reflexivity |].
  simpl. destruct (p x); simpl; [destruct (q x) |]; rewrite IH; reflexivity.
Qed.

Lemma isin_In (l : list string) (c : string) : Dashboard.isin l c = true <-> In c l.
Proof.
  unfold Dashboard.isin. rewrite existsb_exists. split.
  - intros (x & Hin & Heq). apply String.eqb_eq in Heq. subst. exact Hin.
  - intros Hin. exists c. split; [exact Hin | apply String.eqb_refl].
Qed.

Lemma unique_In (l : list string) (c : string) : In c (Dashboard.unique l) <-> In c l.
Proof.
  induction l as [|x l IH]; [reflexivity |].
  cbn [Dashboard.unique]. simpl. rewrite filter_In, IH. split.
  - intros [H | [H _]]; auto.
  - intros [H | H]; [left; exact H |].
    destruct (String.eqb_spec x c); [left; assumption | right; split; auto].
Qed.

Lemma filter_eq_on {A} (p q : A -> bool) (l : list A) :
  (forall x, In x l -> p x = q x) -> List.filter p l = List.filter q l.
Proof.
  induction l as [|x l IH]; intros H; [reflexivity |].
  simpl. rewrite (H x) by (left; reflexivity).
  rewrite IH by (intros y Hy; apply H; right; exact Hy). reflexivity.
Qed.

(** The script's two bounds against the days of the range: the start bound
    keeps exactly the times from the start date on; the end bound keeps the
    times up to the end date except those later than 00:00 UTC on it. *)
Lemma bounds_and_days (start_date end_date : Z) (t : option Z) :
  (Dashboard.index_ge t (Dashboard.to_utc_timestamp start_date)
   && Dashboard.index_le t (Dashboard.to_utc_timestamp end_date))
  = on_days start_date end_date t && negb (late_on end_date t).
Proof.
  destruct t as [x|]; [| reflexivity].
  unfold Dashboard.index_ge, Dashboard.index_le, Dashboard.to_utc_timestamp, on_days,
    late_on, DashboardData.date.
  pose proof (Z.div_mod x 86400 ltac:(lia)) as Hdm.
  pose proof (Z.mod_pos_bound x 86400 ltac:(lia)) as Hb.
  revert Hdm Hb. generalize (x / 86400) (x mod 86400). intros q m Hdm Hb.
  destruct (Z.leb_spec (start_date * 86400) x), (Z.leb_spec x (end_date * 86400)),
    (Z.leb_spec start_date q), (Z.leb_spec q end_date), (Z.eqb_spec q end_date),
    (Z.eqb_spec x (end_date * 86400)); cbn; try reflexivity; lia.
Qed.

(** The frame the script computes, as one filter of [df_weather]. *)
Lemma df_filtered_filter (selected_cities : list string) (start_date end_date : Z)
    (df_weather : list Dashboard.row) :
  Dashboard.df_filtered selected_cities start_date end_date df_weather
  = List.filter
      (fun r => Dashboard.isin match selected_cities with
                               | [] => Dashboard.cities df_weather
                               | _ => selected_cities
                               end (Dashboard.city_name r)
                && (on_days start_date end_date (Dashboard.obs_ts r)
                    && negb (late_on end_date (Dashboard.obs_ts r))))
      df_weather.
Proof.
  unfold Dashboard.df_filtered, Dashboard.filter_cities.
  destruct selected_cities as [|c cs].
  - apply filter_eq_on. intros r Hin. rewrite bounds_and_days.
    replace (Dashboard.isin (Dashboard.cities df_weather) (Dashboard.city_name r))
      with true; [reflexivity |].
    symmetry. apply isin_In. unfold Dashboard.cities. apply unique_In.
    apply in_map. exact Hin.
  - rewrite filter_filter_andb. apply filter_eq_on. intros r _.
    rewrite bounds_and_days. reflexivity.
Qed.

(** C2 (amended).  For every selection and date range, the filtered frame
    holds only rows whose city is in the selected set and whose time falls
    on a day from the start date to the end date, both included, and apart
    from the rows of the end date later than 00:00 UTC, of which nothing is
    said here, it holds exactly those rows.  An empty selection filters no
    city out: it acts as the selection of every city.  Each "Total Records"
    figure on the page is the number of rows of the filtered frame. *)
Theorem filtered_set_and_total_records (s : Dashboard.sections)
    (selected_cities : list string) (start_date end_date : Z)
    (df_weather : list Dashboard.row) :
  let df := Dashboard.df_filtered selected_cities start_date end_date df_weather in
  let chosen := match selected_cities with
                | [] => Dashboard.cities df_weather
                | _ => selected_cities
                end in
  let wanted := spec_filtered chosen start_date end_date df_weather in
  (forall r, In r df -> In r wanted)
  /\ List.filter (fun r => negb (late_on end_date (Dashboard.obs_ts r))) df
     = List.filter (fun r => negb (late_on end_date (Dashboard.obs_ts r))) wanted
  /\ Dashboard.total_records
       (Dashboard.page s selected_cities start_date end_date df_weather)
     = length df :: (if Dashboard.section_overview s then [length df] else []).
Proof.
  cbv zeta. split; [| split].
  - intros r. rewrite df_filtered_filter. unfold spec_filtered.
    rewrite !filter_In. intros [Hin Hkeep]. split; [exact Hin |].
    apply andb_prop in Hkeep as [Hcity Htime]. apply andb_prop in Htime as [Hdays _].
    rewrite Hcity, Hdays. reflexivity.
  - rewrite df_filtered_filter. unfold spec_filtered. rewrite !filter_filter_andb.
    apply filter_eq_on. intros r _.
    destruct (Dashboard.isin _ _), (on_days _ _ _), (late_on _ _); reflexivity.
  - unfold Dashboard.page.
    generalize (Dashboard.df_filtered selected_cities start_date end_date df_weather).
    intros df. destruct s as [[] [] [] []]; destruct df; reflexivity.
Qed.

(** C5 (amended).  When the filtered frame is empty, the page consists of
    its title and summary line (0 records) and, for each enabled section:
    for Statistics, for Correlation and for each of the five Visualization
    tabs, the heading and the "no data" notice, and nothing else; for
    Overview, no notice but its three metrics, with 0 records and 0 for both
    averages. *)
Theorem empty_result_shows_no_data_outside_overview (s : Dashboard.sections)
    (selected_cities : list string) (start_date end_date : Z)
    (df_weather : list Dashboard.row) :
  Dashboard.df_filtered selected_cities start_date end_date df_weather = [] ->
  Dashboard.page s selected_cities start_date end_date df_weather
  = [ Dashboard.Title "Weather Data Dashboard";
      Dashboard.Markdown selected_cities start_date end_date 0 ]
    ++ (if Dashboard.section_overview s
        then [ Dashboard.Metric "Total Records" (Dashboard.Count 0);
               Dashboard.Metric "Avg Temperature (°C)" (Dashboard.OneDecimal Dashboard.Zero);
               Dashboard.Metric "Avg Humidity (%)" (Dashboard.OneDecimal Dashboard.Zero) ]
        else [])
    ++ (if Dashboard.section_stats s
        then [Dashboard.Header "Descriptive Statistics by City"; Dashboard.no_data]
        else [])
    ++ (if Dashboard.section_corr s
        then [Dashboard.Header "Correlation Matrix"; Dashboard.no_data]
        else [])
    ++ (if Dashboard.section_viz s
        then Dashboard.Header "Visualizations"
             :: map (fun t => Dashboard.Tab (fst t)
                                [Dashboard.Subheader (snd t); Dashboard.no_data])
                    [ ("Histogram", "Histograms of Numeric Features");
                      ("Boxplot", "Boxplots by City");
                      ("Time Series", "Hourly Temperature Trend");
                      ("Scatterplot", "Temperature vs. Humidity by City");
                      ("Pie Chart", "Weather Main Category Distribution") ]
        else [])
  /\ forall x,
       Dashboard.enabled s x = true ->
       Dashboard.shows_no_data
         (Dashboard.render_section x
            (Dashboard.df_filtered selected_cities start_date end_date df_weather))
       = match x with Dashboard.Overview => false | _ => true end.
Proof.
  intros H. split.
  - unfold Dashboard.page. rewrite H.
    destruct s as [[] [] [] []]; reflexivity.
  - intros x _. rewrite H. destruct x; reflexivity.
Qed.

(** ** Instances on the sample inputs *)

(** A second seeding of the seeded table: six rows, every city twice. *)
Lemma seed_locations_second_run_makes_six_rows :
  exists w',
    seed_locations env_ok w_seeded = (Ok tt, w')
    /\ length (dim_rows "weather.db" w') = 6%nat
    /\ map (fun r => (dl_lat r, dl_lon r, dl_city_name r, dl_country r))
           (dim_rows "weather.db" w')
       = cities ++ cities.
Proof.
  destruct (seed_locations_inserts_again env_ok three_cities w_seeded)
    as (w' & Hrun & Hlen & Hrows); [reflexivity | reflexivity | reflexivity |].
  exists w'. split; [exact Hrun |]. split; [exact Hlen | exact Hrows].
Defined.

(** One of three fetches answers 500: two rows are loaded, in one append. *)
Lemma etl_once_with_london_down_loads_two_rows :
  exists w',
    etl_once env_london_down w_seeded = (Ok tt, w')
    /\ length (fact_rows "weather.db" w') = 2%nat
    /\ length (to_sql_calls (trace w')) = 1%nat.
Proof.
  destruct (etl_once_loads_each_fetched_record env_london_down w_seeded three_cities)
    as (_ & _ & _ & Hsome); [reflexivity | reflexivity | discriminate |].
  destruct Hsome as (w' & df & Hrun & Hcalls & _ & _ & Hlen).
  - vm_compute. discriminate.
  - vm_compute. repeat constructor; eexists; reflexivity.
  - reflexivity.
  - exists w'. split; [exact Hrun |]. split; [exact Hlen |].
    rewrite Hcalls. reflexivity.
Defined.

(** Three hours back from 1700000000. *)
Lemma three_snapshots_of_a_sample_record :
  exists snaps,
    snapshots (sample_record 1 1700000000) 3 = Ok snaps
    /\ epochs snaps = [1700000000; 1699996400; 1699992800].
Proof.
  destruct (snapshots_step_back_hourly (sample_record 1 1700000000) 1700000000 3)
    as (snaps & Hrun & _ & Hep & _); [reflexivity |].
  exists snaps. split; [exact Hrun | exact Hep].
Defined.

(** Three hours back for the three seeded cities, all reporting
    1700000000. *)
Lemma backdate_of_three_hours_on_the_seeded_database :
  fst (insert_backdated_snapshots env_ok 3 w_seeded) = Ok tt
  /\ map (fun f => (location_id (snd f), obs_ts (snd f)))
         (fact_rows "weather.db" (snd (insert_backdated_snapshots env_ok 3 w_seeded)))
     = [ (1, Some 1700000000); (1, Some 1699996400); (1, Some 1699992800);
         (2, Some 1700000000); (2, Some 1699996400); (2, Some 1699992800);
         (3, Some 1700000000); (3, Some 1699996400); (3, Some 1699992800) ].
Proof.
  destruct (backdate_run_steps_back_hourly env_ok 3 w_seeded three_cities)
    as (chunks & _ & _ & Hstored & _).
  - reflexivity.
  - reflexivity.
  - discriminate.
  - lia.
  - repeat constructor; eexists; eexists; (split; [reflexivity |]);
      (split; [reflexivity |]); intros h _; reflexivity.
  - destruct (Hstored eq_refl) as [Hok _].
    split; [exact Hok |]. vm_compute. reflexivity.
Defined.

(** A date range after the only row, every section on: Statistics shows the
    notice, Overview does not. *)
Lemma out_of_range_dates_show_no_data :
  Dashboard.shows_no_data
    (Dashboard.render_section Dashboard.Statistics
       (Dashboard.df_filtered ["London"] 5 6 [london_row])) = true
  /\ Dashboard.shows_no_data
       (Dashboard.render_section Dashboard.Overview
          (Dashboard.df_filtered ["London"] 5 6 [london_row])) = false.
Proof.
  destruct (empty_result_shows_no_data_outside_overview
              {| Dashboard.section_overview := true; Dashboard.section_stats := true;
                 Dashboard.section_corr := true; Dashboard.section_viz := true |}
              ["London"] 5 6 [london_row]) as [_ Hshown]; [reflexivity |].
  split.
  - apply (Hshown Dashboard.Statistics). reflexivity.
  - apply (Hshown Dashboard.Overview). reflexivity.
Defined.

(** A 404, an answer that is not JSON, a body without [wind], and a
    complete body. *)
Lemma fetch_one_record_on_bad_answers :
  fst (fetch_one_record env_bad_answers london w_empty) = Raise (HTTPError 404)
  /\ fst (fetch_one_record env_no_answers new_york w_empty) = Raise JSONDecodeError
  /\ (exists e, fst (fetch_one_record env_bad_answers new_york w_empty) = Raise e
                /\ is_parse_error e = true)
  /\ (exists r, fst (fetch_one_record env_bad_answers bengaluru w_empty) = Ok r
                /\ location_id r = 1
                /\ flat_fields r = flat_fields (sample_record 1 1700000000)).
Proof.
  split; [| split; [| split]].
  - apply (proj1 (fetch_one_record_errors_and_record env_bad_answers london w_empty)
                 404 None); [reflexivity | unfold error_status; lia].
  - apply (proj1 (proj2 (fetch_one_record_errors_and_record env_no_answers new_york w_empty))
                 200); [reflexivity | unfold error_status; lia].
  - apply (proj1 (proj2 (proj2 (fetch_one_record_errors_and_record
                                  env_bad_answers new_york w_empty)))
                 200 body_without_wind);
      [reflexivity | unfold error_status; lia |].
    unfold expected_fields. do 5 apply Exists_cons_tl. apply Exists_cons_hd. reflexivity.
  - apply (proj2 (proj2 (proj2 (fetch_one_record_errors_and_record
                                  env_bad_answers bengaluru w_empty)))
                 200 (sample_body 1700000000));
      [reflexivity | unfold error_status; lia | reflexivity].
Defined.

(** The database is locked and no mail can be sent: the caller still gets
    the database error. *)
Lemma locked_database_error_survives_a_dead_mail_relay :
  fst (recreate_tables env_locked_no_mail w_empty)
  = Raise (OperationalError "database is locked")
  /\ send_failure_alert env_locked_no_mail "ETL Failure Alert: recreate_tables"
       ("An error occurred while recreating tables:",
        OperationalError "database is locked") w_empty
     = (Ok tt, add_events w_empty [EvPrint (LogAlertFailed SMTPException)])
  /\ exists w2,
       try_except (read_dim_location env_locked_no_mail)
                  (alert_and_reraise env_locked_no_mail
                     "ETL Failure Alert: seed_locations"
                     "An error occurred while seeding dim_location:") w_empty
       = (Raise (no_such_table "dim_location"), w2)
       /\ files w2 = files w_empty.
Proof.
  destruct (alert_delivery_failure_is_swallowed env_locked_no_mail)
    as (_ & Hmail & Hstage & Hrecreate).
  split; [apply Hrecreate |].
  split; [apply Hmail; reflexivity |].
  apply Hstage. reflexivity.
Defined.

(** The initial load from nothing, with a cooperative environment. *)
Lemma initial_load_on_an_empty_disk :
  exists w',
    initial_load env_ok w_empty = (Ok tt, w')
    /\ length (fact_rows "weather.db" w') = 75%nat.
Proof.
  destruct (initial_load_has_25_rows_per_city env_ok w_empty
              (sample_record 1 1700000000) (sample_record 2 1700000000)
              (sample_record 3 1700000000) 1700000000 1700000000 1700000000)
    as (w' & s1 & s2 & s3 & Hrun & _ & Hlen & _).
  - intros op. reflexivity.
  - reflexivity.
  - reflexivity.
  - reflexivity.
  - reflexivity.
  - reflexivity.
  - reflexivity.
  - reflexivity.
  - intros t h _ _. eexists. reflexivity.
  - exists w'. split; [exact Hrun | exact Hlen].
Defined.

(** The second of three fetches fails: the first city's snapshots are not
    written either. *)
Lemma backdate_with_london_down_inserts_nothing :
  exists e w',
    insert_backdated_snapshots env_london_down 25 w_seeded = (Raise e, w')
    /\ files w' = files w_seeded
    /\ fact_rows "weather.db" w' = [].
Proof.
  destruct (backdate_fetch_failure_inserts_nothing env_london_down 25 w_seeded three_cities)
    as (e & w' & Hrun & Hfiles & _ & Hfacts).
  - reflexivity.
  - apply Exists_cons_tl, Exists_cons_hd. reflexivity.
  - exists e, w'. split; [exact Hrun |]. split; [exact Hfiles |].
    rewrite Hfacts. reflexivity.
Defined.

(** A cycle right after [recreate_tables]. *)
Lemma etl_once_on_a_fresh_schema :
  etl_once env_ok w_fresh = (Ok tt, add_events w_fresh [EvPrint LogNoCitiesEtl]).
Proof.
  apply (etl_once_without_locations env_ok w_fresh); reflexivity.
Defined.

(** London selected out of two cities, both days in range, overview on. *)
Lemma london_selected_on_the_first_day :
  List.filter (fun r => negb (late_on 1 (Dashboard.obs_ts r)))
              (Dashboard.df_filtered ["London"] 0 1 [london_row; bengaluru_row])
  = [london_row]
  /\ Dashboard.total_records
       (Dashboard.page {| Dashboard.section_overview := true;
                          Dashboard.section_stats := false;
                          Dashboard.section_corr := false;
                          Dashboard.section_viz := false |}
                       ["London"] 0 1 [london_row; bengaluru_row])
     = [1%nat; 1%nat].
Proof.
  destruct (filtered_set_and_total_records
              {| Dashboard.section_overview := true; Dashboard.section_stats := false;
                 Dashboard.section_corr := false; Dashboard.section_viz := false |}
              ["London"] 0 1 [london_row; bengaluru_row]) as (_ & Hsel & Htotal).
  split.
  - rewrite Hsel. reflexivity.
  - rewrite Htotal. reflexivity.
Defined.

(** ** Where the specification and the code part *)

(** C2 as stated fails for an empty selection: the city filter is skipped,
    so with no city selected and both days of the data in range the two
    rows stay, where the specification's set is empty.  Neither row lies on
    the end date later than 00:00 UTC. *)
Lemma empty_selection_keeps_every_city :
  Dashboard.df_filtered [] 0 1 [london_row; bengaluru_row]
  <> spec_filtered [] 0 1 [london_row; bengaluru_row].
Proof. vm_compute. discriminate. Qed.

(** C3 as stated fails when a fetch succeeds with a record the database
    cannot take: London's answer has [null] for [dt], all three fetches
    succeed, and the cycle raises and stores none of the three rows. *)
Lemma three_fetches_and_no_row :
  ~ (forall env w locations,
        db_fault env (OpSelectLocations (DB_PATH env)) = None ->
        dim_location (get_db (DB_PATH env) w) = Some locations ->
        locations <> [] ->
        length (fact_rows (DB_PATH env) (snd (etl_once env w)))
        = (length (fact_rows (DB_PATH env) w)
           + length (List.filter (fun row => is_ok (outcome env row))
                                 (map to_loc_dict locations)))%nat).
Proof.
  intros H.
  specialize (H env_london_without_time w_seeded three_cities eq_refl eq_refl).
  vm_compute in H. specialize (H ltac:(discriminate)). discriminate H.
Qed.

(** C6 as stated fails for a status that is neither a success nor one
    [raise_for_status] rejects: a 300 with a complete body gives a record,
    not an error with the status. *)
Lemma status_300_gives_a_record :
  ~ (forall env location_row w status body,
        http_get env (row_lat location_row) (row_lon location_row) = Reply status body ->
        ~ (200 <= status < 300) ->
        fst (fetch_one_record env location_row w) = Raise (HTTPError status)).
Proof.
  intros H.
  specialize (H env_multiple_choices bengaluru w_empty 300
                (Some (sample_body 1700000000)) eq_refl ltac:(lia)).
  vm_compute in H. discriminate H.
Qed.

(** C5 as stated fails for the Overview section, which never shows the
    "no data" notice. *)
Lemma overview_shows_zeros_not_the_notice :
  ~ (forall x, Dashboard.shows_no_data (Dashboard.render_section x []) = true).
Proof.
  intros H. specialize (H Dashboard.Overview). vm_compute in H. discriminate H.
Qed.

(** A row reported later on the end date than 00:00 UTC lies after the
    timestamp derived from that date. *)
Example later_on_the_end_date :
  Dashboard.df_filtered ["London"] 0 0 [london_row] = [].
Proof. reflexivity. Qed.

(** ** Further properties *)

(** *** What a run adds to the trace *)

Lemma emits_ret {A} (q : event -> bool) (a : A) : emits q (ret a).
Proof. intros w. exists []. split; [symmetry; apply app_nil_r | reflexivity]. Qed.

Lemma emits_raise {A} (q : event -> bool) (e : exn) : emits q (@raise A e).
Proof. intros w. exists []. split; [symmetry; apply app_nil_r | reflexivity]. Qed.

Lemma emits_lift {A} (q : event -> bool) (r : result A) : emits q (lift r).
Proof. intros w. exists []. split; [symmetry; apply app_nil_r | reflexivity]. Qed.

Lemma emits_emit (q : event -> bool) (ev : event) : q ev = true -> emits q (emit ev).
Proof. intros H w. exists [ev]. split; [reflexivity | simpl; rewrite H; reflexivity]. Qed.

Lemma emits_db_query {A} (q : event -> bool) (env : Env) (op : db_op) (p : string)
    (f : database -> result A) : emits q (db_query env op p f).
Proof.
  intros w. exists []. unfold db_query.
  destruct (db_fault env op); (split; [symmetry; apply app_nil_r | reflexivity]).
Qed.

Lemma emits_db_exec (q : event -> bool) (env : Env) (op : db_op) (p : string)
    (f : database -> result database) : emits q (db_exec env op p f).
Proof.
  intros w. exists []. unfold db_exec.
  destruct (db_fault env op); [split; [symmetry; apply app_nil_r | reflexivity] |].
  destruct (f (get_db p w)); (split; [symmetry; apply app_nil_r | reflexivity]).
Qed.

Lemma emits_bind {A B} (q : event -> bool) (m : M A) (k : A -> M B) :
  emits q m -> (forall a, emits q (k a)) -> emits q (bind m k).
Proof.
  intros Hm Hk w. unfold bind. destruct (Hm w) as (evs & Ht & Hq).
  destruct (m w) as [[a | e] w1]; cbn [snd] in *.
  - destruct (Hk a w1) as (evs' & Ht' & Hq'). exists (evs ++ evs').
    split; [rewrite Ht', Ht, app_assoc; reflexivity |].
    rewrite forallb_app, Hq, Hq'. reflexivity.
  - exists evs. split; assumption.
Qed.

Lemma emits_try_except {A} (q : event -> bool) (m : M A) (h : exn -> M A) :
  emits q m -> (forall e, emits q (h e)) -> emits q (try_except m h).
Proof.
  intros Hm Hh w. unfold try_except. destruct (Hm w) as (evs & Ht & Hq).
  destruct (m w) as [[a | e] w1]; cbn [snd] in *.
  - exists evs. split; assumption.
  - destruct (Hh e w1) as (evs' & Ht' & Hq'). exists (evs ++ evs').
    split; [rewrite Ht', Ht, app_assoc; reflexivity |].
    rewrite forallb_app, Hq, Hq'. reflexivity.
Qed.

Lemma emits_engine_begin {A} (q : event -> bool) (env : Env) (m : M A) :
  emits q m -> emits q (engine_begin env m).
Proof.
  intros Hm w. unfold engine_begin. destruct (Hm w) as (evs & Ht & Hq).
  destruct (m w) as [[a | e] w1]; cbn [snd trace] in *; exists evs; split; assumption.
Qed.

Lemma emits_weaken {A} (q q' : event -> bool) (m : M A) :
  (forall ev, q ev = true -> q' ev = true) -> emits q m -> emits q' m.
Proof.
  intros Hqq Hm w. destruct (Hm w) as (evs & Ht & Hq). exists evs. split; [exact Ht |].
  apply forallb_forall. intros ev Hin.
  apply Hqq. exact (proj1 (forallb_forall q evs) Hq ev Hin).
Qed.

(** One step of a proof that a pipeline function emits only [q]-events. *)
Ltac emits_step :=
  first
    [ apply emits_ret
    | apply emits_raise
    | apply emits_lift
    | apply emits_emit; reflexivity
    | apply emits_db_query
    | apply emits_db_exec
    | apply emits_engine_begin
    | apply emits_bind; [| intros ?]
    | apply emits_try_except; [| intros ?] ].

Lemma emits_fetch_one_record (q : event -> bool) (env : Env) (row : loc_dict) :
  (forall lat lon, q (EvHttpGet lat lon) = true) ->
  emits q (fetch_one_record env row).
Proof.
  intros Hq w. rewrite fetch_one_record_run. eexists. split; [reflexivity |].
  simpl. rewrite Hq. reflexivity.
Qed.

Lemma emits_etl_loop (q : event -> bool) (env : Env) (df_locs : list loc_dict) :
  (forall lat lon, q (EvHttpGet lat lon) = true) ->
  q EvSleep = true ->
  (forall i e, q (EvPrint (LogFetchError i e)) = true) ->
  forall rows, emits q (etl_loop env df_locs rows).
Proof.
  intros Hget Hsleep Herr.
  induction df_locs as [|row rest IH]; intros rows; cbn [etl_loop].
  - apply emits_ret.
  - apply emits_bind; [| intros rows'; apply IH].
    apply emits_try_except.
    + apply emits_bind; [apply emits_fetch_one_record; exact Hget |].
      intros flat. cbv zeta. apply emits_bind; [apply emits_emit; exact Hsleep |].
      intros _. apply emits_ret.
    + intros e. apply emits_bind; [apply emits_emit; apply Herr |].
      intros _. apply emits_ret.
Qed.

Lemma emits_backdate_loop (q : event -> bool) (env : Env) (hours : Z)
    (df_locs : list loc_dict) :
  (forall lat lon, q (EvHttpGet lat lon) = true) ->
  q EvSleep = true ->
  forall all_rows, emits q (backdate_loop env hours df_locs all_rows).
Proof.
  intros Hget Hsleep.
  induction df_locs as [|row rest IH]; intros all_rows; cbn [backdate_loop].
  - apply emits_ret.
  - apply emits_bind; [apply emits_fetch_one_record; exact Hget |].
    intros base. apply emits_bind; [apply emits_lift |].
    intros snaps. apply emits_bind; [apply emits_emit; exact Hsleep |].
    intros _. apply IH.
Qed.

Lemma emits_to_sql (q : event -> bool) (env : Env) (p : string)
    (rows : list (weather_rec (option Z))) :
  q (EvToSql p rows) = true -> emits q (to_sql env p rows).
Proof.
  intros Hq. unfold to_sql. apply emits_bind; [apply emits_emit; exact Hq |].
  intros _. apply emits_db_exec.
Qed.

(** *** Alerts, counted *)

Lemma alert_attempts_app (a b : list event) :
  alert_attempts (a ++ b) = (alert_attempts a + alert_attempts b)%nat.
Proof. unfold alert_attempts. rewrite List.filter_app, length_app. reflexivity. Qed.

Lemma alert_attempts_quiet (evs : list event) :
  forallb quiet evs = true -> alert_attempts evs = 0%nat.
Proof.
  unfold alert_attempts. induction evs as [|ev evs IH]; [reflexivity |].
  simpl. unfold quiet at 1. destruct (is_alert_line ev); simpl; [discriminate |].
  exact IH.
Qed.

Lemma alert_attempts_alert_events (env : Env) (subject intro : string) (e : exn) :
  alert_attempts (alert_events env subject intro e) = 1%nat.
Proof. unfold alert_events. destruct (smtp_fault env subject); reflexivity. Qed.

Lemma alerts_of_quiet {A} (m : M A) : emits quiet m -> alerts_on_failure 0 m.
Proof.
  intros Hm w. destruct (Hm w) as (evs & Ht & Hq). exists evs. split; [exact Ht |].
  rewrite (alert_attempts_quiet evs Hq). destruct (is_ok (fst (m w))); reflexivity.
Qed.

Lemma alerts_bind {A B} (n : nat) (m : M A) (k : A -> M B) :
  alerts_on_failure n m -> (forall a, alerts_on_failure n (k a)) ->
  alerts_on_failure n (bind m k).
Proof.
  intros Hm Hk w. unfold bind. destruct (Hm w) as (evs & Ht & Hn).
  destruct (m w) as [[a | e] w1]; cbn [fst snd is_ok] in *.
  - destruct (Hk a w1) as (evs' & Ht' & Hn'). exists (evs ++ evs').
    split; [rewrite Ht', Ht, app_assoc; reflexivity |].
    rewrite alert_attempts_app, Hn, Hn'. reflexivity.
  - exists evs. split; assumption.
Qed.

(** A handler that alerts and re-raises adds one attempt to a failure. *)
Lemma alerts_guard {A} (n : nat) (env : Env) (subject intro : string) (m : M A) :
  alerts_on_failure n m ->
  alerts_on_failure (S n) (try_except m (alert_and_reraise env subject intro)).
Proof.
  intros Hm w. unfold try_except. destruct (Hm w) as (evs & Ht & Hn).
  destruct (m w) as [[a | e] w1]; cbn [fst snd is_ok] in *.
  - exists evs. split; assumption.
  - rewrite alert_and_reraise_run. cbn [fst snd is_ok trace add_events].
    exists (evs ++ alert_events env subject intro e).
    split; [rewrite Ht, app_assoc; reflexivity |].
    rewrite alert_attempts_app, Hn, alert_attempts_alert_events. lia.
Qed.

Lemma recreate_tables_alerts (env : Env) : alerts_on_failure 1 (recreate_tables env).
Proof.
  unfold recreate_tables. apply alerts_guard, alerts_of_quiet.
  unfold drop_table_if_exists, create_all, print. repeat emits_step.
Qed.

Lemma emits_insert_cities (q : event -> bool) (env : Env)
    (cs : list (Q * Q * string * string)) : emits q (insert_cities env cs).
Proof.
  induction cs as [|[[[lat lon] city] country] rest IH]; cbn [insert_cities].
  - apply emits_ret.
  - apply emits_bind; [apply emits_db_exec | intros _; exact IH].
Qed.

Lemma seed_locations_alerts (env : Env) : alerts_on_failure 1 (seed_locations env).
Proof.
  unfold seed_locations. apply alerts_guard, alerts_of_quiet.
  apply emits_bind; [apply emits_engine_begin, emits_insert_cities |].
  intros _. unfold read_dim_location, print. repeat emits_step.
Qed.

Lemma insert_backdated_snapshots_alerts (env : Env) (hours : Z) :
  alerts_on_failure 1 (insert_backdated_snapshots env hours).
Proof.
  unfold insert_backdated_snapshots. apply alerts_guard, alerts_of_quiet.
  apply emits_bind; [apply emits_db_query |].
  intros df_locs. destruct df_locs as [|l0 ls]; [apply emits_emit; reflexivity |].
  apply emits_bind; [apply emits_backdate_loop; reflexivity |].
  intros all_rows. apply emits_bind; [apply emits_lift |].
  intros df. apply emits_bind; [apply emits_to_sql; reflexivity |].
  intros _. apply emits_emit. reflexivity.
Qed.

Lemma etl_once_alerts (env : Env) : alerts_on_failure 1 (etl_once env).
Proof.
  unfold etl_once. apply alerts_guard, alerts_of_quiet.
  apply emits_bind; [apply emits_db_query |].
  intros df_locs. destruct df_locs as [|l0 ls]; [apply emits_emit; reflexivity |].
  apply emits_bind; [apply emits_etl_loop; reflexivity |].
  intros rows. destruct rows as [|r0 rs]; [apply emits_emit; reflexivity |].
  apply emits_bind; [apply emits_lift |].
  intros df. apply emits_bind; [apply emits_engine_begin, emits_to_sql; reflexivity |].
  intros _. apply emits_emit. reflexivity.
Qed.

(** X1.  Each of the four stages calls [send_failure_alert] exactly once
    in a run that raises and never in a run that returns, whatever the
    environment and the world it starts from. *)
Theorem each_stage_alerts_once_on_failure (env : Env) (w : world) :
  (exists evs, trace (snd (recreate_tables env w)) = trace w ++ evs
               /\ alert_attempts evs
                  = if is_ok (fst (recreate_tables env w)) then 0%nat else 1%nat)
  /\ (exists evs, trace (snd (seed_locations env w)) = trace w ++ evs
                  /\ alert_attempts evs
                     = if is_ok (fst (seed_locations env w)) then 0%nat else 1%nat)
  /\ (forall hours,
        exists evs, trace (snd (insert_backdated_snapshots env hours w)) = trace w ++ evs
                    /\ alert_attempts evs
                       = if is_ok (fst (insert_backdated_snapshots env hours w))
                         then 0%nat else 1%nat)
  /\ (exists evs, trace (snd (etl_once env w)) = trace w ++ evs
                  /\ alert_attempts evs
                     = if is_ok (fst (etl_once env w)) then 0%nat else 1%nat).
Proof.
  split; [apply recreate_tables_alerts |].
  split; [apply seed_locations_alerts |].
  split; [intros hours; apply insert_backdated_snapshots_alerts |].
  apply etl_once_alerts.
Qed.

(** X2.  A run of the [__main__] block that raises has called
    [send_failure_alert] twice, once in the handler of the failing stage and
    once in its own; a run that returns has not called it. *)
Theorem main_alerts_twice_on_failure (env : Env) (w : world) :
  exists evs,
    trace (snd (main env w)) = trace w ++ evs
    /\ alert_attempts evs = if is_ok (fst (main env w)) then 0%nat else 2%nat.
Proof.
  apply (alerts_guard 1 env). 
  apply alerts_bind; [apply recreate_tables_alerts | intros _].
  apply alerts_bind; [apply seed_locations_alerts | intros _].
  apply alerts_bind; [apply insert_backdated_snapshots_alerts | intros _].
  apply etl_once_alerts.
Qed.

(** *** Which files a run touches *)

Lemma leaves_ret {A} (p : string) (a : A) : leaves_file p (ret a).
Proof. intros w. reflexivity. Qed.

Lemma leaves_raise {A} (p : string) (e : exn) : leaves_file p (@raise A e).
Proof. intros w. reflexivity. Qed.

Lemma leaves_lift {A} (p : string) (r : result A) : leaves_file p (lift r).
Proof. intros w. reflexivity. Qed.

Lemma leaves_emit (p : string) (ev : event) : leaves_file p (emit ev).
Proof. intros w. reflexivity. Qed.

Lemma leaves_db_query {A} (p : string) (env : Env) (op : db_op) (p' : string)
    (f : database -> result A) : leaves_file p (db_query env op p' f).
Proof. intros w. unfold db_query. destruct (db_fault env op); reflexivity. Qed.

Lemma leaves_db_exec (p : string) (env : Env) (op : db_op) (p' : string)
    (f : database -> result database) :
  p <> p' -> leaves_file p (db_exec env op p' f).
Proof.
  intros Hne w. unfold db_exec. destruct (db_fault env op); [reflexivity |].
  destruct (f (get_db p' w)); [| reflexivity].
  cbn [snd files]. apply lookup_insert_ne. congruence.
Qed.

Lemma leaves_bind {A B} (p : string) (m : M A) (k : A -> M B) :
  leaves_file p m -> (forall a, leaves_file p (k a)) -> leaves_file p (bind m k).
Proof.
  intros Hm Hk w. unfold bind. specialize (Hm w).
  destruct (m w) as [[a | e] w1]; cbn [snd] in *; [| exact Hm].
  rewrite (Hk a w1). exact Hm.
Qed.

Lemma leaves_try_except {A} (p : string) (m : M A) (h : exn -> M A) :
  leaves_file p m -> (forall e, leaves_file p (h e)) -> leaves_file p (try_except m h).
Proof.
  intros Hm Hh w. unfold try_except. specialize (Hm w).
  destruct (m w) as [[a | e] w1]; cbn [snd] in *; [exact Hm |].
  rewrite (Hh e w1). exact Hm.
Qed.

Lemma leaves_engine_begin {A} (p : string) (env : Env) (m : M A) :
  p <> DB_PATH env -> leaves_file p m -> leaves_file p (engine_begin env m).
Proof.
  intros Hne Hm w. unfold engine_begin. specialize (Hm w).
  destruct (m w) as [[a | e] w1]; cbn [snd files] in *; [exact Hm |].
  destruct (files w !! DB_PATH env).
  - rewrite lookup_insert_ne by congruence. exact Hm.
  - rewrite lookup_delete_ne by congruence. exact Hm.
Qed.

Lemma leaves_alert_and_reraise {A} (p : string) (env : Env) (subject intro : string)
    (e : exn) : leaves_file p (@alert_and_reraise env A subject intro e).
Proof. intros w. rewrite alert_and_reraise_run. reflexivity. Qed.

Lemma leaves_fetch_one_record (p : string) (env : Env) (row : loc_dict) :
  leaves_file p (fetch_one_record env row).
Proof. intros w. rewrite fetch_one_record_run. reflexivity. Qed.

Lemma leaves_etl_loop (p : string) (env : Env) (df_locs : list loc_dict) :
  forall rows, leaves_file p (etl_loop env df_locs rows).
Proof.
  intros rows w. rewrite etl_loop_run. reflexivity.
Qed.

Lemma leaves_backdate_loop (p : string) (env : Env) (hours : Z) (df_locs : list loc_dict) :
  forall all_rows, leaves_file p (backdate_loop env hours df_locs all_rows).
Proof.
  induction df_locs as [|row rest IH]; intros all_rows; cbn [backdate_loop].
  - apply leaves_ret.
  - apply leaves_bind; [apply leaves_fetch_one_record |].
    intros base. apply leaves_bind; [apply leaves_lift |].
    intros snaps. apply leaves_bind; [apply leaves_emit |].
    intros _. apply IH.
Qed.

Lemma leaves_insert_cities (p : string) (env : Env) (cs : list (Q * Q * string * string)) :
  p <> DB_PATH env -> leaves_file p (insert_cities env cs).
Proof.
  intros Hne. induction cs as [|[[[lat lon] city] country] rest IH]; cbn [insert_cities].
  - apply leaves_ret.
  - apply leaves_bind; [apply leaves_db_exec; exact Hne | intros _; exact IH].
Qed.

Lemma recreate_tables_leaves (p : string) (env : Env) :
  p <> DB_PATH env -> leaves_file p (recreate_tables env).
Proof.
  intros Hne. unfold recreate_tables.
  apply leaves_try_except; [| intros e; apply leaves_alert_and_reraise].
  apply leaves_bind.
  - apply leaves_engine_begin; [exact Hne |].
    apply leaves_bind; [| intros _]; apply leaves_db_exec; exact Hne.
  - intros _. apply leaves_bind; [apply leaves_db_exec; exact Hne |].
    intros _. apply leaves_emit.
Qed.

Lemma seed_locations_leaves (p : string) (env : Env) :
  p <> DB_PATH env -> leaves_file p (seed_locations env).
Proof.
  intros Hne. unfold seed_locations.
  apply leaves_try_except; [| intros e; apply leaves_alert_and_reraise].
  apply leaves_bind.
  - apply leaves_engine_begin; [exact Hne |]. apply leaves_insert_cities. exact Hne.
  - intros _. apply leaves_bind; [apply leaves_db_query |].
    intros df. apply leaves_emit.
Qed.

Lemma etl_once_leaves (p : string) (env : Env) :
  p <> DB_PATH env -> leaves_file p (etl_once env).
Proof.
  intros Hne. unfold etl_once.
  apply leaves_try_except; [| intros e; apply leaves_alert_and_reraise].
  apply leaves_bind; [apply leaves_db_query |].
  intros df_locs. destruct df_locs as [|l0 ls]; [apply leaves_emit |].
  apply leaves_bind; [apply leaves_etl_loop |].
  intros rows. destruct rows as [|r0 rs]; [apply leaves_emit |].
  apply leaves_bind; [apply leaves_lift |].
  intros df. apply leaves_bind; [| intros _; apply leaves_emit].
  apply leaves_engine_begin; [exact Hne |].
  unfold to_sql. apply leaves_bind; [apply leaves_emit |].
  intros _. apply leaves_db_exec. exact Hne.
Qed.

Lemma insert_backdated_snapshots_leaves (p : string) (env : Env) (hours : Z) :
  p <> "weather.db" -> leaves_file p (insert_backdated_snapshots env hours).
Proof.
  intros Hne. unfold insert_backdated_snapshots.
  apply leaves_try_except; [| intros e; apply leaves_alert_and_reraise].
  apply leaves_bind; [apply leaves_db_query |].
  intros df_locs. destruct df_locs as [|l0 ls]; [apply leaves_emit |].
  apply leaves_bind; [apply leaves_backdate_loop |].
  intros rows. apply leaves_bind; [apply leaves_lift |].
  intros df. apply leaves_bind; [| intros _; apply leaves_emit].
  unfold to_sql. apply leaves_bind; [apply leaves_emit |].
  intros _. apply leaves_db_exec. exact Hne.
Qed.

(** X3.  [recreate_tables], [seed_locations] and [etl_once] leave every
    file but the one [DB_URL] names as it was; [insert_backdated_snapshots]
    leaves every file but [weather.db] as it was. *)
Theorem stages_touch_one_file_each (env : Env) (p : string) (w : world) :
  (p <> DB_PATH env ->
   files (snd (recreate_tables env w)) !! p = files w !! p
   /\ files (snd (seed_locations env w)) !! p = files w !! p
   /\ files (snd (etl_once env w)) !! p = files w !! p)
  /\ (p <> "weather.db" ->
      forall hours, files (snd (insert_backdated_snapshots env hours w)) !! p = files w !! p).
Proof.
  split.
  - intros Hne. split; [apply recreate_tables_leaves; exact Hne |].
    split; [apply seed_locations_leaves; exact Hne | apply etl_once_leaves; exact Hne].
  - intros Hne hours. apply insert_backdated_snapshots_leaves. exact Hne.
Qed.

Lemma get_db_set_db_ne (p p' : string) (d : database) (w : world) :
  p <> p' -> get_db p (set_db p' d w) = get_db p w.
Proof.
  intros Hne. unfold get_db, set_db. cbn [files].
  rewrite lookup_insert_ne by congruence. reflexivity.
Qed.

Lemma http_calls_app (a b : list event) : http_calls (a ++ b) = http_calls a ++ http_calls b.
Proof. unfold http_calls. apply List.filter_app. Qed.

Lemma alert_events_no_http (env : Env) (subject intro : string) (e : exn) :
  http_calls (alert_events env subject intro e) = [].
Proof. unfold alert_events. destruct (smtp_fault env subject); reflexivity. Qed.

(** X4.  When [DB_URL] names another file than [weather.db] and that file
    holds no [dim_location], the [__main__] block recreates and seeds the
    configured database and then fails in the back-date step with "no such
    table": the three cities are stored, no observation is, and no request
    was sent. *)
Theorem main_stops_at_the_backdate_step_for_another_database (env : Env) (w : world) :
  no_db_fault env ->
  DB_PATH env <> "weather.db" ->
  dim_location (get_db "weather.db" w) = None ->
  exists w',
    main env w = (Raise (no_such_table "dim_location"), w')
    /\ map (fun r => (dl_lat r, dl_lon r, dl_city_name r, dl_country r))
           (dim_rows (DB_PATH env) w') = cities
    /\ fact_rows (DB_PATH env) w' = []
    /\ fact_rows "weather.db" w' = fact_rows "weather.db" w
    /\ http_calls (trace w') = http_calls (trace w)
    /\ to_sql_calls (trace w') = to_sql_calls (trace w).
Proof.
  intros Hnf Hpath Hdim.
  set (w2 := add_events
               (set_db (DB_PATH env)
                  {| dim_location := Some (seeded []);
                     fact_weather := Some {| fw_declared := true; fw_rows := [] |} |}
                  (add_events (set_db (DB_PATH env) fresh_db w) [EvPrint LogTablesRecreated]))
               [EvPrint (LogSeeded (seeded []))]).
  assert (Hother : get_db "weather.db" w2 = get_db "weather.db" w).
  { unfold w2. rewrite get_db_add_events, get_db_set_db_ne by congruence.
    rewrite get_db_add_events, get_db_set_db_ne by congruence. reflexivity. }
  assert (Hmine : get_db (DB_PATH env) w2
                  = {| dim_location := Some (seeded []);
                       fact_weather := Some {| fw_declared := true; fw_rows := [] |} |}).
  { unfold w2. rewrite get_db_add_events, get_db_set_db. reflexivity. }
  assert (Hrun : main env w
                 = (Raise (no_such_table "dim_location"),
                    add_events w2
                      (alert_events env "ETL Failure Alert: insert_backdated_snapshots"
                         "An error occurred in back-date helper:"
                         (no_such_table "dim_location")
                       ++ alert_events env "ETL Failure Alert: main"
                            "An exception occurred in the main section:"
                            (no_such_table "dim_location")))).
  { unfold main, try_except. unfold bind at 1. rewrite (recreate_tables_run env w Hnf).
    unfold bind at 1.
    rewrite (seed_locations_run env []) by
      (try apply Hnf; rewrite get_db_add_events, get_db_set_db; reflexivity).
    rewrite get_db_add_events, get_db_set_db. cbn [fact_weather fresh_db]. fold w2.
    unfold bind at 1.
    unfold insert_backdated_snapshots at 1. unfold try_except. unfold bind at 1.
    unfold read_locations, db_query. rewrite (Hnf _), Hother, Hdim.
    rewrite alert_and_reraise_run. rewrite alert_and_reraise_run, add_events_app.
    reflexivity. }
  eexists. split; [exact Hrun |].
  split; [| split; [| split; [| split]]].
  - unfold dim_rows. rewrite get_db_add_events, Hmine. reflexivity.
  - unfold fact_rows. rewrite get_db_add_events, Hmine. reflexivity.
  - unfold fact_rows. rewrite get_db_add_events, Hother. reflexivity.
  - unfold w2. cbn [trace add_events set_db]. rewrite !http_calls_app.
    rewrite !alert_events_no_http. cbn. rewrite !app_nil_r. reflexivity.
  - unfold w2. cbn [trace add_events set_db]. rewrite !to_sql_calls_app.
    rewrite !alert_events_no_to_sql. cbn. rewrite !app_nil_r. reflexivity.
Qed.

(** *** The first load under another DB_URL *)

(** C8 (what the code does instead).  Schema and seeds go to the file DB_URL names, while the back-date
    step opens [weather.db] by name.  So whenever DB_URL names another file,
    and no database operation fails, seeding and back-dating 25 hours leave
    the three cities and not one row in the configured [fact_weather],
    instead of 75; and when [weather.db] holds no [dim_location], the load
    ends in the back-date step with "no such table". *)
Theorem initial_load_fills_weather_db_only (env : Env) (w : world) :
  no_db_fault env ->
  DB_PATH env <> "weather.db" ->
  fact_rows (DB_PATH env) (snd (initial_load env w)) = []
  /\ map (fun r => (dl_lat r, dl_lon r, dl_city_name r, dl_country r))
         (dim_rows (DB_PATH env) (snd (initial_load env w))) = cities
  /\ (dim_location (get_db "weather.db" w) = None ->
      fst (initial_load env w) = Raise (no_such_table "dim_location")).
Proof.
  intros Hnf Hpath.
  set (w2 := add_events
               (set_db (DB_PATH env)
                  {| dim_location := Some (seeded []);
                     fact_weather := Some {| fw_declared := true; fw_rows := [] |} |}
                  (add_events (set_db (DB_PATH env) fresh_db w) [EvPrint LogTablesRecreated]))
               [EvPrint (LogSeeded (seeded []))]).
  assert (Hload : initial_load env w = insert_backdated_snapshots env 25 w2).
  { unfold initial_load. unfold bind at 1. rewrite (recreate_tables_run env w Hnf).
    unfold bind at 1.
    rewrite (seed_locations_run env []) by
      (try apply Hnf; rewrite get_db_add_events, get_db_set_db; reflexivity).
    rewrite get_db_add_events, get_db_set_db. reflexivity. }
  assert (Hmine : get_db (DB_PATH env) (snd (insert_backdated_snapshots env 25 w2))
                  = {| dim_location := Some (seeded []);
                       fact_weather := Some {| fw_declared := true; fw_rows := [] |} |}).
  { unfold get_db. rewrite (insert_backdated_snapshots_leaves (DB_PATH env) env 25 Hpath w2).
    fold (get_db (DB_PATH env) w2). unfold w2.
    rewrite get_db_add_events, get_db_set_db. reflexivity. }
  rewrite Hload. split; [| split].
  - unfold fact_rows. rewrite Hmine. reflexivity.
  - unfold dim_rows. rewrite Hmine. reflexivity.
  - intros Hdim.
    assert (Hother : get_db "weather.db" w2 = get_db "weather.db" w).
    { unfold w2. rewrite get_db_add_events, get_db_set_db_ne by congruence.
      rewrite get_db_add_events, get_db_set_db_ne by congruence. reflexivity. }
    unfold insert_backdated_snapshots, try_except. unfold bind at 1.
    unfold read_locations, db_query. rewrite (Hnf _), Hother, Hdim.
    rewrite alert_and_reraise_run. reflexivity.
Qed.

(** *** Keys and references *)

Lemma consistent_empty_db : consistent empty_db.
Proof. repeat split; try constructor. intros i []. Qed.

Lemma consistent_fresh_db : consistent fresh_db.
Proof. repeat split; try constructor. intros i []. Qed.

Lemma consistent_get_db (p : string) (w : world) :
  all_consistent w -> consistent (get_db p w).
Proof.
  intros H. unfold get_db. destruct (files w !! p) as [d|] eqn:E; cbn.
  - exact (H p d E).
  - exact consistent_empty_db.
Qed.

Lemma all_consistent_same_files (w w' : world) :
  (forall p, files w' !! p = files w !! p) -> all_consistent w -> all_consistent w'.
Proof. intros Hsame H p d Hd. rewrite Hsame in Hd. exact (H p d Hd). Qed.

Lemma all_consistent_set_db (p : string) (d : database) (w : world) :
  consistent d -> all_consistent w -> all_consistent (set_db p d w).
Proof.
  intros Hd H q d' Hq. unfold set_db in Hq. cbn [files] in Hq.
  destruct (decide (p = q)) as [-> | Hne].
  - rewrite lookup_insert_eq in Hq. injection Hq as <-. exact Hd.
  - rewrite lookup_insert_ne in Hq by exact Hne. exact (H q d' Hq).
Qed.

(** A statement that maps consistent databases to consistent ones keeps
    the world consistent, whether it runs, fails or is refused. *)
Lemma db_exec_consistent (env : Env) (op : db_op) (p : string)
    (f : database -> result database) (w : world) :
  all_consistent w ->
  (forall d', f (get_db p w) = Ok d' -> consistent d') ->
  all_consistent (snd (db_exec env op p f w)).
Proof.
  intros H Hf. unfold db_exec. destruct (db_fault env op); [exact H |].
  destruct (f (get_db p w)) as [d' |] eqn:E; [| exact H].
  apply (all_consistent_set_db p d' w); [apply Hf; reflexivity | exact H].
Qed.

(** A rolled back transaction restores a consistent file. *)
Lemma engine_begin_consistent {A} (env : Env) (body : M A) (w : world) :
  all_consistent w ->
  all_consistent (snd (body w)) ->
  all_consistent (snd (engine_begin env body w)).
Proof.
  intros H Hbody. unfold engine_begin.
  destruct (body w) as [[a | e] w1]; cbn [snd] in *; [exact Hbody |].
  intros q d Hq. cbn [files] in Hq.
  destruct (files w !! DB_PATH env) as [d0|] eqn:E0.
  - destruct (decide (DB_PATH env = q)) as [<- | Hne].
    + rewrite lookup_insert_eq in Hq. injection Hq as <-. exact (H _ _ E0).
    + rewrite lookup_insert_ne in Hq by exact Hne. exact (Hbody q d Hq).
  - destruct (decide (DB_PATH env = q)) as [<- | Hne].
    + rewrite lookup_delete_eq in Hq. discriminate.
    + rewrite lookup_delete_ne in Hq by exact Hne. exact (Hbody q d Hq).
Qed.

Lemma alert_and_reraise_consistent {A} (env : Env) (subject intro : string) (e : exn)
    (w : world) :
  all_consistent w -> all_consistent (snd (@alert_and_reraise env A subject intro e w)).
Proof. intros H. rewrite alert_and_reraise_run. exact H. Qed.

(** A guarded stage is as consistent as its body. *)
Lemma guarded_consistent {A} (env : Env) (subject intro : string) (body : M A) (w : world) :
  all_consistent (snd (body w)) ->
  all_consistent (snd (try_except body (alert_and_reraise env subject intro) w)).
Proof.
  intros H. unfold try_except. destruct (body w) as [[a | e] w1]; cbn [snd] in *;
    [exact H | apply alert_and_reraise_consistent; exact H].
Qed.

Lemma bind_consistent {A B} (m : M A) (k : A -> M B) (w : world) :
  all_consistent (snd (m w)) ->
  (forall a w1, m w = (Ok a, w1) -> all_consistent (snd (k a w1))) ->
  all_consistent (snd (bind m k w)).
Proof.
  intros Hm Hk. unfold bind. destruct (m w) as [[a | e] w1]; cbn [snd] in *;
    [apply (Hk a w1); reflexivity | exact Hm].
Qed.

Lemma next_id_fresh (ids : list Z) : ~ In (next_id ids) ids.
Proof.
  intros Hin. apply fold_max_upper in Hin. unfold next_id in Hin. lia.
Qed.

Lemma next_id_above (ids : list Z) (i : Z) : In i ids -> i < next_id ids.
Proof. intros Hin. apply fold_max_upper in Hin. unfold next_id. lia. Qed.

Lemma number_rows_ids_from (first : Z) (rows : list (weather_rec (option Z))) (i : Z) :
  In i (map fst (number_rows first rows)) -> first <= i.
Proof.
  revert first. induction rows as [|r rows IH]; intros first Hin; [inversion Hin |].
  cbn [number_rows map fst] in Hin. destruct Hin as [<- | Hin]; [lia |].
  apply IH in Hin. lia.
Qed.

Lemma number_rows_ids_NoDup (first : Z) (rows : list (weather_rec (option Z))) :
  NoDup (map fst (number_rows first rows)).
Proof.
  revert first. induction rows as [|r rows IH]; intros first; [constructor |].
  cbn [number_rows map fst]. constructor; [| apply IH].
  intros Hin. apply list_elem_of_In, number_rows_ids_from in Hin. lia.
Qed.

Lemma number_rows_locations (first : Z) (rows : list (weather_rec (option Z))) :
  map (fun r => location_id (snd r)) (number_rows first rows) = map location_id rows.
Proof.
  revert first. induction rows as [|r rows IH]; intros first; [reflexivity |].
  cbn [number_rows map snd]. rewrite IH. reflexivity.
Qed.

(** [INSERT OR IGNORE] keeps a database consistent. *)
Lemma insert_or_ignore_consistent (d : database) (rows : list dim_row)
    (lat lon : Q) (city country : string) :
  consistent d -> dim_location d = Some rows ->
  consistent {| dim_location := Some (insert_or_ignore rows lat lon city country);
                fact_weather := fact_weather d |}.
Proof.
  intros (Hdim & Hfact & Href) Hrows. rewrite insert_or_ignore_appends.
  unfold consistent, dim_ids, fact_ids, fact_locations in *. rewrite Hrows in *.
  cbn [dim_location fact_weather]. rewrite map_app. cbn [map dl_location_id].
  split; [| split].
  - apply NoDup_app. split; [exact Hdim |]. split; [| repeat constructor; intros H; inversion H].
    intros i Hi Hnew. apply list_elem_of_In in Hi.
    apply list_elem_of_In in Hnew. destruct Hnew as [<- | []].
    exact (next_id_fresh _ Hi).
  - exact Hfact.
  - intros i Hi. apply in_or_app. left. apply Href. exact Hi.
Qed.

(** An append of observations of listed locations keeps a database
    consistent. *)
Lemma append_facts_consistent (d d' : database) (rows : list (weather_rec (option Z))) :
  consistent d ->
  Forall (fun r => In (location_id r) (dim_ids d)) rows ->
  append_facts d rows = Ok d' ->
  consistent d'.
Proof.
  intros (Hdim & Hfact & Href) Hrows Happ. unfold append_facts in Happ.
  unfold consistent, dim_ids, fact_ids, fact_locations in *.
  destruct (fact_weather d) as [t|] eqn:Et.
  - destruct (fw_declared t && has_nat rows); [discriminate |].
    injection Happ as <-. cbn [dim_location fact_weather fw_rows].
    split; [exact Hdim |]. split.
    + rewrite map_app. apply NoDup_app. split; [exact Hfact |].
      split; [| apply number_rows_ids_NoDup].
      intros i Hi Hnew. apply list_elem_of_In in Hi. apply list_elem_of_In in Hnew.
      apply number_rows_ids_from in Hnew. apply next_id_above in Hi.
      exact (Z.lt_irrefl _ (Z.lt_le_trans _ _ _ Hi Hnew)).
    + intros i Hi. rewrite map_app, number_rows_locations in Hi.
      apply in_app_or in Hi as [Hi | Hi]; [apply Href; exact Hi |].
      apply in_map_iff in Hi as (r & <- & Hr).
      exact (proj1 (List.Forall_forall _ _) Hrows r Hr).
  - injection Happ as <-. cbn [dim_location fact_weather fw_rows].
    split; [exact Hdim |]. split; [apply number_rows_ids_NoDup |].
    intros i Hi. rewrite number_rows_locations in Hi.
    apply in_map_iff in Hi as (r & <- & Hr).
    exact (proj1 (List.Forall_forall _ _) Hrows r Hr).
Qed.

Lemma same_files_consistent (w : world) (evs : list event) :
  all_consistent w -> all_consistent (add_events w evs).
Proof. intros H. exact H. Qed.

Lemma recreate_tables_consistent (env : Env) (w : world) :
  all_consistent w -> all_consistent (snd (recreate_tables env w)).
Proof.
  intros H. unfold recreate_tables. apply guarded_consistent.
  assert (Hdrops : all_consistent
            (snd (engine_begin env
                    (do _ <- drop_table_if_exists env FactWeather;
                     drop_table_if_exists env DimLocation) w))).
  { apply engine_begin_consistent; [exact H |].
    apply bind_consistent.
    - apply db_exec_consistent; [exact H |]. intros d' Hd'. injection Hd' as <-.
      destruct (consistent_get_db (DB_PATH env) w H) as (Hdim & _ & _).
      split; [exact Hdim |]. split; [constructor | intros i []].
    - intros [] w1 Hw1. unfold drop_table_if_exists, db_exec in Hw1.
      destruct (db_fault env (OpDrop FactWeather)); [discriminate |].
      injection Hw1 as <-.
      assert (H1 : all_consistent
                (set_db (DB_PATH env)
                   {| dim_location := dim_location (get_db (DB_PATH env) w);
                      fact_weather := None |} w)).
      { apply all_consistent_set_db; [| exact H].
        destruct (consistent_get_db (DB_PATH env) w H) as (Hdim & _ & _).
        split; [exact Hdim |]. split; [constructor | intros i []]. }
      apply db_exec_consistent; [exact H1 |].
      intros d' Hd'. injection Hd' as <-.
      fold (set_db (DB_PATH env)
              {| dim_location := dim_location (get_db (DB_PATH env) w);
                 fact_weather := None |} w).
      rewrite get_db_set_db. cbn [fact_weather]. exact consistent_empty_db. }
  apply bind_consistent; [exact Hdrops |].
  intros [] w1 Hw1. rewrite Hw1 in Hdrops. cbn [snd] in Hdrops.
  assert (Hcreate : all_consistent (snd (create_all env w1))).
  { apply db_exec_consistent; [exact Hdrops |].
    intros d' Hd'. injection Hd' as <-.
    destruct (consistent_get_db (DB_PATH env) w1 Hdrops) as (Hdim & Hfact & Href).
    unfold consistent, dim_ids, fact_ids, fact_locations in *.
    cbn [dim_location fact_weather].
    destruct (dim_location (get_db (DB_PATH env) w1)) as [rows|];
      destruct (fact_weather (get_db (DB_PATH env) w1)) as [t|]; cbn [default];
      repeat split; try assumption; try constructor; try (intros i []). }
  apply bind_consistent; [exact Hcreate |].
  intros [] w2 Hw2. rewrite Hw2 in Hcreate. exact Hcreate.
Qed.

Lemma insert_location_consistent (env : Env) (lat lon : Q) (city country : string)
    (w : world) :
  all_consistent w -> all_consistent (snd (insert_location env lat lon city country w)).
Proof.
  intros H. unfold insert_location. apply db_exec_consistent; [exact H |].
  intros d' Hd'. destruct (dim_location (get_db (DB_PATH env) w)) as [rows|] eqn:E;
    [| discriminate].
  injection Hd' as <-.
  apply insert_or_ignore_consistent; [apply consistent_get_db; exact H | exact E].
Qed.

Lemma insert_cities_consistent (env : Env) (cs : list (Q * Q * string * string)) :
  forall w, all_consistent w -> all_consistent (snd (insert_cities env cs w)).
Proof.
  induction cs as [|[[[lat lon] city] country] rest IH]; intros w H; cbn [insert_cities].
  - exact H.
  - pose proof (insert_location_consistent env lat lon city country w H) as H1.
    apply bind_consistent; [exact H1 |].
    intros [] w1 Hw1. rewrite Hw1 in H1. apply IH. exact H1.
Qed.

Lemma seed_locations_consistent (env : Env) (w : world) :
  all_consistent w -> all_consistent (snd (seed_locations env w)).
Proof.
  intros H. unfold seed_locations. apply guarded_consistent.
  pose proof (engine_begin_consistent env (insert_cities env cities) w H
                (insert_cities_consistent env cities w H)) as H1.
  apply bind_consistent; [exact H1 |].
  intros [] w1 Hw1. rewrite Hw1 in H1. cbn [snd] in H1.
  apply bind_consistent.
  - unfold read_dim_location, db_query.
    destruct (db_fault env (OpSelectLocations (DB_PATH env))); exact H1.
  - intros df w2 Hw2. unfold read_dim_location, db_query in Hw2.
    destruct (db_fault env (OpSelectLocations (DB_PATH env))); [discriminate |].
    injection Hw2 as _ <-. exact H1.
Qed.

Lemma fetched_locations (env : Env) (df_locs : list loc_dict) :
  Forall (fun r => In (location_id r) (map row_location_id df_locs)) (fetched env df_locs).
Proof.
  induction df_locs as [|row rest IH]; [constructor |].
  cbn [fetched flat_map map]. fold (fetched env rest).
  apply Forall_app. split.
  - destruct (outcome env row) as [flat|] eqn:E; [| constructor].
    constructor; [| constructor]. left. symmetry.
    apply (outcome_location_id env row flat E).
  - eapply Forall_impl; [exact IH |]. intros r Hr. right. exact Hr.
Qed.

Lemma to_frame_locations (env : Env) (rows : list (weather_rec json))
    (df : list (weather_rec (option Z))) :
  to_frame env rows = Ok df -> map location_id df = map location_id rows.
Proof.
  unfold to_frame. destruct rows as [|r0 rows0]; [discriminate |].
  generalize (r0 :: rows0) as rows. clear r0 rows0.
  intros rows. revert df. induction rows as [|r rows IH]; intros df H; cbn in H.
  - injection H as <-. reflexivity.
  - destruct (pd_to_datetime env (obs_ts r)) as [t|]; [| discriminate]. cbn in H.
    destruct (mapM_result _ rows) as [df'|] eqn:E; [| discriminate].
    injection H as <-. cbn. f_equal. apply IH. reflexivity.
Qed.

Lemma listed_locations (rows : list dim_row) :
  map row_location_id (map to_loc_dict rows) = map dl_location_id rows.
Proof. rewrite map_map. reflexivity. Qed.

(** The append of a frame made from records of listed locations. *)
Lemma to_sql_consistent (env : Env) (p : string) (locations : list dim_row)
    (rows : list (weather_rec json)) (df : list (weather_rec (option Z))) (w : world) :
  all_consistent w ->
  dim_location (get_db p w) = Some locations ->
  Forall (fun r => In (location_id r) (map dl_location_id locations)) rows ->
  to_frame env rows = Ok df ->
  all_consistent (snd (to_sql env p df w)).
Proof.
  intros H Hdim Hrows Hdf. unfold to_sql. apply bind_consistent; [exact H |].
  intros [] w1 Hw1. rewrite emit_run in Hw1. injection Hw1 as <-.
  apply db_exec_consistent; [exact H |].
  rewrite get_db_add_events. intros d' Hd'.
  apply (append_facts_consistent (get_db p w) d' df);
    [apply consistent_get_db; exact H | | exact Hd'].
  unfold dim_ids. rewrite Hdim.
  apply List.Forall_forall. intros d Hd.
  assert (Hin : In (location_id d) (map location_id rows)).
  { rewrite <- (to_frame_locations env rows df Hdf). apply in_map. exact Hd. }
  apply in_map_iff in Hin as (r & Hr & Hin). rewrite <- Hr.
  exact (proj1 (List.Forall_forall _ _) Hrows r Hin).
Qed.

Lemma etl_once_consistent (env : Env) (w : world) :
  all_consistent w -> all_consistent (snd (etl_once env w)).
Proof.
  intros H. unfold etl_once. apply guarded_consistent.
  unfold bind at 1. unfold read_locations, db_query.
  destruct (db_fault env (OpSelectLocations (DB_PATH env))); [exact H |].
  destruct (dim_location (get_db (DB_PATH env) w)) as [locations|] eqn:Hdim; [| exact H].
  destruct (map to_loc_dict locations) as [|l0 ls] eqn:Elocs; [exact H |].
  unfold bind at 1. rewrite etl_loop_run. cbn [app].
  pose proof (fetched_locations env (l0 :: ls)) as Hrows.
  rewrite <- Elocs, listed_locations in Hrows. rewrite <- Elocs.
  destruct (fetched env (map to_loc_dict locations)) as [|r0 rs] eqn:Erows; [exact H |].
  rewrite <- Erows in *.
  unfold bind at 1. unfold lift.
  destruct (to_frame env (fetched env (map to_loc_dict locations))) as [df|] eqn:Edf;
    [| exact H].
  set (w1 := add_events w (etl_loop_events env (map to_loc_dict locations))).
  assert (Hsql : all_consistent (snd (to_sql env (DB_PATH env) df w1))).
  { apply (to_sql_consistent env (DB_PATH env) locations
             (fetched env (map to_loc_dict locations)) df w1);
      [exact H | exact Hdim | exact Hrows | exact Edf]. }
  pose proof (engine_begin_consistent env (to_sql env (DB_PATH env) df) w1 H Hsql) as Hb.
  apply bind_consistent; [exact Hb |].
  intros [] w2 Hw2. rewrite Hw2 in Hb. exact Hb.
Qed.

Lemma snapshots_locations (base : weather_rec json) (hours : Z)
    (snaps : list (weather_rec json)) :
  snapshots base hours = Ok snaps ->
  Forall (fun r => location_id r = location_id base) snaps.
Proof.
  unfold snapshots. generalize (py_range hours) as hs. intros hs. revert snaps.
  induction hs as [|h hs IH]; intros snaps H; cbn in H.
  - injection H as <-. constructor.
  - unfold snapshot at 1 in H. destruct (py_sub (obs_ts base) (h * 3600)); [| discriminate].
    cbn in H. destruct (mapM_result (snapshot base) hs) as [rest|]; [| discriminate].
    injection H as <-. constructor; [reflexivity | apply IH; reflexivity].
Qed.

(** Whatever the back-date loop returns belongs to the locations it was
    given, and the loop changes no file. *)
Lemma backdate_loop_locations (env : Env) (hours : Z) (ids : list Z)
    (df_locs : list loc_dict) :
  (forall row, In row df_locs -> In (row_location_id row) ids) ->
  forall all_rows w rows w',
    Forall (fun r => In (location_id r) ids) all_rows ->
    backdate_loop env hours df_locs all_rows w = (Ok rows, w') ->
    Forall (fun r => In (location_id r) ids) rows.
Proof.
  induction df_locs as [|row rest IH]; intros Hids all_rows w rows w' Hacc Hrun;
    cbn [backdate_loop] in Hrun.
  - injection Hrun as <- _. exact Hacc.
  - unfold bind at 1 in Hrun. rewrite fetch_one_record_run in Hrun.
    destruct (outcome env row) as [base|] eqn:Eout; [| discriminate].
    unfold bind at 1 in Hrun. unfold lift in Hrun.
    destruct (snapshots base hours) as [snaps|] eqn:Esnaps; [| discriminate].
    unfold bind at 1 in Hrun. unfold sleep in Hrun. rewrite emit_run in Hrun.
    apply (IH (fun r Hr => Hids r (or_intror Hr)) _ _ _ _) in Hrun; [exact Hrun |].
    apply Forall_app. split; [exact Hacc |].
    eapply Forall_impl; [apply (snapshots_locations base hours snaps Esnaps) |].
    intros r Hr. cbn beta in Hr. rewrite Hr, (outcome_location_id env row base Eout).
    apply Hids. left. reflexivity.
Qed.

Lemma insert_backdated_snapshots_consistent (env : Env) (hours : Z) (w : world) :
  all_consistent w -> all_consistent (snd (insert_backdated_snapshots env hours w)).
Proof.
  intros H. unfold insert_backdated_snapshots. apply guarded_consistent.
  unfold bind at 1. unfold read_locations, db_query.
  destruct (db_fault env (OpSelectLocations "weather.db")); [exact H |].
  destruct (dim_location (get_db "weather.db" w)) as [locations|] eqn:Hdim; [| exact H].
  destruct (map to_loc_dict locations) as [|l0 ls] eqn:Elocs; [exact H |].
  rewrite <- Elocs.
  assert (Hloop : all_consistent
            (snd (backdate_loop env hours (map to_loc_dict locations) [] w))).
  { apply (all_consistent_same_files w); [| exact H].
    intros p. apply leaves_backdate_loop. }
  apply bind_consistent; [exact Hloop |].
  intros rows w1 Hw1. rewrite Hw1 in Hloop. cbn [snd] in Hloop.
  assert (Hsame : forall p, files w1 !! p = files w !! p).
  { intros p. pose proof (leaves_backdate_loop p env hours (map to_loc_dict locations) [] w)
      as Hl. rewrite Hw1 in Hl. exact Hl. }
  assert (Hrows : Forall (fun r => In (location_id r) (map dl_location_id locations)) rows).
  { apply (backdate_loop_locations env hours _ (map to_loc_dict locations)) with
      (all_rows := []) (w := w) (w' := w1); [| constructor | exact Hw1].
    intros row Hin. rewrite <- listed_locations. apply in_map. exact Hin. }
  unfold bind at 1. unfold lift.
  destruct (to_frame env rows) as [df|] eqn:Edf; [| exact Hloop].
  assert (Hdim1 : dim_location (get_db "weather.db" w1) = Some locations).
  { unfold get_db. rewrite Hsame. exact Hdim. }
  pose proof (to_sql_consistent env "weather.db" locations rows df w1 Hloop Hdim1 Hrows Edf)
    as Hsql.
  apply bind_consistent; [exact Hsql |].
  intros [] w2 Hw2. rewrite Hw2 in Hsql. exact Hsql.
Qed.

Lemma main_consistent (env : Env) (w : world) :
  all_consistent w -> all_consistent (snd (main env w)).
Proof.
  intros H. unfold main. apply guarded_consistent.
  pose proof (recreate_tables_consistent env w H) as H1.
  apply bind_consistent; [exact H1 |]. intros [] w1 Hw1. rewrite Hw1 in H1. cbn [snd] in H1.
  pose proof (seed_locations_consistent env w1 H1) as H2.
  apply bind_consistent; [exact H2 |]. intros [] w2 Hw2. rewrite Hw2 in H2. cbn [snd] in H2.
  pose proof (insert_backdated_snapshots_consistent env 25 w2 H2) as H3.
  apply bind_consistent; [exact H3 |]. intros [] w3 Hw3. rewrite Hw3 in H3. cbn [snd] in H3.
  apply etl_once_consistent. exact H3.
Qed.

(** X5.  If in every database file the keys of both tables are unique and
    every observation belongs to a listed location, the same holds after
    each stage and after the whole [__main__] block, however they end. *)
Theorem pipeline_keeps_keys_unique_and_references_valid (env : Env) (w : world) :
  all_consistent w ->
  all_consistent (snd (recreate_tables env w))
  /\ all_consistent (snd (seed_locations env w))
  /\ (forall hours, all_consistent (snd (insert_backdated_snapshots env hours w)))
  /\ all_consistent (snd (etl_once env w))
  /\ all_consistent (snd (main env w)).
Proof.
  intros H.
  split; [apply recreate_tables_consistent; exact H |].
  split; [apply seed_locations_consistent; exact H |].
  split; [intros hours; apply insert_backdated_snapshots_consistent; exact H |].
  split; [apply etl_once_consistent; exact H |].
  apply main_consistent. exact H.
Qed.

(** *** The schema *)

(** X6.  When both [DROP TABLE] statements go through, [recreate_tables]
    ends in one of two ways, whatever the database held: with both tables
    present and empty, or, when [create_all] fails, with that error and a
    database without tables. *)
Theorem recreate_tables_empties_or_removes_the_tables (env : Env) (w : world) :
  db_fault env (OpDrop FactWeather) = None ->
  db_fault env (OpDrop DimLocation) = None ->
  match db_fault env OpCreateAll with
  | None =>
      recreate_tables env w
      = (Ok tt, add_events (set_db (DB_PATH env) fresh_db w) [EvPrint LogTablesRecreated])
      /\ dim_location (get_db (DB_PATH env) (snd (recreate_tables env w))) = Some []
      /\ fact_weather (get_db (DB_PATH env) (snd (recreate_tables env w)))
         = Some {| fw_declared := true; fw_rows := [] |}
  | Some e =>
      fst (recreate_tables env w) = Raise e
      /\ get_db (DB_PATH env) (snd (recreate_tables env w)) = empty_db
  end.
Proof.
  intros Hfact Hdim.
  assert (Hrun : recreate_tables env w
                 = match db_fault env OpCreateAll with
                   | None => (Ok tt, add_events (set_db (DB_PATH env) fresh_db w)
                                       [EvPrint LogTablesRecreated])
                   | Some e =>
                       (Raise e,
                        add_events (set_db (DB_PATH env) empty_db w)
                          (alert_events env "ETL Failure Alert: recreate_tables"
                             "An error occurred while recreating tables:" e))
                   end).
  { unfold recreate_tables, try_except.
    unfold bind at 1. unfold engine_begin. unfold bind at 1.
    unfold drop_table_if_exists.
    rewrite db_exec_run by exact Hfact. rewrite db_exec_run by exact Hdim.
    rewrite !get_db_set_db, !set_db_set_db. cbn [dim_location fact_weather].
    unfold bind at 1. unfold create_all. unfold db_exec.
    destruct (db_fault env OpCreateAll) as [e|].
    - rewrite alert_and_reraise_run. reflexivity.
    - fold (set_db (DB_PATH env)
              {| dim_location := Some (default [] (dim_location
                                                     (get_db (DB_PATH env)
                                                        (set_db (DB_PATH env)
                                                           {| dim_location := None;
                                                              fact_weather := None |} w))));
                 fact_weather := Some (default {| fw_declared := true; fw_rows := [] |}
                                         (fact_weather
                                            (get_db (DB_PATH env)
                                               (set_db (DB_PATH env)
                                                  {| dim_location := None;
                                                     fact_weather := None |} w)))) |}
              (set_db (DB_PATH env) {| dim_location := None; fact_weather := None |} w)).
      rewrite !get_db_set_db, !set_db_set_db. cbn [dim_location fact_weather default].
      unfold print. rewrite emit_run. reflexivity. }
  rewrite Hrun. destruct (db_fault env OpCreateAll) as [e|].
  - split; [reflexivity |]. cbn [snd]. rewrite get_db_add_events, get_db_set_db. reflexivity.
  - split; [reflexivity |]. cbn [snd]. rewrite get_db_add_events, get_db_set_db.
    split; reflexivity.
Qed.

(** *** Back-dated snapshots: edges and failures *)

Lemma http_calls_backdate_events (df_locs : list loc_dict) :
  http_calls (backdate_events df_locs) = requests_for df_locs.
Proof.
  induction df_locs as [|row rest IH]; [reflexivity |].
  cbn [backdate_events flat_map requests_for map]. rewrite http_calls_app.
  fold (backdate_events rest). rewrite IH. reflexivity.
Qed.

Lemma to_sql_calls_backdate_events (df_locs : list loc_dict) :
  to_sql_calls (backdate_events df_locs) = [].
Proof.
  induction df_locs as [|row rest IH]; [reflexivity |].
  cbn [backdate_events flat_map]. rewrite to_sql_calls_app.
  fold (backdate_events rest). rewrite IH. reflexivity.
Qed.

(** X7.  On an existing, empty [dim_location] the back-date step prints
    its notice and returns, for any number of hours: no request, no write,
    no alert. *)
Theorem backdate_without_locations (env : Env) (hours : Z) (w : world) :
  db_fault env (OpSelectLocations "weather.db") = None ->
  dim_location (get_db "weather.db" w) = Some [] ->
  insert_backdated_snapshots env hours w
  = (Ok tt, add_events w [EvPrint LogNoCitiesBackdate]).
Proof.
  intros Hfault Hdim.
  unfold insert_backdated_snapshots, try_except, bind, read_locations, db_query.
  rewrite Hfault, Hdim. reflexivity.
Qed.

(** The loop stops at the first location that cannot be back-dated. *)
Lemma backdate_loop_first_failure (env : Env) (hours : Z) (pre post : list loc_dict)
    (row : loc_dict) (e : exn) :
  Forall (fun r => is_ok (backdated env hours r) = true) pre ->
  backdated env hours row = Raise e ->
  forall all_rows w,
    backdate_loop env hours (pre ++ row :: post) all_rows w
    = (Raise e, add_events w (backdate_events pre
                              ++ [EvHttpGet (row_lat row) (row_lon row)])).
Proof.
  intros Hpre Hrow. induction pre as [|r0 pre IH]; intros all_rows w.
  - cbn [app backdate_loop backdate_events flat_map]. unfold bind at 1.
    rewrite fetch_one_record_run. unfold backdated in Hrow.
    destruct (outcome env row) as [base | e']; cbn [and_then] in Hrow.
    + unfold bind at 1. unfold lift. rewrite Hrow. reflexivity.
    + injection Hrow as ->. reflexivity.
  - inversion Hpre as [| ? ? H0 Hrest]; subst.
    cbn [app backdate_loop backdate_events flat_map]. unfold bind at 1.
    rewrite fetch_one_record_run. unfold backdated in H0.
    destruct (outcome env r0) as [base|]; [| discriminate H0]. cbn [and_then] in H0.
    unfold bind at 1. unfold lift.
    destruct (snapshots base hours) as [snaps|]; [| discriminate H0].
    unfold bind at 1. unfold sleep. rewrite emit_run, (IH Hrest), !add_events_app.
    reflexivity.
Qed.

(** X8.  The back-date step raises the error of the first location it
    cannot back-date, after one request for each location up to and
    including that one and none for the later ones; no file changes and
    [to_sql] is not called. *)
Theorem backdate_stops_at_the_first_failing_location (env : Env) (hours : Z) (w : world)
    (before after : list dim_row) (failing : dim_row) (e : exn) :
  db_fault env (OpSelectLocations "weather.db") = None ->
  dim_location (get_db "weather.db" w) = Some (before ++ failing :: after) ->
  Forall (fun l => is_ok (backdated env hours (to_loc_dict l)) = true) before ->
  backdated env hours (to_loc_dict failing) = Raise e ->
  exists w',
    insert_backdated_snapshots env hours w = (Raise e, w')
    /\ files w' = files w
    /\ http_calls (trace w')
       = http_calls (trace w) ++ requests_for (map to_loc_dict (before ++ [failing]))
    /\ to_sql_calls (trace w') = to_sql_calls (trace w).
Proof.
  intros Hfault Hdim Hbefore Hfail.
  assert (Hpre : Forall (fun r => is_ok (backdated env hours r) = true)
                        (map to_loc_dict before)).
  { clear Hdim. induction Hbefore; simpl; constructor; assumption. }
  eexists. split; [| split; [| split]].
  - unfold insert_backdated_snapshots, try_except. unfold bind at 1.
    unfold read_locations, db_query. rewrite Hfault, Hdim.
    rewrite map_app. cbn [map].
    destruct (map to_loc_dict before ++ to_loc_dict failing :: map to_loc_dict after)
      as [|l0 ls] eqn:E; [destruct (map to_loc_dict before); discriminate E |].
    rewrite <- E. unfold bind at 1.
    rewrite (backdate_loop_first_failure env hours _ _ _ e Hpre Hfail).
    rewrite alert_and_reraise_run, add_events_app. reflexivity.
  - reflexivity.
  - cbn [trace add_events]. rewrite !http_calls_app, http_calls_backdate_events.
    rewrite alert_events_no_http, app_nil_r.
    rewrite map_app. unfold requests_for. rewrite !map_app. reflexivity.
  - cbn [trace add_events]. rewrite !to_sql_calls_app, to_sql_calls_backdate_events.
    rewrite alert_events_no_to_sql. cbn. rewrite !app_nil_r. reflexivity.
Qed.

Lemma backdated_not_a_number (env : Env) (hours : Z) (row : loc_dict)
    (base : weather_rec json) :
  outcome env row = Ok base ->
  not_a_number (obs_ts base) = true ->
  0 < hours ->
  backdated env hours row = Raise TypeError.
Proof.
  intros Hout Hnan Hpos. unfold backdated. rewrite Hout. cbn [and_then].
  unfold snapshots, py_range.
  destruct (Z.to_nat hours) as [|n] eqn:En; [lia |].
  cbn [seq map mapM_result]. unfold snapshot at 1.
  destruct (obs_ts base); try discriminate Hnan; reflexivity.
Qed.

(** X9.  A fetched record whose [dt] is [null], a string, a list or an
    object makes the back-date step raise [TypeError] at the first
    subtraction; nothing is written. *)
Theorem backdate_rejects_a_report_time_that_is_not_a_number (env : Env) (hours : Z)
    (w : world) (before after : list dim_row) (odd : dim_row) (base : weather_rec json) :
  db_fault env (OpSelectLocations "weather.db") = None ->
  dim_location (get_db "weather.db" w) = Some (before ++ odd :: after) ->
  Forall (fun l => is_ok (backdated env hours (to_loc_dict l)) = true) before ->
  fst (fetch_one_record env (to_loc_dict odd) w) = Ok base ->
  not_a_number (obs_ts base) = true ->
  0 < hours ->
  exists w',
    insert_backdated_snapshots env hours w = (Raise TypeError, w')
    /\ files w' = files w
    /\ to_sql_calls (trace w') = to_sql_calls (trace w).
Proof.
  intros Hfault Hdim Hbefore Hfetch Hnan Hpos.
  rewrite fetch_one_record_run in Hfetch. cbn [fst] in Hfetch.
  assert (Hpre : Forall (fun r => is_ok (backdated env hours r) = true)
                        (map to_loc_dict before)).
  { clear Hdim. induction Hbefore; simpl; constructor; assumption. }
  pose proof (backdated_not_a_number env hours _ base Hfetch Hnan Hpos) as Hfail.
  eexists. split; [| split].
  - unfold insert_backdated_snapshots, try_except. unfold bind at 1.
    unfold read_locations, db_query. rewrite Hfault, Hdim.
    rewrite map_app. cbn [map].
    destruct (map to_loc_dict before ++ to_loc_dict odd :: map to_loc_dict after)
      as [|l0 ls] eqn:E; [destruct (map to_loc_dict before); discriminate E |].
    rewrite <- E. unfold bind at 1.
    rewrite (backdate_loop_first_failure env hours _ _ _ TypeError Hpre Hfail).
    rewrite alert_and_reraise_run, add_events_app. reflexivity.
  - reflexivity.
  - cbn [trace add_events]. rewrite !to_sql_calls_app, to_sql_calls_backdate_events.
    rewrite alert_events_no_to_sql. cbn. rewrite !app_nil_r. reflexivity.
Qed.

Lemma py_range_nonpositive (n : Z) : n <= 0 -> py_range n = [].
Proof.
  intros H. unfold py_range. replace (Z.to_nat n) with 0%nat by lia. reflexivity.
Qed.

Lemma backdated_no_hours (env : Env) (hours : Z) (row : loc_dict) :
  hours <= 0 ->
  backdated env hours row = and_then (outcome env row) (fun _ => Ok []).
Proof.
  intros H. unfold backdated, snapshots. rewrite (py_range_nonpositive hours H).
  reflexivity.
Qed.

(** X10.  With [hours <= 0] and every fetch succeeding, the back-date
    step still sends one request per location, builds an empty frame and
    raises [KeyError] for the column [obs_ts]; nothing is written. *)
Theorem backdate_of_no_hours_fails_after_fetching (env : Env) (hours : Z) (w : world)
    (locations : list dim_row) :
  hours <= 0 ->
  db_fault env (OpSelectLocations "weather.db") = None ->
  dim_location (get_db "weather.db" w) = Some locations ->
  locations <> [] ->
  Forall (fun l => is_ok (fst (fetch_one_record env (to_loc_dict l) w)) = true) locations ->
  exists w',
    insert_backdated_snapshots env hours w = (Raise (KeyError "obs_ts"), w')
    /\ files w' = files w
    /\ http_calls (trace w')
       = http_calls (trace w) ++ requests_for (map to_loc_dict locations)
    /\ to_sql_calls (trace w') = to_sql_calls (trace w).
Proof.
  intros Hh Hfault Hdim Hne Hok.
  assert (Hall : Forall (fun r => is_ok (backdated env hours r) = true)
                        (map to_loc_dict locations)).
  { clear Hdim Hne. induction Hok as [| l ls Hl _ IH]; simpl; constructor; [| exact IH].
    rewrite fetch_one_record_run in Hl. cbn [fst] in Hl.
    rewrite (backdated_no_hours env hours _ Hh).
    destruct (outcome env (to_loc_dict l)); [reflexivity | discriminate]. }
  assert (Hrows : backdated_rows env hours (map to_loc_dict locations) = []).
  { clear Hdim Hne Hall. induction Hok as [| l ls Hl _ IH]; [reflexivity |].
    cbn [map backdated_rows flat_map]. fold (backdated_rows env hours (map to_loc_dict ls)).
    rewrite IH, (backdated_no_hours env hours _ Hh).
    destruct (outcome env (to_loc_dict l)); reflexivity. }
  eexists. split; [| split; [| split]].
  - unfold insert_backdated_snapshots, try_except. unfold bind at 1.
    unfold read_locations, db_query. rewrite Hfault, Hdim.
    destruct (map to_loc_dict locations) as [|l0 ls] eqn:E;
      [destruct locations; [congruence | discriminate E] |].
    rewrite <- E in *. unfold bind at 1.
    rewrite (backdate_loop_run env hours _ Hall), Hrows. cbn [app].
    unfold bind at 1. unfold lift. cbn [to_frame].
    rewrite alert_and_reraise_run, add_events_app. reflexivity.
  - reflexivity.
  - cbn [trace add_events]. rewrite !http_calls_app.
    change (flat_map _ (map to_loc_dict locations))
      with (backdate_events (map to_loc_dict locations)).
    rewrite http_calls_backdate_events, alert_events_no_http, app_nil_r. reflexivity.
  - cbn [trace add_events]. rewrite !to_sql_calls_app.
    change (flat_map _ (map to_loc_dict locations))
      with (backdate_events (map to_loc_dict locations)).
    rewrite to_sql_calls_backdate_events, alert_events_no_to_sql. cbn.
    rewrite !app_nil_r. reflexivity.
Qed.

Lemma backdated_rows_length (env : Env) (hours : Z) (df_locs : list loc_dict) :
  Forall (fun row => exists base b, outcome env row = Ok base /\ obs_ts base = JInt b)
         df_locs ->
  length (backdated_rows env hours df_locs) = (length df_locs * Z.to_nat hours)%nat
  /\ Forall (fun row => is_ok (backdated env hours row) = true) df_locs.
Proof.
  induction 1 as [| row rest (base & b & Hout & Hb) _ [IHlen IHok]]; [split; constructor |].
  pose proof (backdated_of_int env hours row base b Hout Hb) as Hrow.
  split.
  - cbn [backdated_rows flat_map length]. fold (backdated_rows env hours rest).
    rewrite Hrow, length_app, IHlen, length_map, py_range_length. lia.
  - constructor; [rewrite Hrow; reflexivity | exact IHok].
Qed.

(** X11.  For any positive [hours] and any non-empty list of locations,
    when every fetch reports an integer [dt] and the conversion and the
    append go through, the back-date step sends one request per location and
    appends [hours] rows for each of them in a single [to_sql] call. *)
Theorem backdate_writes_hours_rows_per_location (env : Env) (hours : Z) (w : world)
    (locations : list dim_row) :
  db_fault env (OpSelectLocations "weather.db") = None ->
  db_fault env (OpAppendFacts "weather.db") = None ->
  dim_location (get_db "weather.db" w) = Some locations ->
  locations <> [] ->
  0 < hours ->
  Forall (fun l => exists base b,
                     fst (fetch_one_record env (to_loc_dict l) w) = Ok base
                     /\ obs_ts base = JInt b) locations ->
  Forall (fun r => exists t, pd_to_datetime env (obs_ts r) = Ok (Some t))
         (backdated_rows env hours (map to_loc_dict locations)) ->
  exists w' df,
    insert_backdated_snapshots env hours w = (Ok tt, w')
    /\ map snd (fact_rows "weather.db" w') = map snd (fact_rows "weather.db" w) ++ df
    /\ length df = (length locations * Z.to_nat hours)%nat
    /\ http_calls (trace w')
       = http_calls (trace w) ++ requests_for (map to_loc_dict locations)
    /\ to_sql_calls (trace w') = to_sql_calls (trace w) ++ [df].
Proof.
  intros Hsel Happ Hdim Hne Hpos Hfetch Hconv.
  assert (Hint : Forall (fun row => exists base b, outcome env row = Ok base
                                                   /\ obs_ts base = JInt b)
                        (map to_loc_dict locations)).
  { clear Hdim Hne Hconv. induction Hfetch as [| l ls (base & b & Hl & Hb) _ IH]; simpl;
      constructor; [| exact IH].
    rewrite fetch_one_record_run in Hl. exists base, b. split; assumption. }
  destruct (backdated_rows_length env hours _ Hint) as [Hlen Hok].
  assert (Hrows : backdated_rows env hours (map to_loc_dict locations) <> []).
  { intros E. rewrite E, length_map in Hlen. cbn in Hlen.
    destruct locations; [congruence |]. cbn in Hlen. lia. }
  destruct (insert_backdated_snapshots_run env hours w locations Hsel Happ Hdim Hok Hrows
              Hconv) as (w' & df & Hrun & Hrel & Hstored & Htrace).
  exists w', df. split; [exact Hrun |]. split; [exact Hstored |].
  split; [| split].
  - rewrite <- (Forall2_length _ _ _ Hrel), Hlen, length_map. reflexivity.
  - rewrite Htrace, !http_calls_app.
    change (flat_map _ (map to_loc_dict locations))
      with (backdate_events (map to_loc_dict locations)).
    rewrite http_calls_backdate_events. cbn. rewrite app_nil_r. reflexivity.
  - rewrite Htrace, !to_sql_calls_app.
    change (flat_map _ (map to_loc_dict locations))
      with (backdate_events (map to_loc_dict locations)).
    rewrite to_sql_calls_backdate_events. reflexivity.
Qed.

(** *** The ETL cycle: failures and repetition *)

Lemma try_except_bind_ok {A B} (m : M A) (k : A -> M B) (h : exn -> M B)
    (w w1 : world) (a : A) :
  m w = (Ok a, w1) -> try_except (bind m k) h w = try_except (k a) h w1.
Proof. intros H. unfold try_except, bind. rewrite H. reflexivity. Qed.

Lemma emits_alert_and_reraise {A} (q : event -> bool) (env : Env) (subject intro : string)
    (e : exn) :
  (forall s i c, q (EvMail s i c) = true) ->
  (forall l, is_alert_line (EvPrint l) = true -> q (EvPrint l) = true) ->
  emits q (@alert_and_reraise env A subject intro e).
Proof.
  intros Hmail Hline w. rewrite alert_and_reraise_run. eexists. split; [reflexivity |].
  unfold alert_events. destruct (smtp_fault env subject); cbn [forallb].
  - rewrite Hline; reflexivity.
  - rewrite Hmail, Hline; reflexivity.
Qed.

Lemma fetch_errors_app (a b : list event) :
  fetch_errors (a ++ b) = fetch_errors a ++ fetch_errors b.
Proof. unfold fetch_errors. apply flat_map_app. Qed.

Lemma after_the_loop_silent (evs : list event) :
  forallb after_the_loop evs = true -> http_calls evs = [] /\ fetch_errors evs = [].
Proof.
  induction evs as [|ev evs IH]; [split; reflexivity |].
  cbn [forallb]. intros H. apply andb_true_iff in H as [Hev Hrest].
  destruct (IH Hrest) as [IH1 IH2]. unfold http_calls, fetch_errors in *.
  cbn [List.filter flat_map]. rewrite IH1, IH2.
  destruct ev as [[] | | | |]; try discriminate Hev; split; reflexivity.
Qed.

Lemma etl_loop_events_requests (env : Env) (df_locs : list loc_dict) :
  http_calls (etl_loop_events env df_locs) = requests_for df_locs
  /\ fetch_errors (etl_loop_events env df_locs) = failures env df_locs.
Proof.
  induction df_locs as [|row rest [IH1 IH2]]; [split; reflexivity |].
  cbn [etl_loop_events flat_map requests_for map failures].
  fold (etl_loop_events env rest). fold (failures env rest).
  rewrite http_calls_app, fetch_errors_app, IH1, IH2.
  destruct (outcome env row); split; reflexivity.
Qed.

(** X12.  Once the listing succeeded, a cycle sends exactly one request
    per listed location, in table order, and prints a fetch error for
    exactly the locations whose fetch failed, however the cycle ends. *)
Theorem etl_once_asks_for_each_location_once (env : Env) (w : world)
    (locations : list dim_row) :
  db_fault env (OpSelectLocations (DB_PATH env)) = None ->
  dim_location (get_db (DB_PATH env) w) = Some locations ->
  http_calls (trace (snd (etl_once env w)))
  = http_calls (trace w) ++ requests_for (map to_loc_dict locations)
  /\ fetch_errors (trace (snd (etl_once env w)))
     = fetch_errors (trace w) ++ failures env (map to_loc_dict locations).
Proof.
  intros Hfault Hdim.
  assert (Hread : read_locations env (DB_PATH env) w = (Ok (map to_loc_dict locations), w)).
  { unfold read_locations, db_query. rewrite Hfault, Hdim. reflexivity. }
  unfold etl_once. rewrite (try_except_bind_ok _ _ _ w w _ Hread).
  set (df_locs := map to_loc_dict locations).
  destruct (etl_loop_events_requests env df_locs) as [Hreq Herr].
  assert (Htail : forall rows,
             emits after_the_loop
               (try_except
                  (match rows with
                   | [] => print LogNoData
                   | _ :: _ =>
                       do df_to_insert <- lift (to_frame env rows);
                       do _ <- engine_begin env (to_sql env (DB_PATH env) df_to_insert);
                       print (LogLoaded (length df_to_insert))
                   end)
                  (alert_and_reraise env "ETL Failure Alert: etl_once"
                     "An exception occurred during ETL:"))).
  { intros rows. apply emits_try_except.
    - destruct rows as [|r0 rs]; [apply emits_emit; reflexivity |].
      apply emits_bind; [apply emits_lift |]. intros df.
      apply emits_bind; [apply emits_engine_begin, emits_to_sql; reflexivity |].
      intros _. apply emits_emit. reflexivity.
    - intros e. apply emits_alert_and_reraise; [reflexivity |].
      intros l Hl. destruct l; try discriminate Hl; reflexivity. }
  destruct df_locs as [|l0 ls] eqn:Elocs.
  - unfold try_except, print. rewrite emit_run. cbn [snd trace add_events].
    rewrite http_calls_app, fetch_errors_app. split; reflexivity.
  - rewrite <- Elocs in *.
    rewrite (try_except_bind_ok _ _ _ w _ _ (etl_loop_run env df_locs [] w)). cbn [app].
    destruct (Htail (fetched env df_locs)
                (add_events w (etl_loop_events env df_locs))) as (evs & Ht & Hq).
    rewrite Ht. cbn [trace add_events].
    destruct (after_the_loop_silent evs Hq) as [Hs1 Hs2].
    rewrite !http_calls_app, !fetch_errors_app, Hreq, Herr, Hs1, Hs2, !app_nil_r.
    split; reflexivity.
Qed.

(** The cycle when the listing query itself fails. *)
Lemma etl_once_listing_fault (env : Env) (w : world) (e : exn) :
  db_fault env (OpSelectLocations (DB_PATH env)) = Some e ->
  etl_once env w
  = (Raise e, add_events w (alert_events env "ETL Failure Alert: etl_once"
                              "An exception occurred during ETL:" e)).
Proof.
  intros He. unfold etl_once, try_except. unfold bind at 1.
  unfold read_locations, db_query. rewrite He. apply alert_and_reraise_run.
Qed.

(** X13.  When the listing query fails, or [dim_location] does not exist,
    a cycle raises that error after one alert and does nothing else. *)
Theorem etl_once_without_a_listing (env : Env) (w : world) :
  (forall e, db_fault env (OpSelectLocations (DB_PATH env)) = Some e ->
             etl_once env w
             = (Raise e, add_events w (alert_events env "ETL Failure Alert: etl_once"
                                         "An exception occurred during ETL:" e)))
  /\ (db_fault env (OpSelectLocations (DB_PATH env)) = None ->
      dim_location (get_db (DB_PATH env) w) = None ->
      etl_once env w
      = (Raise (no_such_table "dim_location"),
         add_events w (alert_events env "ETL Failure Alert: etl_once"
                         "An exception occurred during ETL:"
                         (no_such_table "dim_location")))).
Proof.
  split.
  - intros e He. apply etl_once_listing_fault. exact He.
  - intros Hf Hdim. unfold etl_once, try_except. unfold bind at 1.
    unfold read_locations, db_query. rewrite Hf, Hdim. apply alert_and_reraise_run.
Qed.

(** The run of a cycle whose frame the database accepts or refuses. *)
Lemma etl_once_append (env : Env) (w : world) (locations : list dim_row)
    (df : list (weather_rec (option Z))) :
  db_fault env (OpSelectLocations (DB_PATH env)) = None ->
  db_fault env (OpAppendFacts (DB_PATH env)) = None ->
  dim_location (get_db (DB_PATH env) w) = Some locations ->
  fetched env (map to_loc_dict locations) <> [] ->
  to_frame env (fetched env (map to_loc_dict locations)) = Ok df ->
  exists w',
    etl_once env w = (match append_facts (get_db (DB_PATH env) w) df with
                      | Ok _ => Ok tt
                      | Raise e => Raise e
                      end, w')
    /\ (forall p, files w' !! p
                  = match append_facts (get_db (DB_PATH env) w) df with
                    | Ok d' => <[DB_PATH env := d']> (files w) !! p
                    | Raise _ => files w !! p
                    end)
    /\ to_sql_calls (trace w') = to_sql_calls (trace w) ++ [df].
Proof.
  intros Hsel Happ Hdim Hrows Hdf.
  assert (Hlocs : map to_loc_dict locations <> []).
  { intros E. rewrite E in Hrows. apply Hrows. reflexivity. }
  unfold etl_once, try_except. unfold bind at 1. unfold read_locations, db_query.
  rewrite Hsel, Hdim.
  destruct (map to_loc_dict locations) as [|l0 ls] eqn:Elocs; [congruence |].
  rewrite <- Elocs in *. unfold bind at 1. rewrite etl_loop_run. cbn [app].
  destruct (fetched env (map to_loc_dict locations)) as [|r0 rs] eqn:Erows; [congruence |].
  rewrite <- Erows in *. unfold bind at 1. unfold lift. rewrite Hdf.
  unfold bind at 1. unfold engine_begin, to_sql. unfold bind at 1.
  rewrite emit_run. unfold db_exec. rewrite Happ, !get_db_add_events.
  destruct (append_facts (get_db (DB_PATH env) w) df) as [d' | e].
  - unfold print. rewrite emit_run. eexists. split; [reflexivity |].
    split; [intros p; reflexivity |].
    cbn [trace add_events]. rewrite <- !app_assoc, !to_sql_calls_app.
    rewrite etl_loop_events_no_to_sql. reflexivity.
  - rewrite alert_and_reraise_run. eexists. split; [reflexivity |]. split.
    + intros p. cbn [files add_events].
      destruct (files w !! DB_PATH env) as [d|] eqn:E.
      * destruct (decide (DB_PATH env = p)) as [<- | Hne].
        -- rewrite lookup_insert_eq. symmetry. exact E.
        -- rewrite lookup_insert_ne by exact Hne. reflexivity.
      * destruct (decide (DB_PATH env = p)) as [<- | Hne].
        -- rewrite lookup_delete_eq. symmetry. exact E.
        -- rewrite lookup_delete_ne by exact Hne. reflexivity.
    + cbn [trace add_events]. rewrite <- !app_assoc, !to_sql_calls_app.
      rewrite etl_loop_events_no_to_sql, alert_events_no_to_sql. reflexivity.
Qed.

Lemma to_frame_has_nat (env : Env) (rows : list (weather_rec json))
    (df : list (weather_rec (option Z))) :
  to_frame env rows = Ok df ->
  Exists (fun r => pd_to_datetime env (obs_ts r) = Ok None) rows ->
  has_nat df = true.
Proof.
  unfold to_frame. destruct rows as [|r0 rows0]; [discriminate |].
  generalize (r0 :: rows0) as rows. clear r0 rows0.
  intros rows. revert df. induction rows as [|r rows IH]; intros df H Hex.
  - inversion Hex.
  - cbn in H. destruct (pd_to_datetime env (obs_ts r)) as [t|] eqn:Et; [| discriminate].
    cbn in H. destruct (mapM_result _ rows) as [df'|] eqn:E; [| discriminate].
    injection H as <-. cbn [has_nat existsb obs_ts with_obs_ts].
    apply Exists_cons in Hex as [Hr | Hrest].
    + rewrite Hr in Et. injection Et as <-. reflexivity.
    + fold (has_nat df'). rewrite (IH df' eq_refl Hrest). apply orb_true_r.
Qed.

(** X14.  With the declared [fact_weather], whose [obs_ts] is NOT NULL,
    one fetched record whose time converts to NaT makes the cycle raise
    [IntegrityError]: the batch was handed to [to_sql] once and no row of
    it is stored. *)
Theorem etl_once_rejects_the_whole_batch_for_one_missing_time (env : Env) (w : world)
    (locations : list dim_row) (t : fact_table) (df : list (weather_rec (option Z))) :
  db_fault env (OpSelectLocations (DB_PATH env)) = None ->
  db_fault env (OpAppendFacts (DB_PATH env)) = None ->
  dim_location (get_db (DB_PATH env) w) = Some locations ->
  fact_weather (get_db (DB_PATH env) w) = Some t ->
  fw_declared t = true ->
  to_frame env (fetched env (map to_loc_dict locations)) = Ok df ->
  Exists (fun r => pd_to_datetime env (obs_ts r) = Ok None)
         (fetched env (map to_loc_dict locations)) ->
  exists w',
    etl_once env w = (Raise IntegrityError, w')
    /\ (forall p, files w' !! p = files w !! p)
    /\ fact_rows (DB_PATH env) w' = fw_rows t
    /\ to_sql_calls (trace w') = to_sql_calls (trace w) ++ [df].
Proof.
  intros Hsel Happ Hdim Hfact Hdecl Hdf Hex.
  assert (Hrows : fetched env (map to_loc_dict locations) <> []).
  { intros E. rewrite E in Hex. inversion Hex. }
  pose proof (to_frame_has_nat env _ df Hdf Hex) as Hnat.
  destruct (etl_once_append env w locations df Hsel Happ Hdim Hrows Hdf)
    as (w' & Hrun & Hfiles & Hcalls).
  assert (Hrefused : append_facts (get_db (DB_PATH env) w) df = Raise IntegrityError).
  { unfold append_facts. rewrite Hfact, Hdecl, Hnat. reflexivity. }
  rewrite Hrefused in Hrun, Hfiles.
  exists w'. split; [exact Hrun |]. split; [exact Hfiles |]. split; [| exact Hcalls].
  unfold fact_rows, get_db. rewrite Hfiles. fold (get_db (DB_PATH env) w).
  rewrite Hfact. reflexivity.
Qed.

Lemma append_facts_again (d d' : database) (df : list (weather_rec (option Z))) :
  append_facts d df = Ok d' ->
  exists d'', append_facts d' df = Ok d''
              /\ dim_location d' = dim_location d
              /\ map snd match fact_weather d' with Some t => fw_rows t | None => [] end
                 = map snd match fact_weather d with Some t => fw_rows t | None => [] end
                   ++ df
              /\ map snd match fact_weather d'' with Some t => fw_rows t | None => [] end
                 = (map snd match fact_weather d with Some t => fw_rows t | None => [] end
                    ++ df) ++ df.
Proof.
  unfold append_facts. intros H.
  destruct (fact_weather d) as [t|] eqn:Et.
  - destruct (fw_declared t && has_nat df) eqn:Eb; [discriminate |].
    injection H as <-. cbn [fact_weather fw_declared fw_rows dim_location]. rewrite Eb.
    eexists. split; [reflexivity |]. cbn [fact_weather fw_rows].
    rewrite !map_app, !number_rows_snd. repeat split; reflexivity.
  - injection H as <-. cbn [fact_weather fw_declared fw_rows dim_location andb].
    eexists. split; [reflexivity |]. cbn [fact_weather fw_rows].
    rewrite !map_app, !number_rows_snd. repeat split; reflexivity.
Qed.

(** X15.  A cycle that succeeded with at least one fetched record, run
    again with the same answers from the API, succeeds again and appends
    the same observations a second time: nothing keeps a location's
    observation of one instant unique. *)
Theorem etl_once_again_stores_the_same_observations_again (env : Env) (w : world)
    (locations : list dim_row) :
  dim_location (get_db (DB_PATH env) w) = Some locations ->
  Exists (fun l => is_ok (fst (fetch_one_record env (to_loc_dict l) w)) = true) locations ->
  fst (etl_once env w) = Ok tt ->
  exists df,
    df <> []
    /\ map snd (fact_rows (DB_PATH env) (snd (etl_once env w)))
       = map snd (fact_rows (DB_PATH env) w) ++ df
    /\ fst (etl_once env (snd (etl_once env w))) = Ok tt
    /\ map snd (fact_rows (DB_PATH env) (snd (etl_once env (snd (etl_once env w)))))
       = (map snd (fact_rows (DB_PATH env) w) ++ df) ++ df.
Proof.
  intros Hdim Hex Hok.
  assert (Hrows : fetched env (map to_loc_dict locations) <> []).
  { clear Hdim Hok. induction Hex as [l ls Hl | l ls _ IH]; cbn [map fetched flat_map].
    - rewrite fetch_one_record_run in Hl. cbn [fst] in Hl.
      destruct (outcome env (to_loc_dict l)); [discriminate | discriminate Hl].
    - fold (fetched env (map to_loc_dict ls)). intros E.
      apply app_eq_nil in E as [_ E]. exact (IH E). }
  destruct (db_fault env (OpSelectLocations (DB_PATH env))) as [e|] eqn:Hsel.
  { rewrite (etl_once_listing_fault env w e Hsel) in Hok. discriminate Hok. }
  assert (Hlocs : exists l0 ls, map to_loc_dict locations = l0 :: ls).
  { destruct (map to_loc_dict locations) as [|l0 ls] eqn:E; [| eauto].
    exfalso. apply Hrows. reflexivity. }
  destruct Hlocs as (l0 & ls & Elocs).
  destruct (fetched env (map to_loc_dict locations)) as [|r0 rs] eqn:Erows; [congruence |].
  destruct (to_frame env (r0 :: rs)) as [df|e] eqn:Hdf.
  2:{ exfalso. revert Hok. unfold etl_once, try_except. unfold bind at 1.
      unfold read_locations, db_query. rewrite Hsel, Hdim, Elocs.
      unfold bind at 1. rewrite <- Elocs, etl_loop_run, Erows. cbn [app].
      unfold bind at 1. unfold lift. rewrite Hdf, alert_and_reraise_run. discriminate. }
  destruct (db_fault env (OpAppendFacts (DB_PATH env))) as [e|] eqn:Happ.
  { exfalso. revert Hok. unfold etl_once, try_except. unfold bind at 1.
    unfold read_locations, db_query. rewrite Hsel, Hdim, Elocs.
    unfold bind at 1. rewrite <- Elocs, etl_loop_run, Erows. cbn [app].
    unfold bind at 1. unfold lift. rewrite Hdf.
    unfold bind at 1. unfold engine_begin, to_sql. unfold bind at 1.
    rewrite emit_run. unfold db_exec. rewrite Happ, alert_and_reraise_run. discriminate. }
  rewrite <- Erows in Hdf, Hrows.
  destruct (etl_once_append env w locations df Hsel Happ Hdim Hrows Hdf)
    as (w1 & Hrun & Hfiles & _).
  destruct (append_facts (get_db (DB_PATH env) w) df) as [d'|e] eqn:Hd'.
  2:{ rewrite Hrun in Hok. discriminate Hok. }
  destruct (append_facts_again _ _ _ Hd') as (d'' & Hd'' & Hdim' & Hrows' & Hrows'').
  assert (Hdb1 : get_db (DB_PATH env) w1 = d').
  { unfold get_db. rewrite Hfiles, lookup_insert_eq. reflexivity. }
  rewrite Hrun. cbn [snd].
  assert (Hdim1 : dim_location (get_db (DB_PATH env) w1) = Some locations).
  { rewrite Hdb1, Hdim'. exact Hdim. }
  destruct (etl_once_append env w1 locations df Hsel Happ Hdim1 Hrows Hdf)
    as (w2 & Hrun2 & Hfiles2 & _).
  rewrite Hdb1, Hd'' in Hrun2, Hfiles2.
  assert (Hdb2 : get_db (DB_PATH env) w2 = d'').
  { unfold get_db. rewrite Hfiles2, lookup_insert_eq. reflexivity. }
  exists df. split.
  { intros ->. rewrite Erows in Hdf. cbn in Hdf.
    destruct (pd_to_datetime env (obs_ts r0)); cbn in Hdf; [| discriminate].
    destruct (mapM_result _ rs); discriminate. }
  rewrite Hrun2. cbn [fst snd]. unfold fact_rows. rewrite Hdb1, Hdb2.
  split; [exact Hrows' |]. split; [reflexivity | exact Hrows''].
Qed.

(** *** The fetcher: the other failures *)

(** X16.  [fetch_one_record] sends exactly one request, whatever the
    answer, and changes nothing else; the error of a request that got no
    answer, and the decoding error of a body that is not JSON, reach the
    caller as they are. *)
Theorem fetch_one_record_asks_once_and_passes_failures_on (env : Env)
    (location_row : loc_dict) (w : world) :
  (forall e,
      http_get env (row_lat location_row) (row_lon location_row) = NoReply e ->
      fst (fetch_one_record env location_row w) = Raise e)
  /\ (forall status,
         http_get env (row_lat location_row) (row_lon location_row) = Reply status None ->
         ~ error_status status ->
         fst (fetch_one_record env location_row w) = Raise JSONDecodeError)
  /\ snd (fetch_one_record env location_row w)
     = add_events w [EvHttpGet (row_lat location_row) (row_lon location_row)].
Proof.
  rewrite fetch_one_record_run. cbn [fst snd].
  split; [| split; [| reflexivity]].
  - intros e H. unfold outcome, fetch_one_record, requests_get, bind, emit, raise.
    cbn [fst snd]. rewrite H. reflexivity.
  - intros status H Hs. unfold outcome, fetch_one_record, requests_get, bind, emit, ret, lift.
    cbn [fst snd]. rewrite H. cbn [fst snd].
    replace (raise_for_status status) with (@Ok unit tt); [reflexivity |].
    unfold raise_for_status, error_status in *.
    destruct (400 <=? status) eqn:E1; [| reflexivity].
    destruct (status <? 600) eqn:E2; [| reflexivity].
    apply Z.leb_le in E1. apply Z.ltb_lt in E2. lia.
Qed.

Lemma weather_rec_eq (r r' : weather_rec json) :
  location_id r = location_id r' -> flat_fields r = flat_fields r' -> r = r'.
Proof.
  destruct r, r'. cbn. intros -> H. injection H as -> -> -> -> -> -> -> -> ->.
  reflexivity.
Qed.

Lemma flatten_same_fields (row : loc_dict) (data data' : json) (fields : list json) :
  map (fun p => lookup_path p data) expected_fields = map Some fields ->
  map (fun p => lookup_path p data') expected_fields = map Some fields ->
  flatten row data = flatten row data'.
Proof.
  intros H H'.
  destruct (flatten_present row data fields H) as (r & Hr & Hl & Hf).
  destruct (flatten_present row data' fields H') as (r' & Hr' & Hl' & Hf').
  rewrite Hr, Hr'. f_equal. apply weather_rec_eq; congruence.
Qed.

(** X17.  The record [fetch_one_record] returns depends on the location
    and the nine fields it reads only: two accepted answers, of any status
    and with anything else in their bodies, that agree on the nine fields
    give the same record. *)
Theorem fetch_one_record_reads_only_the_expected_fields (env env' : Env)
    (location_row : loc_dict) (w w' : world) (status status' : Z) (data data' : json)
    (fields : list json) :
  http_get env (row_lat location_row) (row_lon location_row) = Reply status (Some data) ->
  http_get env' (row_lat location_row) (row_lon location_row)
  = Reply status' (Some data') ->
  ~ error_status status -> ~ error_status status' ->
  map (fun p => lookup_path p data) expected_fields = map Some fields ->
  map (fun p => lookup_path p data') expected_fields = map Some fields ->
  fst (fetch_one_record env location_row w) = fst (fetch_one_record env' location_row w')
  /\ is_ok (fst (fetch_one_record env location_row w)) = true.
Proof.
  intros H H' Hs Hs' Hf Hf'.
  assert (Hok : forall s, ~ error_status s -> raise_for_status s = Ok tt).
  { intros s Hn. unfold raise_for_status, error_status in *.
    destruct (400 <=? s) eqn:E1; [| reflexivity].
    destruct (s <? 600) eqn:E2; [| reflexivity].
    apply Z.leb_le in E1. apply Z.ltb_lt in E2. lia. }
  assert (Hrun : forall e s d, http_get e (row_lat location_row) (row_lon location_row)
                               = Reply s (Some d) ->
                               ~ error_status s ->
                               forall w0, fst (fetch_one_record e location_row w0)
                                          = flatten location_row d).
  { intros e s d He Hn w0. rewrite fetch_one_record_run. cbn [fst].
    unfold outcome, fetch_one_record, requests_get, bind, emit, ret, lift.
    cbn [fst snd]. rewrite He. cbn [fst snd]. rewrite (Hok s Hn). reflexivity. }
  rewrite (Hrun env status data H Hs w), (Hrun env' status' data' H' Hs' w').
  split; [apply (flatten_same_fields _ _ _ fields); assumption |].
  destruct (flatten_present location_row data fields Hf) as (r & Hr & _). rewrite Hr.
  reflexivity.
Qed.

(** *** Start-up *)

Lemma truthy_Some (v : option string) :
  truthy v = true -> exists s, v = Some s /\ s <> EmptyString.
Proof.
  destruct v as [s|]; [| discriminate]. cbn. intros H. exists s. split; [reflexivity |].
  intros ->. discriminate H.
Qed.

(** X18.  The module-level checks let the script start only with all six
    settings present and non-empty, and then [SMTP_PORT] is 587 unless set;
    one missing or empty setting stops it; with the six in place and no
    [SMTP_PORT] it starts; a [SMTP_PORT] that is not a number stops it with
    [ValueError], before any setting is checked. *)
Theorem load_config_needs_every_setting (py_int : string -> option Z)
    (environ : gmap string string) :
  (forall c,
      load_config py_int environ = inr c ->
      environ !! "OWM_API_KEY" = Some (API_KEY c) /\ API_KEY c <> EmptyString
      /\ environ !! "DB_URL" = Some (DB_URL c) /\ DB_URL c <> EmptyString
      /\ environ !! "SMTP_SERVER" = Some (SMTP_SERVER c) /\ SMTP_SERVER c <> EmptyString
      /\ environ !! "EMAIL_SENDER" = Some (EMAIL_SENDER c) /\ EMAIL_SENDER c <> EmptyString
      /\ environ !! "EMAIL_PASSWORD" = Some (EMAIL_PASSWORD c) /\ EMAIL_PASSWORD c <> EmptyString
      /\ environ !! "EMAIL_RECIPIENT" = Some (EMAIL_RECIPIENT c)
      /\ EMAIL_RECIPIENT c <> EmptyString
      /\ (environ !! "SMTP_PORT" = None -> SMTP_PORT c = 587))
  /\ (forall name,
         In name required_settings ->
         truthy (environ !! name) = false ->
         exists err, load_config py_int environ = inl err)
  /\ (Forall (fun name => truthy (environ !! name) = true) required_settings ->
      environ !! "SMTP_PORT" = None ->
      exists c, load_config py_int environ = inr c)
  /\ (forall s,
         environ !! "SMTP_PORT" = Some s ->
         py_int s = None ->
         load_config py_int environ = inl ValueError).
Proof.
  unfold load_config, getenv. split; [| split; [| split]]; cycle 3.
  { intros s -> ->. reflexivity. }
  - intros c H.
    destruct (match environ !! "SMTP_PORT" with Some s => py_int s | None => Some 587 end)
      as [port|] eqn:Eport; [| discriminate].
    destruct (truthy (environ !! "OWM_API_KEY")) eqn:E1; cbn [negb] in H; [| discriminate].
    destruct (truthy (environ !! "DB_URL")) eqn:E2; cbn [negb] in H; [| discriminate].
    destruct (truthy (environ !! "SMTP_SERVER")) eqn:E3; cbn [negb andb] in H;
      [| discriminate].
    destruct (truthy (environ !! "EMAIL_SENDER")) eqn:E4; cbn [negb andb] in H;
      [| discriminate].
    destruct (truthy (environ !! "EMAIL_PASSWORD")) eqn:E5; cbn [negb andb] in H;
      [| discriminate].
    destruct (truthy (environ !! "EMAIL_RECIPIENT")) eqn:E6; cbn [negb andb] in H;
      [| discriminate].
    injection H as <-. cbn.
    apply truthy_Some in E1 as (s1 & -> & N1). apply truthy_Some in E2 as (s2 & -> & N2).
    apply truthy_Some in E3 as (s3 & -> & N3). apply truthy_Some in E4 as (s4 & -> & N4).
    apply truthy_Some in E5 as (s5 & -> & N5). apply truthy_Some in E6 as (s6 & -> & N6).
    cbn. repeat (split; [first [reflexivity | assumption] |]).
    intros Hp. rewrite Hp in Eport. injection Eport as <-. reflexivity.
  - intros name Hin Hmissing.
    destruct (match environ !! "SMTP_PORT" with Some s => py_int s | None => Some 587 end);
      [| eexists; reflexivity].
    unfold required_settings in Hin.
    destruct (truthy (environ !! "OWM_API_KEY")) eqn:E1; [| eexists; reflexivity].
    destruct (truthy (environ !! "DB_URL")) eqn:E2; [| eexists; reflexivity].
    destruct (truthy (environ !! "SMTP_SERVER")) eqn:E3; [| eexists; reflexivity].
    destruct (truthy (environ !! "EMAIL_SENDER")) eqn:E4; [| eexists; reflexivity].
    destruct (truthy (environ !! "EMAIL_PASSWORD")) eqn:E5; [| eexists; reflexivity].
    destruct (truthy (environ !! "EMAIL_RECIPIENT")) eqn:E6; [| eexists; reflexivity].
    exfalso.
    repeat (destruct Hin as [<- | Hin]; [congruence |]). destruct Hin.
  - intros Hall Hp. rewrite Hp. unfold required_settings in Hall.
    repeat match goal with
           | H : Forall _ (_ :: _) |- _ =>
               let H1 := fresh "T" in
               apply List.Forall_cons_iff in H; destruct H as [H1 H]
           end.
    rewrite T, T0, T1, T2, T3, T4. eexists. reflexivity.
Qed.

(** *** The dashboard: the file it opens *)

Lemma replace_from_absent (old new s : string) :
  DashboardData.occurs old s = false -> DashboardData.replace_from 0 old new s = s.
Proof.
  induction s as [|c s IH]; [reflexivity |].
  cbn [DashboardData.occurs DashboardData.replace_from]. intros H.
  apply orb_false_iff in H as [H1 H2]. rewrite H1, (IH H2). reflexivity.
Qed.

Lemma prefix_append (s p : string) : String.prefix s (s +:+ p) = true.
Proof.
  induction s as [|c s IH]; [destruct p; reflexivity |].
  change (String c s +:+ p) with (String c (s +:+ p)). cbn [String.prefix].
  destruct (Ascii.ascii_dec c c); [exact IH | contradiction].
Qed.

Lemma replace_from_skip (old new s p : string) :
  DashboardData.replace_from (String.length s) old new (s +:+ p)
  = DashboardData.replace_from 0 old new p.
Proof.
  induction s as [|c s IH]; [reflexivity |].
  change (String c s +:+ p) with (String c (s +:+ p)).
  cbn [String.length DashboardData.replace_from]. exact IH.
Qed.

(** A leading occurrence is replaced and the scan goes on behind it. *)
Lemma replace_prefix (c : Ascii.ascii) (old' new p : string) :
  DashboardData.replace (String c old') new (String c old' +:+ p)
  = new +:+ DashboardData.replace (String c old') new p.
Proof.
  unfold DashboardData.replace.
  change (String c old' +:+ p) with (String c (old' +:+ p)) at 1.
  cbn [DashboardData.replace_from].
  change (String c (old' +:+ p)) with (String c old' +:+ p).
  rewrite prefix_append. cbn [String.length]. rewrite Nat.sub_succ, Nat.sub_0_r.
  rewrite replace_from_skip. reflexivity.
Qed.

(** X19.  The dashboard opens [weather.db] when [DB_URL] is unset, the
    value of [DB_URL] as it is when it does not start with [sqlite:///],
    and otherwise the rest of the value with every further [sqlite:///]
    taken out of it as well, which is the rest itself when it holds none. *)
Theorem db_path_strips_the_scheme (environ : gmap string string) :
  (environ !! "DB_URL" = None -> DashboardData.db_path environ = "weather.db")
  /\ (forall url,
         environ !! "DB_URL" = Some url ->
         String.prefix "sqlite:///" url = false ->
         DashboardData.db_path environ = url)
  /\ (forall p,
         environ !! "DB_URL" = Some ("sqlite:///" +:+ p) ->
         DashboardData.db_path environ = DashboardData.replace "sqlite:///" EmptyString p
         /\ (DashboardData.occurs "sqlite:///" p = false ->
             DashboardData.db_path environ = p)).
Proof.
  unfold DashboardData.db_path. split; [| split].
  - intros ->. reflexivity.
  - intros url -> H. cbn [default]. unfold id. rewrite H. reflexivity.
  - intros p ->. cbn [default]. unfold id. rewrite prefix_append.
    assert (E : DashboardData.replace "sqlite:///" EmptyString ("sqlite:///" +:+ p)
                = DashboardData.replace "sqlite:///" EmptyString p).
    { apply (replace_prefix _ "qlite:///" EmptyString p). }
    rewrite E. split; [reflexivity |].
    intros H. apply replace_from_absent. exact H.
Qed.

(** *** The dashboard: the join *)

Lemma filter_unique_id (rows : list dim_row) (i : Z) :
  NoDup (map dl_location_id rows) ->
  In i (map dl_location_id rows) ->
  exists l, List.filter (fun l => dl_location_id l =? i) rows = [l]
            /\ In l rows /\ dl_location_id l = i.
Proof.
  induction rows as [|r rows IH]; intros Hnd Hin; [destruct Hin |].
  cbn [map] in Hnd. inversion Hnd as [|x xs Hnotin Hnd']; subst.
  cbn [List.filter]. destruct (Z.eqb_spec (dl_location_id r) i) as [E | E].
  - exists r. split; [| split; [left; reflexivity | exact E]].
    f_equal. clear IH Hin Hnd Hnd'.
    assert (Hno : forall l, In l rows -> dl_location_id l <> i).
    { intros l Hl El. apply Hnotin. rewrite E, <- El.
      apply list_elem_of_In, in_map. exact Hl. }
    clear Hnotin. induction rows as [|r' rows IH]; [reflexivity |].
    cbn [List.filter]. destruct (Z.eqb_spec (dl_location_id r') i) as [E' | E'].
    + exfalso. exact (Hno r' (or_introl eq_refl) E').
    + apply IH. intros l Hl. apply Hno. right. exact Hl.
  - destruct Hin as [Hin | Hin]; [contradiction |].
    destruct (IH Hnd' Hin) as (l & Hf & Hl & Hi).
    exists l. split; [exact Hf |]. split; [right; exact Hl | exact Hi].
Qed.

(** On a consistent database the join pairs every observation with exactly
    one location, its own. *)
Lemma join_consistent (d : database) (rows : list dim_row) (t : fact_table) :
  consistent d ->
  dim_location d = Some rows ->
  fact_weather d = Some t ->
  map fst (DashboardData.join (fw_rows t) rows) = fw_rows t
  /\ Forall (fun m => In (snd m) rows
                      /\ dl_location_id (snd m) = location_id (snd (fst m)))
            (DashboardData.join (fw_rows t) rows).
Proof.
  intros (Hdim & _ & Href) Hrows Ht.
  unfold dim_ids in Hdim, Href. unfold fact_locations in Href.
  rewrite Hrows in Hdim, Href. rewrite Ht in Href. unfold DashboardData.join.
  induction (fw_rows t) as [|f fs IH]; [split; [reflexivity | constructor] |].
  cbn [flat_map].
  destruct (filter_unique_id rows (location_id (snd f)) Hdim) as (l & Hf & Hl & Hi).
  { apply Href. left. reflexivity. }
  destruct IH as [IH1 IH2]; [intros i Hin; apply Href; right; exact Hin |].
  rewrite Hf. cbn [map app]. split.
  - rewrite IH1. reflexivity.
  - constructor; [split; [exact Hl | exact Hi] | exact IH2].
Qed.

(** The frame without its times is the join in the order SQLite gave it. *)
Lemma load_data_uncached_untimed (rd : DashboardData.reader) (d : database)
    (rows : list dim_row) (t : fact_table) :
  dim_location d = Some rows ->
  fact_weather d = Some t ->
  exists df,
    DashboardData.load_data_uncached rd d = Some df
    /\ map DashboardData.untimed df
       = map (fun m => DashboardData.joined None (snd (fst m)) (snd m))
             (DashboardData.sql_order rd (DashboardData.join (fw_rows t) rows)).
Proof.
  intros Hrows Ht. unfold DashboardData.load_data_uncached. rewrite Hrows, Ht.
  eexists. split; [reflexivity |]. cbv zeta. rewrite map_map. reflexivity.
Qed.

Lemma length_map_fst {A B} (l : list (A * B)) : length (map fst l) = length l.
Proof. apply length_map. Qed.

(** X20.  On a database with unique location keys in which every
    observation belongs to a listed location, and whatever order the join
    comes back in and whatever time pandas reads back, the body of
    [load_data] returns one row per stored observation: apart from the
    times, the frame is a rearrangement of the observations, each with its
    measured values and the city of its own location. *)
Theorem load_data_shows_each_observation_once (rd : DashboardData.reader) (d : database)
    (rows : list dim_row) (t : fact_table) :
  (forall l, Permutation (DashboardData.sql_order rd l) l) ->
  consistent d ->
  dim_location d = Some rows ->
  fact_weather d = Some t ->
  exists df,
    DashboardData.load_data_uncached rd d = Some df
    /\ length df = length (fw_rows t)
    /\ map fst (DashboardData.join (fw_rows t) rows) = fw_rows t
    /\ Forall (fun m => In (snd m) rows
                        /\ dl_location_id (snd m) = location_id (snd (fst m)))
              (DashboardData.join (fw_rows t) rows)
    /\ Permutation (map DashboardData.untimed df)
                   (map (fun m => DashboardData.joined None (snd (fst m)) (snd m))
                        (DashboardData.join (fw_rows t) rows)).
Proof.
  intros Hperm Hc Hrows Ht.
  destruct (join_consistent d rows t Hc Hrows Ht) as [Hfst Hall].
  destruct (load_data_uncached_untimed rd d rows t Hrows Ht) as (df & Hload & Hdf).
  exists df. split; [exact Hload |].
  assert (Huntimed : Permutation (map DashboardData.untimed df)
                       (map (fun m => DashboardData.joined None (snd (fst m)) (snd m))
                            (DashboardData.join (fw_rows t) rows))).
  { rewrite Hdf. apply Permutation_map, Hperm. }
  split; [| split; [exact Hfst | split; [exact Hall | exact Huntimed]]].
  apply Permutation_length in Huntimed.
  etransitivity; [symmetry; apply (length_map DashboardData.untimed) |].
  etransitivity; [exact Huntimed |].
  etransitivity; [apply length_map |].
  etransitivity; [symmetry; apply length_map_fst |].
  exact (f_equal (@length fact_row) Hfst).
Qed.

(** X21.  After the [__main__] block or a cycle, started from consistent
    database files, a first [load_data] on a file with both tables returns
    one row per stored observation, each under a city of [dim_location], and
    keeps that frame in the cache; every later call in the same server
    process returns that frame again, whatever the pipeline has stored
    since. *)
Theorem dashboard_lists_what_the_pipeline_stored (env : Env) (rd : DashboardData.reader)
    (w : world) (p : string) :
  (forall l, Permutation (DashboardData.sql_order rd l) l) ->
  all_consistent w ->
  forall w',
    w' = snd (main env w) \/ w' = snd (etl_once env w) ->
    forall rows t,
      dim_location (get_db p w') = Some rows ->
      fact_weather (get_db p w') = Some t ->
      exists df,
        DashboardData.load_data rd None (get_db p w') = (Some df, Some df)
        /\ length df = length (fw_rows t)
        /\ Forall (fun r => In (Dashboard.city_name r) (map dl_city_name rows)) df
        /\ forall w'',
             DashboardData.load_data rd
               (snd (DashboardData.load_data rd None (get_db p w'))) (get_db p w'')
             = (Some df, Some df).
Proof.
  intros Hperm H w' Hw' rows t Hrows Ht.
  assert (Hc : consistent (get_db p w')).
  { apply consistent_get_db.
    destruct Hw' as [-> | ->]; [apply main_consistent | apply etl_once_consistent]; exact H. }
  destruct (join_consistent _ rows t Hc Hrows Ht) as [Hfst Hall].
  destruct (load_data_uncached_untimed rd _ rows t Hrows Ht) as (df & Hload & Hdf).
  assert (Hfirst : DashboardData.load_data rd None (get_db p w') = (Some df, Some df)).
  { unfold DashboardData.load_data. rewrite Hload. reflexivity. }
  exists df. split; [exact Hfirst |].
  assert (Hlen : length df = length (fw_rows t)).
  { etransitivity; [symmetry; apply (length_map DashboardData.untimed) |].
    rewrite Hdf.
    etransitivity; [apply length_map |].
    etransitivity; [apply (Permutation_length (Hperm _)) |].
    etransitivity; [symmetry; apply length_map_fst |].
    exact (f_equal (@length fact_row) Hfst). }
  split; [exact Hlen |]. split.
  - assert (Hcities : Forall (fun r => In (Dashboard.city_name r) (map dl_city_name rows))
                             (map DashboardData.untimed df)).
    { rewrite Hdf. apply List.Forall_forall. intros r Hr.
      apply in_map_iff in Hr as (m & <- & Hm).
      apply (Permutation_in _ (Hperm _)) in Hm.
      rewrite List.Forall_forall in Hall. destruct (Hall m Hm) as [Hin _].
      cbn. apply in_map. exact Hin. }
    clear -Hcities. induction df as [|r df IH]; [constructor |].
    cbn [map] in Hcities. inversion Hcities as [| ? ? Hr Hrest]; subst.
    constructor; [exact Hr | apply IH; exact Hrest].
  - intros w''. rewrite Hfirst. reflexivity.
Qed.

(** *** The dashboard: the filters as they start *)

Lemma fold_min_le (t : Z) (ts : list Z) (x : Z) :
  In x (t :: ts) -> fold_right Z.min t ts <= x.
Proof.
  induction ts as [|y ts IH]; cbn [fold_right].
  - intros [<- | []]. lia.
  - intros [<- | [<- | Hin]].
    + specialize (IH (or_introl eq_refl)). lia.
    + lia.
    + specialize (IH (or_intror Hin)). lia.
Qed.

Lemma instants_In (df : list Dashboard.row) (r : Dashboard.row) (t : Z) :
  In r df -> Dashboard.obs_ts r = Some t -> In t (DashboardData.instants df).
Proof.
  intros Hin Ht. unfold DashboardData.instants. apply in_flat_map.
  exists r. split; [exact Hin |]. rewrite Ht. left. reflexivity.
Qed.

Lemma filter_cities_all (df : list Dashboard.row) :
  Dashboard.filter_cities (Dashboard.cities df) df = df.
Proof.
  unfold Dashboard.filter_cities.
  destruct (Dashboard.cities df) as [|c cs] eqn:E; [reflexivity |]. rewrite <- E.
  clear E. 
  assert (H : forall r, In r df ->
                        Dashboard.isin (Dashboard.cities df) (Dashboard.city_name r) = true).
  { intros r Hr. apply isin_In. unfold Dashboard.cities. apply unique_In, in_map. exact Hr. }
  revert H. generalize (Dashboard.cities df) as sel. intros sel H.
  induction df as [|r df IH]; [reflexivity |].
  cbn [List.filter]. rewrite (H r (or_introl eq_refl)). f_equal.
  apply IH. intros r' Hr'. apply H. right. exact Hr'.
Qed.

(** X22.  With the filters as the sidebar sets them at first (every city,
    first to last day of the data), the city filter and the start of the
    range drop no row with a time, and the end of the range is 00:00 UTC of
    the last day: a row is shown exactly when it lies before the last day
    or at its midnight, and the last day is the day of some row. *)
Theorem first_view_stops_at_midnight_of_the_last_day (df_weather : list Dashboard.row)
    (selected_cities : list string) (start_date end_date : Z) :
  DashboardData.sidebar_defaults df_weather = Some (selected_cities, start_date, end_date) ->
  Dashboard.df_filtered selected_cities start_date end_date df_weather
  = List.filter (fun r => Dashboard.index_le (Dashboard.obs_ts r) (end_date * 86400))
                df_weather
  /\ (forall r t,
         In r df_weather ->
         Dashboard.obs_ts r = Some t ->
         (In r (Dashboard.df_filtered selected_cities start_date end_date df_weather)
          <-> DashboardData.date t < end_date \/ t = end_date * 86400))
  /\ (exists r t, In r df_weather /\ Dashboard.obs_ts r = Some t
                  /\ DashboardData.date t = end_date).
Proof.
  unfold DashboardData.sidebar_defaults, DashboardData.min_date, DashboardData.max_date,
    DashboardData.index_min, DashboardData.index_max.
  destruct (DashboardData.instants df_weather) as [|t0 ts] eqn:Ei; [discriminate |].
  cbn [option_map]. intros H. injection H as <- <- <-.
  assert (Hfirst :
    Dashboard.df_filtered (Dashboard.cities df_weather)
      (DashboardData.date (fold_right Z.min t0 ts))
      (DashboardData.date (fold_right Z.max t0 ts)) df_weather
    = List.filter (fun r => Dashboard.index_le (Dashboard.obs_ts r)
                              (DashboardData.date (fold_right Z.max t0 ts) * 86400))
                  df_weather).
  { unfold Dashboard.df_filtered. rewrite filter_cities_all.
    apply filter_eq_on. intros r Hr. unfold Dashboard.to_utc_timestamp.
    destruct (Dashboard.obs_ts r) as [t|] eqn:Et; [| reflexivity].
    cbn [Dashboard.index_ge].
    replace (DashboardData.date (fold_right Z.min t0 ts) * 86400 <=? t) with true;
      [reflexivity |].
    symmetry. apply Z.leb_le.
    pose proof (instants_In df_weather r t Hr Et) as Hin. rewrite Ei in Hin.
    pose proof (fold_min_le t0 ts t Hin) as Hle.
    unfold DashboardData.date.
    pose proof (Z.mul_div_le (fold_right Z.min t0 ts) 86400 ltac:(lia)). lia. }
  split; [exact Hfirst |]. split.
  - intros r t Hr Et. rewrite Hfirst, filter_In, Et. cbn [Dashboard.index_le].
    rewrite Z.leb_le. unfold DashboardData.date.
    generalize (fold_right Z.max t0 ts / 86400). intros hi.
    pose proof (Z.div_mod t 86400 ltac:(lia)) as Hdm.
    pose proof (Z.mod_pos_bound t 86400 ltac:(lia)) as Hb.
    split.
    + intros [_ Hle]. destruct (Z.eq_dec t (hi * 86400)); [right; assumption | left]. nia.
    + intros [Hlt | ->]; (split; [exact Hr |]); nia.
  - assert (Hmax : In (fold_right Z.max t0 ts) (t0 :: ts)).
    { clear. induction ts as [|y ts IH]; [left; reflexivity |].
      cbn [fold_right]. destruct (Z.max_spec y (fold_right Z.max t0 ts)) as [[_ ->] | [_ ->]].
      - destruct IH as [IH | IH]; [left; exact IH | right; right; exact IH].
      - right. left. reflexivity. }
    rewrite <- Ei in Hmax. unfold DashboardData.instants in Hmax.
    apply in_flat_map in Hmax as (r & Hr & Hin).
    destruct (Dashboard.obs_ts r) as [t|] eqn:Et; [| destruct Hin].
    destruct Hin as [<- | []]. exists r, t. split; [exact Hr |]. split; [exact Et | reflexivity].
Qed.

(** *** The dashboard: the notice *)

(** X23.  The page shows the "no data" notice exactly when the filtered
    frame is empty and one of Statistics, Correlation and Visualizations is
    enabled; with any row left it never shows it. *)
Theorem notice_is_shown_exactly_for_an_empty_result (s : Dashboard.sections)
    (selected_cities : list string) (start_date end_date : Z)
    (df_weather : list Dashboard.row) :
  Dashboard.shows_no_data
    (Dashboard.page s selected_cities start_date end_date df_weather)
  = Dashboard.empty
      (Dashboard.df_filtered selected_cities start_date end_date df_weather)
    && (Dashboard.section_stats s || Dashboard.section_corr s || Dashboard.section_viz s).
Proof.
  unfold Dashboard.page.
  destruct (Dashboard.df_filtered selected_cities start_date end_date df_weather)
    as [|r df]; destruct s as [[] [] [] []]; reflexivity.
Qed.

(** ** Instances of the further properties *)

(** Another file than the two the pipeline opens stays as it is. *)
Lemma a_third_file_is_left_alone :
  files (snd (recreate_tables env_elsewhere w_seeded)) !! "weather.db"
  = files w_seeded !! "weather.db"
  /\ files (snd (insert_backdated_snapshots env_elsewhere 25 w_seeded)) !! "data/etl.db"
     = files w_seeded !! "data/etl.db".
Proof.
  split.
  - apply (proj1 (stages_touch_one_file_each env_elsewhere "weather.db" w_seeded)).
    discriminate.
  - apply (proj2 (stages_touch_one_file_each env_elsewhere "data/etl.db" w_seeded)).
    discriminate.
Defined.

(** [DB_URL] names [data/etl.db]: the run ends in the back-date step, which
    looks for the locations in [weather.db]. *)
Lemma main_with_the_database_elsewhere :
  exists w',
    main env_elsewhere w_empty = (Raise (no_such_table "dim_location"), w')
    /\ length (dim_rows "data/etl.db" w') = 3%nat
    /\ fact_rows "data/etl.db" w' = []
    /\ http_calls (trace w') = [].
Proof.
  destruct (main_stops_at_the_backdate_step_for_another_database env_elsewhere w_empty)
    as (w' & Hrun & Hdim & Hfacts & _ & Hhttp & _).
  - intros op. reflexivity.
  - discriminate.
  - reflexivity.
  - exists w'. split; [exact Hrun |]. split; [| split; [exact Hfacts | exact Hhttp]].
    change (length (dim_rows (DB_PATH env_elsewhere) w') = 3%nat).
    rewrite <- (length_map (fun r => (dl_lat r, dl_lon r, dl_city_name r, dl_country r))).
    rewrite Hdim. reflexivity.
Defined.

(** [DB_URL] names [data/etl.db].  On an empty disk the load fails and the
    configured fact table is empty; with a seeded [weather.db] left from
    earlier the load succeeds, the 75 rows go there, and the configured
    fact table is empty all the same. *)
Lemma initial_load_with_the_database_elsewhere :
  fst (initial_load env_elsewhere w_empty) = Raise (no_such_table "dim_location")
  /\ fact_rows "data/etl.db" (snd (initial_load env_elsewhere w_empty)) = []
  /\ fst (initial_load env_elsewhere w_seeded) = Ok tt
  /\ fact_rows "data/etl.db" (snd (initial_load env_elsewhere w_seeded)) = []
  /\ length (fact_rows "weather.db" (snd (initial_load env_elsewhere w_seeded))) = 75%nat.
Proof.
  assert (Hnf : no_db_fault env_elsewhere) by (intros op; reflexivity).
  assert (Hpath : DB_PATH env_elsewhere <> "weather.db") by discriminate.
  destruct (initial_load_fills_weather_db_only env_elsewhere w_empty Hnf Hpath)
    as (Hempty & _ & Hraise).
  destruct (initial_load_fills_weather_db_only env_elsewhere w_seeded Hnf Hpath)
    as (Hstale & _ & _).
  split; [apply Hraise; reflexivity |].
  split; [exact Hempty |].
  split; [vm_compute; reflexivity |].
  split; [exact Hstale |].
  vm_compute. reflexivity.
Defined.

Lemma all_consistent_w_seeded : all_consistent w_seeded.
Proof.
  intros p d H. unfold w_seeded in H. cbn [files] in H.
  apply lookup_singleton_Some in H as [_ <-].
  split; [| split].
  - cbn. repeat (apply NoDup_cons_2; [intros H; apply list_elem_of_In in H; cbn in H; lia |]).
    apply NoDup_nil_2.
  - apply NoDup_nil_2.
  - intros i [].
Qed.

(** The seeded database stays consistent through a whole run. *)
Lemma seeded_database_stays_consistent :
  all_consistent (snd (main env_ok w_seeded))
  /\ all_consistent (snd (etl_once env_london_down w_seeded)).
Proof.
  split.
  - apply (pipeline_keeps_keys_unique_and_references_valid env_ok w_seeded).
    exact all_consistent_w_seeded.
  - apply (pipeline_keeps_keys_unique_and_references_valid env_london_down w_seeded).
    exact all_consistent_w_seeded.
Defined.

(** The seeded cities are gone after the tables were recreated. *)
Lemma recreate_tables_on_the_seeded_database :
  fst (recreate_tables env_ok w_seeded) = Ok tt
  /\ dim_rows "weather.db" (snd (recreate_tables env_ok w_seeded)) = []
  /\ dim_location (get_db "weather.db" (snd (recreate_tables env_ok w_seeded))) = Some [].
Proof.
  destruct (recreate_tables_empties_or_removes_the_tables env_ok w_seeded
              eq_refl eq_refl) as (Hrun & Hdim & _).
  split; [rewrite Hrun; reflexivity |].
  split; [| exact Hdim].
  unfold dim_rows. change "weather.db" with (DB_PATH env_ok). rewrite Hdim. reflexivity.
Defined.

(** The back-date step right after [recreate_tables]. *)
Lemma backdate_on_a_fresh_schema :
  insert_backdated_snapshots env_ok 25 w_fresh
  = (Ok tt, add_events w_fresh [EvPrint LogNoCitiesBackdate]).
Proof.
  apply (backdate_without_locations env_ok 25 w_fresh); reflexivity.
Defined.

(** London answers 500: New York is never asked. *)
Lemma backdate_with_london_down_skips_new_york :
  exists w',
    insert_backdated_snapshots env_london_down 25 w_seeded = (Raise (HTTPError 500), w')
    /\ http_calls (trace w') = requests_for [bengaluru; london].
Proof.
  destruct (backdate_stops_at_the_first_failing_location env_london_down 25 w_seeded
              [dim_bengaluru] [dim_new_york] dim_london (HTTPError 500))
    as (w' & Hrun & _ & Hhttp & _).
  - reflexivity.
  - reflexivity.
  - constructor; [reflexivity | constructor].
  - reflexivity.
  - exists w'. split; [exact Hrun | exact Hhttp].
Defined.

(** London's answer has [null] for [dt]. *)
Lemma backdate_with_a_null_report_time :
  exists w',
    insert_backdated_snapshots env_london_without_time 25 w_seeded = (Raise TypeError, w')
    /\ files w' = files w_seeded.
Proof.
  destruct (backdate_rejects_a_report_time_that_is_not_a_number env_london_without_time 25
              w_seeded [dim_bengaluru] [dim_new_york] dim_london (record_without_time 2))
    as (w' & Hrun & Hfiles & _).
  - reflexivity.
  - reflexivity.
  - constructor; [reflexivity | constructor].
  - reflexivity.
  - reflexivity.
  - lia.
  - exists w'. split; [exact Hrun | exact Hfiles].
Defined.

(** Zero hours: three requests, then the missing column. *)
Lemma backdate_of_zero_hours :
  exists w',
    insert_backdated_snapshots env_ok 0 w_seeded = (Raise (KeyError "obs_ts"), w')
    /\ length (http_calls (trace w')) = 3%nat
    /\ files w' = files w_seeded.
Proof.
  destruct (backdate_of_no_hours_fails_after_fetching env_ok 0 w_seeded three_cities)
    as (w' & Hrun & Hfiles & Hhttp & _).
  - lia.
  - reflexivity.
  - reflexivity.
  - discriminate.
  - repeat constructor.
  - exists w'. split; [exact Hrun |]. split; [| exact Hfiles].
    rewrite Hhttp. reflexivity.
Defined.

(** Two hours for three cities: six rows in one append. *)
Lemma backdate_of_two_hours :
  exists w' df,
    insert_backdated_snapshots env_ok 2 w_seeded = (Ok tt, w')
    /\ map snd (fact_rows "weather.db" w') = df
    /\ length df = 6%nat
    /\ to_sql_calls (trace w') = [df].
Proof.
  destruct (backdate_writes_hours_rows_per_location env_ok 2 w_seeded three_cities)
    as (w' & df & Hrun & Hrows & Hlen & _ & Hsql).
  - reflexivity.
  - reflexivity.
  - reflexivity.
  - discriminate.
  - lia.
  - repeat constructor; eexists; eexists; split; reflexivity.
  - vm_compute. repeat constructor; eexists; reflexivity.
  - exists w', df. split; [exact Hrun |]. split; [exact Hrows |].
    split; [exact Hlen | exact Hsql].
Defined.

(** London answers 500: three requests, one fetch error. *)
Lemma etl_once_with_london_down_asks_three_times :
  http_calls (trace (snd (etl_once env_london_down w_seeded)))
  = requests_for [bengaluru; london; new_york]
  /\ fetch_errors (trace (snd (etl_once env_london_down w_seeded)))
     = [(2, HTTPError 500)].
Proof.
  destruct (etl_once_asks_for_each_location_once env_london_down w_seeded three_cities)
    as [Hhttp Herr]; [reflexivity | reflexivity |].
  split; [exact Hhttp | exact Herr].
Defined.

(** A locked database, and a disk without the database. *)
Lemma etl_once_with_no_listing :
  fst (etl_once env_no_listing w_seeded) = Raise (OperationalError "database is locked")
  /\ fst (etl_once env_ok w_empty) = Raise (no_such_table "dim_location").
Proof.
  split.
  - rewrite (proj1 (etl_once_without_a_listing env_no_listing w_seeded)
                   (OperationalError "database is locked") eq_refl).
    reflexivity.
  - rewrite (proj2 (etl_once_without_a_listing env_ok w_empty) eq_refl eq_refl).
    reflexivity.
Defined.

(** London's answer has [null] for [dt]: the two good rows are not stored
    either. *)
Lemma etl_once_with_a_null_report_time :
  exists w',
    etl_once env_london_without_time w_seeded = (Raise IntegrityError, w')
    /\ fact_rows "weather.db" w' = []
    /\ length (to_sql_calls (trace w')) = 1%nat.
Proof.
  destruct (to_frame env_london_without_time
              (fetched env_london_without_time (map to_loc_dict three_cities)))
    as [df|e] eqn:Hdf; [| discriminate Hdf].
  destruct (etl_once_rejects_the_whole_batch_for_one_missing_time env_london_without_time
              w_seeded three_cities {| fw_declared := true; fw_rows := [] |} df)
    as (w' & Hrun & _ & Hrows & Hsql).
  - reflexivity.
  - reflexivity.
  - reflexivity.
  - reflexivity.
  - reflexivity.
  - exact Hdf.
  - apply Exists_cons_tl, Exists_cons_hd. reflexivity.
  - exists w'. split; [exact Hrun |]. split; [exact Hrows |].
    rewrite Hsql. reflexivity.
Defined.

(** Two cycles with the same answers: six rows, each observation twice. *)
Lemma two_cycles_store_six_rows :
  exists df,
    length df = 3%nat
    /\ map snd (fact_rows "weather.db"
                  (snd (etl_once env_ok (snd (etl_once env_ok w_seeded)))))
       = df ++ df.
Proof.
  destruct (etl_once_again_stores_the_same_observations_again env_ok w_seeded three_cities)
    as (df & _ & Hfirst & _ & Hsecond).
  - reflexivity.
  - apply Exists_cons_hd. reflexivity.
  - reflexivity.
  - exists df. split; [| exact Hsecond].
    change (map snd (fact_rows (DB_PATH env_ok) w_seeded) ++ df) with df in Hfirst.
    rewrite <- Hfirst. reflexivity.
Defined.

(** No connection, and an answer that is not JSON. *)
Lemma fetch_one_record_without_an_answer :
  fst (fetch_one_record env_no_answers london w_empty) = Raise ConnectionError
  /\ fst (fetch_one_record env_no_answers new_york w_empty) = Raise JSONDecodeError.
Proof.
  split.
  - apply (proj1 (fetch_one_record_asks_once_and_passes_failures_on
                    env_no_answers london w_empty)).
    reflexivity.
  - apply (proj1 (proj2 (fetch_one_record_asks_once_and_passes_failures_on
                           env_no_answers new_york w_empty)) 200);
      [reflexivity | unfold error_status; lia].
Defined.

(** A longer body with status 203 gives the record of the short one. *)
Lemma fetch_one_record_on_a_longer_body :
  fst (fetch_one_record env_ok bengaluru w_empty)
  = fst (fetch_one_record env_with_more bengaluru w_seeded)
  /\ is_ok (fst (fetch_one_record env_ok bengaluru w_empty)) = true.
Proof.
  apply (fetch_one_record_reads_only_the_expected_fields env_ok env_with_more bengaluru
           w_empty w_seeded 200 203 (sample_body 1700000000) body_with_more
           (flat_fields (sample_record 1 1700000000)));
    try reflexivity; unfold error_status; lia.
Defined.

(** A complete environment file, and one with an empty mail password. *)
Lemma load_config_on_the_sample_files :
  (exists c, load_config int_of_sample environ_complete = inr c /\ SMTP_PORT c = 587)
  /\ (exists err, load_config int_of_sample environ_without_password = inl err).
Proof.
  pose proof (load_config_needs_every_setting int_of_sample environ_complete)
    as (Hgood & _ & Hall & _).
  destruct Hall as (c & Hc); [repeat constructor | reflexivity |].
  split.
  - exists c. split; [exact Hc |]. apply (Hgood c Hc). reflexivity.
  - apply (proj1 (proj2 (load_config_needs_every_setting
                           int_of_sample environ_without_password)) "EMAIL_PASSWORD");
      [cbn; tauto | reflexivity].
Defined.

(** The default, a PostgreSQL URL, and a path that holds the scheme again. *)
Lemma db_path_of_sample_urls :
  DashboardData.db_path ∅ = "weather.db"
  /\ DashboardData.db_path {[ "DB_URL" := "postgresql://etl@db/weather" ]}
     = "postgresql://etl@db/weather"
  /\ DashboardData.db_path {[ "DB_URL" := "sqlite:///data/weather.db" ]}
     = "data/weather.db"
  /\ DashboardData.db_path {[ "DB_URL" := "sqlite:///data/sqlite:///x.db" ]}
     = "data/x.db".
Proof.
  split; [| split; [| split]].
  - apply (proj1 (db_path_strips_the_scheme ∅)). reflexivity.
  - apply (proj1 (proj2 (db_path_strips_the_scheme
                           {[ "DB_URL" := "postgresql://etl@db/weather" ]})));
      reflexivity.
  - apply (proj2 (proj2 (db_path_strips_the_scheme
                           {[ "DB_URL" := "sqlite:///data/weather.db" ]}))
                 "data/weather.db"); reflexivity.
  - destruct (proj2 (proj2 (db_path_strips_the_scheme
                               {[ "DB_URL" := "sqlite:///data/sqlite:///x.db" ]}))
                     "data/sqlite:///x.db") as [H _]; [reflexivity |].
    rewrite H. reflexivity.
Defined.

Lemma consistent_db_one_observation : consistent db_one_observation.
Proof.
  split; [| split].
  - cbn. repeat (apply NoDup_cons_2; [intros H; apply list_elem_of_In in H; cbn in H; lia |]).
    apply NoDup_nil_2.
  - cbn. repeat (apply NoDup_cons_2; [intros H; apply list_elem_of_In in H; cbn in H; lia |]).
    apply NoDup_nil_2.
  - cbn. intros i [<- | []]. tauto.
Qed.

Lemma reader_newest_first_rearranges (l : list (fact_row * dim_row)) :
  Permutation (DashboardData.sql_order reader_newest_first l) l.
Proof. symmetry. apply Permutation_rev. Qed.

(** One observation for location 2 becomes one row for London. *)
Lemma load_data_of_one_observation :
  DashboardData.load_data_uncached reader_newest_first db_one_observation
  = Some [london_row].
Proof.
  destruct (load_data_shows_each_observation_once reader_newest_first db_one_observation
              three_cities
              {| fw_declared := true;
                 fw_rows := match fact_weather db_one_observation with
                            | Some t => fw_rows t
                            | None => []
                            end |}
              reader_newest_first_rearranges
              consistent_db_one_observation eq_refl eq_refl) as (df & Hload & _).
  rewrite Hload. f_equal. vm_compute in Hload. injection Hload as <-. reflexivity.
Defined.

(** After a cycle on the seeded database the dashboard has three rows, one
    per city; after a second cycle the database has six and a dashboard
    that loaded before it still shows the three. *)
Lemma dashboard_after_one_cycle :
  exists df,
    DashboardData.load_data reader_newest_first None
      (get_db "weather.db" (snd (etl_once env_ok w_seeded))) = (Some df, Some df)
    /\ map Dashboard.city_name df = ["New York"; "London"; "Bengaluru"]
    /\ length (fact_rows "weather.db"
                 (snd (etl_once env_ok (snd (etl_once env_ok w_seeded))))) = 6%nat
    /\ fst (DashboardData.load_data reader_newest_first (Some df)
              (get_db "weather.db"
                 (snd (etl_once env_ok (snd (etl_once env_ok w_seeded))))))
       = Some df.
Proof.
  destruct (dashboard_lists_what_the_pipeline_stored env_ok reader_newest_first w_seeded
              "weather.db" reader_newest_first_rearranges
              all_consistent_w_seeded (snd (etl_once env_ok w_seeded))
              (or_intror eq_refl) three_cities
              {| fw_declared := true;
                 fw_rows := fact_rows "weather.db" (snd (etl_once env_ok w_seeded)) |})
    as (df & Hload & _ & _ & Hlater); [reflexivity | reflexivity |].
  exists df. split; [exact Hload |].
  split; [vm_compute in Hload; injection Hload as <-; reflexivity |].
  split; [vm_compute; reflexivity |].
  reflexivity.
Defined.

(** Three rows: 01:00 on the first day, 00:00 and 12:00 on the second.  As
    the page opens, the row at noon of the last day is not shown. *)
Lemma first_view_of_three_rows :
  DashboardData.sidebar_defaults [london_row; bengaluru_row; new_york_row]
  = Some (["London"; "Bengaluru"; "New York"], 0, 1)
  /\ Dashboard.df_filtered ["London"; "Bengaluru"; "New York"] 0 1
       [london_row; bengaluru_row; new_york_row]
     = [london_row; bengaluru_row].
Proof.
  split; [reflexivity |].
  rewrite (proj1 (first_view_stops_at_midnight_of_the_last_day
                    [london_row; bengaluru_row; new_york_row]
                    ["London"; "Bengaluru"; "New York"] 0 1 eq_refl)).
  reflexivity.
Defined.
